(** * Follow-up retrieval and orchestration layer of the clause analyser

    A shallow embedding of the TypeScript sources

      - [src/lib/semantic-search.ts]          (module [SemanticSearch])
      - [src/lib/langchain-api-services.ts]   (module [LangchainApi])
      - [src/lib/api-services.ts]             (module [ApiServices])
      - [src/lib/api-wrapper.ts]              (module [ApiWrapper])
      - [src/components/BatchAnalysisDemo.tsx] (module [BatchDemo])
      - the page [LangChainDemoPage]: the callback it gives to the batch
        form (module [LangChainDemoPage])
      - [src/components/FollowupQuestionsSection.tsx]
        (module [FollowupSection])
      - [src/components/RiskBadge.tsx]        (module [RiskBadge])

    Strings are Latin-1 texts (one [ascii] per UTF-16 code unit below 256,
    the domain on which [btoa] is defined).  Numbers that the code only
    compares or averages (relevance scores) are rationals.  Asynchronous
    code is run sequentially; every call to an outside service is recorded
    in an event log carried by the [World]. *)

From Stdlib Require Import List String Ascii Bool Arith Lia QArith Sorted.
From Stdlib Require Import DecimalString.
Import ListNotations.
Open Scope string_scope.
Open Scope nat_scope.
Set Warnings "-register-all".

(** ** JavaScript strings *)

Module JsString.

Definition dq : string := String (ascii_of_nat 34) EmptyString.
Definition nl : string := String (ascii_of_nat 10) EmptyString.

(** [s.slice(0, n)] for a count [n]. *)
Fixpoint slice0 (n : nat) (s : string) : string :=
  match n, s with
  | S k, String c r => String c (slice0 k r)
  | _, _ => EmptyString
  end.

(** White space and line terminators of ECMAScript below code 256. *)
Definition is_space (c : ascii) : bool :=
  let n := nat_of_ascii c in
  ((9 <=? n) && (n <=? 13)) || (n =? 32) || (n =? 160).

Fixpoint trimStart (s : string) : string :=
  match s with
  | String c r => if is_space c then trimStart r else s
  | EmptyString => EmptyString
  end.

(** Drops the trailing white space: a character is kept when it is not
    a space or when something is kept after it. *)
Fixpoint trimEnd (s : string) : string :=
  match s with
  | EmptyString => EmptyString
  | String c r =>
      match trimEnd r with
      | EmptyString => if is_space c then EmptyString else String c EmptyString
      | r' => String c r'
      end
  end.

Definition trim (s : string) : string := trimEnd (trimStart s).

Definition lower_char (c : ascii) : ascii :=
  let n := nat_of_ascii c in
  if ((65 <=? n) && (n <=? 90))
     || ((192 <=? n) && (n <=? 222) && negb (n =? 215))
  then ascii_of_nat (n + 32) else c.

Definition upper_char (c : ascii) : ascii :=
  let n := nat_of_ascii c in
  if (97 <=? n) && (n <=? 122) then ascii_of_nat (n - 32) else c.

Fixpoint map_chars (f : ascii -> ascii) (s : string) : string :=
  match s with
  | EmptyString => EmptyString
  | String c r => String (f c) (map_chars f r)
  end.

Definition toLowerCase : string -> string := map_chars lower_char.

(** [toUpperCase] on ASCII text (it is only applied to the chunk type
    names, which are ASCII). *)
Definition toUpperCase : string -> string := map_chars upper_char.

Definition isEmpty (s : string) : bool :=
  match s with EmptyString => true | _ => false end.

(** [parts.join(sep)] *)
Fixpoint join (sep : string) (parts : list string) : string :=
  match parts with
  | [] => EmptyString
  | [p] => p
  | p :: rest => p ++ sep ++ join sep rest
  end.

(** Decimal rendering of an index, as in a template literal. *)
Definition of_nat (n : nat) : string := NilEmpty.string_of_uint (Nat.to_uint n).

(** *** [btoa]: base64 of a Latin-1 string *)

Definition b64_alphabet : list ascii :=
  list_ascii_of_string
    "ABCDEFGHIJKLMNOPQRSTUVWXYZabcdefghijklmnopqrstuvwxyz0123456789+/".

Definition b64_digit (n : nat) : ascii := nth n b64_alphabet "="%char.

Fixpoint btoa_codes (l : list nat) : string :=
  match l with
  | a :: b :: c :: r =>
      String (b64_digit (a / 4))
        (String (b64_digit ((a mod 4) * 16 + b / 16))
           (String (b64_digit ((b mod 16) * 4 + c / 64))
              (String (b64_digit (c mod 64)) (btoa_codes r))))
  | [a; b] =>
      String (b64_digit (a / 4))
        (String (b64_digit ((a mod 4) * 16 + b / 16))
           (String (b64_digit ((b mod 16) * 4)) "="))
  | [a] =>
      String (b64_digit (a / 4))
        (String (b64_digit ((a mod 4) * 16)) "==")
  | [] => EmptyString
  end.

Definition btoa (s : string) : string :=
  btoa_codes (map nat_of_ascii (list_ascii_of_string s)).

(** *** [JSON.stringify] of a string: QuoteJSONString *)

Definition hex_digit (n : nat) : ascii :=
  nth n (list_ascii_of_string "0123456789abcdef") "0"%char.

Definition bs : string := String (ascii_of_nat 92) EmptyString.

Definition quote_char (c : ascii) : string :=
  let n := nat_of_ascii c in
  if n =? 34 then bs ++ dq
  else if n =? 92 then bs ++ bs
  else if n =? 8 then bs ++ "b"
  else if n =? 9 then bs ++ "t"
  else if n =? 10 then bs ++ "n"
  else if n =? 12 then bs ++ "f"
  else if n =? 13 then bs ++ "r"
  else if n <? 32 then
    bs ++ "u00" ++ String (hex_digit (n / 16)) (String (hex_digit (n mod 16)) EmptyString)
  else String c EmptyString.

Fixpoint quote_body (s : string) : string :=
  match s with
  | EmptyString => EmptyString
  | String c r => quote_char c ++ quote_body r
  end.

Definition quote (s : string) : string := dq ++ quote_body s ++ dq.

End JsString.

(** ** Values produced by [JSON.parse], exceptions *)

Inductive JSON : Type :=
| JNull
| JBool (b : bool)
| JNum (q : Q)
| JStr (s : string)
| JArr (items : list JSON)
| JObj (fields : list (string * JSON)).

(** A thrown value: an [Error] with its message, a [TypeError] raised by
    the runtime (property access on [null], call of a non-function), or
    the [SyntaxError] of [JSON.parse]. *)
Inductive JsError : Type :=
| Error (message : string)
| TypeError
| SyntaxError.

Inductive Exc (A : Type) : Type :=
| Ok (a : A)
| Throw (e : JsError).
Arguments Ok {A} a.
Arguments Throw {A} e.

Definition exc_bind {A B} (x : Exc A) (k : A -> Exc B) : Exc B :=
  match x with
  | Ok a => k a
  | Throw e => Throw e
  end.

(** [try { body } catch { handler }] on pure code. *)
Definition exc_catch {A} (body : Exc A) (handler : JsError -> Exc A) : Exc A :=
  match body with
  | Ok a => Ok a
  | Throw e => handler e
  end.

Declare Scope exc_scope.
Delimit Scope exc_scope with exc.
Notation "x <~ c ;; k" := (exc_bind c (fun x => k))
  (at level 100, c at next level, right associativity) : exc_scope.

Module Js.

(** [v.key]: [None] is [undefined]; reading a property of [null] throws. *)
Fixpoint lookup (key : string) (fields : list (string * JSON)) : option JSON :=
  match fields with
  | [] => None
  | (k, v) :: rest => if String.eqb k key then Some v else lookup key rest
  end.

Definition get (v : JSON) (key : string) : Exc (option JSON) :=
  match v with
  | JNull => Throw TypeError
  | JObj fields => Ok (lookup key fields)
  | _ => Ok None
  end.

(** ToBoolean *)
Definition truthy (v : option JSON) : bool :=
  match v with
  | None => false
  | Some JNull => false
  | Some (JBool b) => b
  | Some (JNum q) => negb (Qeq_bool q 0%Q)
  | Some (JStr s) => negb (JsString.isEmpty s)
  | Some (JArr _) => true
  | Some (JObj _) => true
  end.

Section ToString.
(** Number::toString, a primitive of the runtime. *)
Variable Number_toString : Q -> string.

(** [String(v)] *)
Fixpoint toString (v : JSON) : string :=
  match v with
  | JNull => "null"
  | JBool true => "true"
  | JBool false => "false"
  | JNum q => Number_toString q
  | JStr s => s
  | JArr items =>
      JsString.join ","
        (map (fun x => match x with JNull => EmptyString | _ => toString x end) items)
  | JObj _ => "[object Object]"
  end.

Definition String_ (v : option JSON) : string :=
  match v with
  | None => "undefined"
  | Some x => toString x
  end.
End ToString.

(** [v?.toLowerCase()]: [undefined] for a missing or [null] [v]; only
    strings have the method. *)
Definition toLowerCase_opt (v : option JSON) : Exc (option string) :=
  match v with
  | None => Ok None
  | Some JNull => Ok None
  | Some (JStr s) => Ok (Some (JsString.toLowerCase s))
  | Some _ => Throw TypeError
  end.

(** [v.toLowerCase()] *)
Definition toLowerCase (v : option JSON) : Exc string :=
  match v with
  | Some (JStr s) => Ok (JsString.toLowerCase s)
  | _ => Throw TypeError
  end.

End Js.

(** ** Data model *)

(** [ClauseChunk] and its metadata ([semantic-search.ts]). *)
Inductive ChunkType : Type :=
| simplified | risky_terms | government_articles | original.

Definition ChunkType_name (t : ChunkType) : string :=
  match t with
  | simplified => "simplified"
  | risky_terms => "risky_terms"
  | government_articles => "government_articles"
  | original => "original"
  end.

Record ChunkMetadata : Type := mkMetadata {
  chunkIndex : nat;
  source : string;
  type : ChunkType;
  relevanceScore : option Q
}.

Record ClauseChunk : Type := mkChunk {
  content : string;
  metadata : ChunkMetadata
}.

Record Document : Type := mkDocument {
  pageContent : string;
  doc_metadata : ChunkMetadata
}.

(** [GoogleGenerativeAIEmbeddings] instance: what it was constructed with. *)
Record Embeddings : Type := mkEmbeddings {
  emb_apiKey : string;
  emb_model : string
}.

(** [MemoryVectorStore]: the embedded documents and the embeddings
    instance used for queries.  The vectors stay inside the provider. *)
Record MemoryVectorStore : Type := mkVectorStore {
  vs_documents : list Document;
  vs_embeddings : Embeddings
}.

(** [VectorStoreData].  [ref] is the identity of the JavaScript object:
    each object built by [createClauseVectorStore] gets a fresh one, and
    the cache hands out the object itself. *)
Record VectorStoreData : Type := mkStoreData {
  ref : nat;
  vectorStore : MemoryVectorStore;
  chunks : list ClauseChunk;
  embeddings : Embeddings
}.

(** [AnalysisResponse] ([langchain-api-services.ts]); the follow-up
    functions take the same shape as [analysisData]. *)
Record RiskyTerm : Type := mkRiskyTerm {
  term : string;
  severity : string;
  explanation : string
}.

Record GovernmentArticle : Type := mkArticle {
  title : string;
  url : string;
  relevance : string
}.

Record AnalysisResponse : Type := mkAnalysis {
  simplifiedExplanation : string;
  riskyTerms : list RiskyTerm;
  governmentArticles : list GovernmentArticle
}.

(** [APIConfig] ([api-wrapper.ts]).  The fields are only ever tested for
    truthiness, so they hold the truth value. *)
Record APIConfig : Type := mkConfig {
  useLangChain : bool;
  enableBatchProcessing : bool;
  enableAdvancedPrompts : bool;
  enableSemanticSearch : bool
}.

(** ** The world outside the functions *)

Inductive ToastLevel : Type := toast_info | toast_success | toast_warning | toast_error.

Inductive Event : Type :=
| EvToast (level : ToastLevel) (message : string)
| EvReadApiKey
| EvNewEmbeddings (apiKey : string)
| EvNewLLM (apiKey : string)
| EvModelCall (apiKey prompt : string)
| EvFetch (apiKey prompt : string)
| EvEmbedDocuments (apiKey : string) (texts : list string)
| EvSimilaritySearch (apiKey question : string) (k : nat).

Record World : Type := mkWorld {
  (* module variable [apiConfig] of the wrapper *)
  apiConfig : APIConfig;
  (* localStorage item 'clause-clarity-api-config' *)
  ls_api_config : option string;
  (* localStorage item 'gemini_api_key' *)
  ls_gemini_api_key : option string;
  (* signed-in user, if any *)
  auth_user : option string;
  (* the user's row of table api_keys, if the query yields one: its
     gemini_api_key column *)
  api_keys_row : option (option string);
  (* table chat_history: user, clause, analysis *)
  chat_history : list (string * string * AnalysisResponse);
  (* [vectorStoreCache], a [Map] in insertion order *)
  vectorStoreCache : list (string * VectorStoreData);
  (* next fresh object identity *)
  next_ref : nat;
  (* calls to outside services and notifications, oldest first *)
  events : list Event
}.

Definition set_apiConfig (c : APIConfig) (w : World) : World :=
  mkWorld c (ls_api_config w) (ls_gemini_api_key w) (auth_user w) (api_keys_row w)
    (chat_history w) (vectorStoreCache w) (next_ref w) (events w).
Definition set_ls_api_config (v : option string) (w : World) : World :=
  mkWorld (apiConfig w) v (ls_gemini_api_key w) (auth_user w) (api_keys_row w)
    (chat_history w) (vectorStoreCache w) (next_ref w) (events w).
Definition set_chat_history (h : list (string * string * AnalysisResponse)) (w : World) : World :=
  mkWorld (apiConfig w) (ls_api_config w) (ls_gemini_api_key w) (auth_user w) (api_keys_row w)
    h (vectorStoreCache w) (next_ref w) (events w).
Definition set_vectorStoreCache (c : list (string * VectorStoreData)) (w : World) : World :=
  mkWorld (apiConfig w) (ls_api_config w) (ls_gemini_api_key w) (auth_user w) (api_keys_row w)
    (chat_history w) c (next_ref w) (events w).
Definition set_next_ref (n : nat) (w : World) : World :=
  mkWorld (apiConfig w) (ls_api_config w) (ls_gemini_api_key w) (auth_user w) (api_keys_row w)
    (chat_history w) (vectorStoreCache w) n (events w).
Definition set_events (l : list Event) (w : World) : World :=
  mkWorld (apiConfig w) (ls_api_config w) (ls_gemini_api_key w) (auth_user w) (api_keys_row w)
    (chat_history w) (vectorStoreCache w) (next_ref w) l.

(** The services and runtime primitives the code calls but does not
    define.  A provider call either yields its result or throws. *)
Record Platform : Type := mkPlatform {
  (* [JSON.parse] *)
  JSON_parse : string -> Exc JSON;
  (* Number::toString *)
  Number_toString : Q -> string;
  (* [new URL(s)] succeeds *)
  URL_parses : string -> bool;
  (* capture group 1 of the fenced-block pattern of [parseJSONResponse] *)
  match_code_block : string -> option string;
  (* whole match of the array pattern of [parseJSONResponse] *)
  match_json_array : string -> option string;
  (* [RecursiveCharacterTextSplitter.splitText] as configured by
     [createTextSplitter] *)
  splitText : string -> list string;
  (* [clauses.split(...)] with the pattern of the batch demo *)
  split_clauses : string -> list string;
  (* the chat model reached through a chain: API key, rendered prompt *)
  llm_complete : string -> string -> Exc string;
  (* the REST endpoint reached by [callGeminiAPI]: API key, prompt *)
  gemini_fetch : string -> string -> Exc string;
  (* [new GoogleGenerativeAIEmbeddings({ apiKey, model })]: the
     constructor accepts the key or throws *)
  new_embeddings : string -> Exc unit;
  (* embedding of the documents' texts by [MemoryVectorStore.fromDocuments] *)
  embed_documents : string -> list string -> Exc unit;
  (* [similaritySearchWithScore] on a store: question and [k] *)
  similarity_search : MemoryVectorStore -> string -> nat -> Exc (list (Document * Q))
}.

(** ** Effectful code: world passing with exceptions *)

Definition M (A : Type) : Type := World -> Exc A * World.

Definition ret {A} (a : A) : M A := fun w => (Ok a, w).
Definition throw {A} (e : JsError) : M A := fun w => (Throw e, w).
Definition bind {A B} (m : M A) (k : A -> M B) : M B :=
  fun w => match m w with
           | (Ok a, w') => k a w'
           | (Throw e, w') => (Throw e, w')
           end.
(** [try { body } catch (e) { handler }] *)
Definition try_catch {A} (body : M A) (handler : JsError -> M A) : M A :=
  fun w => match body w with
           | (Ok a, w') => (Ok a, w')
           | (Throw e, w') => handler e w'
           end.
Definition lift {A} (x : Exc A) : M A := fun w => (x, w).
Definition get_world : M World := fun w => (Ok w, w).
Definition modify (f : World -> World) : M unit := fun w => (Ok tt, f w).
Definition emit (ev : Event) : M unit :=
  modify (fun w => set_events (events w ++ [ev]) w).
Definition toast (level : ToastLevel) (message : string) : M unit :=
  emit (EvToast level message).

Declare Scope m_scope.
Delimit Scope m_scope with m.
Notation "x <- c ;; k" := (bind c (fun x => k))
  (at level 100, c at next level, right associativity) : m_scope.
Notation "c ;;; k" := (bind c (fun _ => k))
  (at level 100, right associativity) : m_scope.

(** [await Promise.all(items.map(f))]: every call is started, so the
    effects of all of them take place; the joint promise rejects when one
    of them does (here: with the first rejection in list order). *)
Fixpoint promise_all {A B} (f : A -> M B) (items : list A) : M (list B) :=
  match items with
  | [] => ret []
  | x :: rest =>
      fun w =>
        let '(r, w1) := f x w in
        let '(rs, w2) := promise_all f rest w1 in
        match r, rs with
        | Ok b, Ok bs => (Ok (b :: bs), w2)
        | Throw e, _ => (Throw e, w2)
        | Ok _, Throw e => (Throw e, w2)
        end
  end.

(** The events that reach the model provider, and those that reach the
    embedding provider. *)
Definition is_model_call (ev : Event) : bool :=
  match ev with
  | EvModelCall _ _ | EvFetch _ _ => true
  | _ => false
  end.
Definition model_calls (w : World) : list Event := filter is_model_call (events w).

(** ** [langchain-api-services.ts] *)

Module LangchainApi.
Section WithPlatform.
Context (P : Platform).
Import JsString.
Local Open Scope m_scope.

(** A missing, null or empty key is falsy. *)
Definition usable_key (k : option string) : option string :=
  match k with
  | Some s => if isEmpty s then None else Some s
  | None => None
  end.

(** Function to get the current user's Gemini API key *)
Definition getGeminiApiKey : M (option string) :=
  emit EvReadApiKey ;;;
  w <- get_world ;;
  match auth_user w with
  | Some _ =>
      match api_keys_row w with
      | Some key => ret key
      | None => ret (ls_gemini_api_key w)
      end
  | None => ret (ls_gemini_api_key w)
  end.

(** [ChatGoogleGenerativeAI] instance: the key it was built with (the
    other parameters are constants). *)
Definition createLLMInstance (apiKey : string) : M string :=
  emit (EvNewLLM apiKey) ;;; ret apiKey.

(** [template.format({clause})]: the braces of the templates are
    literal text once rendered. *)
Definition simplificationTemplate (clause : string) : string :=
"
You are a legal expert specializing in simplifying complex legal language for non-lawyers.

Analyze and simplify the following legal clause in plain English. Provide a clear, concise explanation that anyone can understand:

Legal Clause: " ++ dq ++ clause ++ dq ++ "

Requirements:
- Use simple, everyday language
- Explain the practical implications
- Avoid legal jargon
- Keep it concise but comprehensive
- Focus on what this means for the average person

Simplified Explanation:
".

Definition riskyTermsTemplate (clause : string) : string :=
"
You are a legal risk assessment expert. Analyze the following legal clause and identify genuinely problematic terms.

Legal Clause: " ++ dq ++ clause ++ dq ++ "

CRITICAL GUIDELINES:
- Only identify terms that create REAL legal risks
- If the text is too short (less than 15 words) or lacks legal substance, return empty array
- Don't force findings - only report legitimate concerns
- Focus on terms with actual legal implications: indemnification, liability, termination, penalties, etc.
- Ignore common words unless they create specific legal risks

For each legitimate risky term, provide:
1. The specific term/phrase (exact text from clause)
2. Severity level (high/moderate/low)
3. Brief explanation of the legal risk

Return ONLY valid JSON in this exact format:
[
  {
    " ++ dq ++ "term" ++ dq ++ ": " ++ dq ++ "specific legal term or phrase" ++ dq ++ ",
    " ++ dq ++ "severity" ++ dq ++ ": " ++ dq ++ "high/moderate/low" ++ dq ++ ", 
    " ++ dq ++ "explanation" ++ dq ++ ": " ++ dq ++ "brief explanation of legal risk" ++ dq ++ "
  }
]

If no risky terms exist, return: []
".

Definition governmentArticlesTemplate (clause : string) : string :=
"
You are a legal research expert specializing in Indian law. Analyze the legal clause and identify relevant government articles, laws, or regulations.

Legal Clause: " ++ dq ++ clause ++ dq ++ "

RESEARCH GUIDELINES:
- Only identify DIRECTLY relevant articles/laws/regulations
- Focus on Indian legal framework
- If no relevant articles exist, return empty array
- Use official sources:
  * indiankanoon.org
  * legislative.gov.in  
  * lawfinderlive.com
- Ensure URLs are valid and accessible
- Look for specific legal provisions that apply

For each relevant article, provide:
1. Official title of the law/article
2. Valid URL to official source
3. Clear explanation of relevance

Return ONLY valid JSON in this exact format:
[
  {
    " ++ dq ++ "title" ++ dq ++ ": " ++ dq ++ "Article/Law title" ++ dq ++ ",
    " ++ dq ++ "url" ++ dq ++ ": " ++ dq ++ "https://official-source-url.com" ++ dq ++ ",
    " ++ dq ++ "relevance" ++ dq ++ ": " ++ dq ++ "Brief explanation of how this relates to the clause" ++ dq ++ "
  }
]

If no relevant articles exist, return: []
".

(** A chain [template | llm | StringOutputParser]: its LLM instance and
      its template. *)
Record Chain : Type := mkChain {
  chain_llm : string;
  chain_template : string -> string
}.

(** [chain.invoke(...)] with the template already applied to its input. *)
Definition invoke (llm : string) (prompt : string) : M string :=
  emit (EvModelCall llm prompt) ;;;
  lift (llm_complete P llm prompt).

(** Create processing chains using LangChain *)
Definition createAnalysisChains (apiKey : string) : M (Chain * Chain * Chain) :=
  llm <- createLLMInstance apiKey ;;
  ret (mkChain llm simplificationTemplate,
       mkChain llm riskyTermsTemplate,
       mkChain llm governmentArticlesTemplate).

(** Enhanced JSON parser with better error handling *)
Definition parseJSONResponse (response : string) (fallback : JSON) : Exc JSON :=
  exc_catch
    (JSON_parse P response)
    (fun _ =>
       exc_catch
         (match match_code_block P response with
          | Some block => JSON_parse P block
          | None =>
              match match_json_array P response with
              | Some found => JSON_parse P found
              | None => Ok fallback
              end
          end)
         (fun _ => Ok fallback)).

(** [items.filter(pred)] and [items.map(f)] with callbacks that may throw. *)
Fixpoint filterE {A} (pred : A -> Exc bool) (items : list A) : Exc (list A) :=
  match items with
  | [] => Ok []
  | x :: rest =>
      (keep <~ pred x ;;
       kept <~ filterE pred rest ;;
       Ok (if keep then x :: kept else kept))%exc
  end.

Fixpoint mapE {A B} (f : A -> Exc B) (items : list A) : Exc (list B) :=
  match items with
  | [] => Ok []
  | x :: rest =>
      (y <~ f x ;;
       ys <~ mapE f rest ;;
       Ok (y :: ys))%exc
  end.

(** [item.a && item.b && item.c] as a condition *)
Definition all_three (item : JSON) (a b c : string) : Exc bool :=
  (va <~ Js.get item a ;;
   if Js.truthy va then
     vb <~ Js.get item b ;;
     if Js.truthy vb then
       vc <~ Js.get item c ;;
       Ok (Js.truthy vc)
     else Ok false
   else Ok false)%exc.

(** [String(item.key).trim()] *)
Definition field_text (item : JSON) (key : string) : Exc string :=
  (v <~ Js.get item key ;;
   Ok (trim (Js.String_ (Number_toString P) v)))%exc.

Definition severity_levels : list string := ["high"; "moderate"; "low"].

Definition includes (l : list string) (x : option string) : bool :=
  match x with
  | Some s => existsb (String.eqb s) l
  | None => false
  end.

(** The object built for one item by the [map] of [validateRiskyTerms]:
    trimmed texts, and the severity lowered when it is one of the three
    levels, [moderate] otherwise. *)
Definition sanitizeRiskyTerm (t : JSON) : Exc RiskyTerm :=
  (term_ <~ field_text t "term" ;;
   sev <~ Js.get t "severity" ;;
   lowered <~ Js.toLowerCase_opt sev ;;
   severity_ <~ (if includes severity_levels lowered
                 then Js.toLowerCase sev
                 else Ok "moderate") ;;
   explanation_ <~ field_text t "explanation" ;;
   Ok (mkRiskyTerm term_ severity_ explanation_))%exc.

(** Validate and sanitize risky terms *)
Definition validateRiskyTerms (terms : JSON) : Exc (list RiskyTerm) :=
  match terms with
  | JArr items =>
      (kept <~ filterE (fun t => all_three t "term" "severity" "explanation") items ;;
       mapE sanitizeRiskyTerm kept)%exc
  | _ => Ok []
  end.

(** Validate and sanitize government articles *)
Definition validateGovernmentArticles (articles : JSON) : Exc (list GovernmentArticle) :=
  match articles with
  | JArr items =>
      (kept <~ filterE (fun a =>
                 present <~ all_three a "title" "url" "relevance" ;;
                 if present then
                   u <~ Js.get a "url" ;;
                   Ok (URL_parses P (Js.String_ (Number_toString P) u))
                 else Ok false) items ;;
       mapE (fun a =>
               title_ <~ field_text a "title" ;;
               url_ <~ field_text a "url" ;;
               relevance_ <~ field_text a "relevance" ;;
               Ok (mkArticle title_ url_ relevance_))
            kept)%exc
  | _ => Ok []
  end.

(** The part of [analyzeClause] after the model has answered:
    parse and validate responses. *)
Definition parse_and_validate (simplified_ riskyTermsResponse governmentArticlesResponse : string)
  : Exc AnalysisResponse :=
  (riskyTermsData <~ parseJSONResponse riskyTermsResponse (JArr []) ;;
   governmentArticlesData <~ parseJSONResponse governmentArticlesResponse (JArr []) ;;
   riskyTerms_ <~ validateRiskyTerms riskyTermsData ;;
   governmentArticles_ <~ validateGovernmentArticles governmentArticlesData ;;
   Ok (mkAnalysis (trim simplified_) riskyTerms_ governmentArticles_))%exc.

(** Store analysis in Supabase if user is logged in (a failed insert is
    only logged by the code; the row is recorded here). *)
Definition save_analysis (clause : string) (result : AnalysisResponse) : M unit :=
  w <- get_world ;;
  match auth_user w with
  | Some user => modify (fun w => set_chat_history (chat_history w ++ [(user, clause, result)]) w)
  | None => ret tt
  end.

(** Main analysis function using LangChain *)
Definition analyzeClause (clause : string) : M AnalysisResponse :=
  try_catch
    (apiKey <- getGeminiApiKey ;;
     match usable_key apiKey with
     | None =>
         toast toast_error "Please enter your Gemini API key in settings" ;;;
         throw (Error "Gemini API key not found")
     | Some key =>
         chains <- createAnalysisChains key ;;
         let '(simplificationChain, riskyTermsChain, governmentArticlesChain) := chains in
         toast toast_info "Analyzing your legal clause with advanced AI..." ;;;
         responses <- promise_all (fun c : Chain => invoke (chain_llm c) (chain_template c clause))
                        [simplificationChain; riskyTermsChain; governmentArticlesChain] ;;
         match responses with
         | [simplified_; riskyTermsResponse; governmentArticlesResponse] =>
             result <- lift (parse_and_validate simplified_ riskyTermsResponse
                               governmentArticlesResponse) ;;
             save_analysis clause result ;;;
             toast toast_success "Analysis completed successfully!" ;;;
             ret result
         | _ => throw TypeError
         end
     end)
    (fun error =>
       toast toast_error "Failed to analyze legal clause" ;;;
       throw error).

Definition followupTemplate (originalClause question : string) : string :=
"
You are a helpful legal assistant providing concise answers about legal clauses.

Original Legal Clause: " ++ dq ++ originalClause ++ dq ++ "

User's Question: " ++ dq ++ question ++ dq ++ "

Instructions:
- Provide a CONCISE and DIRECT answer (2-3 sentences maximum)
- Focus only on answering the specific question asked
- Use simple, clear language that non-lawyers can understand
- If it requires a yes/no answer, start with that
- Stay focused on the legal clause context
- Avoid unnecessary explanations or examples

Answer:
".

(** Follow-up question handler using LangChain *)
Definition submitFollowupQuestion (question originalClause : string) : M string :=
  try_catch
    (apiKey <- getGeminiApiKey ;;
     match usable_key apiKey with
     | None =>
         toast toast_error "Please enter your Gemini API key in settings" ;;;
         throw (Error "Gemini API key not found")
     | Some key =>
         llm <- createLLMInstance key ;;
         toast toast_info "Getting answer to your question..." ;;;
         answer <- invoke llm (followupTemplate originalClause question) ;;
         toast toast_success "Answer ready!" ;;;
         ret (trim answer)
     end)
    (fun error =>
       toast toast_error "Failed to submit follow-up question" ;;;
       throw error).

(** Advanced batch processing for multiple clauses *)
Definition analyzeBatchClauses (clauses : list string) : M (list AnalysisResponse) :=
  try_catch
    (apiKey <- getGeminiApiKey ;;
     match usable_key apiKey with
     | None => throw (Error "Gemini API key not found")
     | Some _ =>
         toast toast_info ("Analyzing " ++ of_nat (List.length clauses) ++ " clauses in batch...") ;;;
         results <- promise_all analyzeClause clauses ;;
         toast toast_success ("Successfully analyzed " ++ of_nat (List.length results) ++ " clauses!") ;;;
         ret results
     end)
    (fun error =>
       toast toast_error "Failed to analyze clauses in batch" ;;;
       throw error).

End WithPlatform.
End LangchainApi.

(** ** [api-services.ts]: the traditional follow-up path *)

Module ApiServices.
Section WithPlatform.
Context (P : Platform).
Import JsString.
Local Open Scope m_scope.

(** Same function as in the LangChain service. *)
Definition getGeminiApiKey : M (option string) := LangchainApi.getGeminiApiKey.

(** Function to handle Gemini API requests: the request to the REST
    endpoint and the extraction of the first candidate's text are one
    provider call. *)
Definition callGeminiAPI (prompt : string) (apiKey : option string) : M string :=
  match LangchainApi.usable_key apiKey with
  | None => throw (Error "No API key provided")
  | Some key =>
      try_catch
        (emit (EvFetch key prompt) ;;;
         lift (gemini_fetch P key prompt))
        (fun error => throw error)
  end.

Definition followupPrompt (originalClause question : string) : string :=
"
      I previously analyzed this legal clause: " ++ dq ++ originalClause ++ dq ++ "
      
      Now I have a follow-up question: " ++ dq ++ question ++ dq ++ "
      
      Please provide a CONCISE answer to my question about this legal clause. Follow these guidelines:
      - Keep the answer brief and to the point (2-3 sentences maximum)
      - Focus only on directly answering the question
      - Use simple, clear language
      - Avoid unnecessary explanations or examples
      - If the question requires a yes/no answer, start with that
      
      Respond with ONLY the answer, no additional text or formatting.
    ".

Definition submitFollowupQuestion (question originalClause : string) : M string :=
  try_catch
    (apiKey <- getGeminiApiKey ;;
     match LangchainApi.usable_key apiKey with
     | None =>
         toast toast_error "Please enter your Gemini API key in settings" ;;;
         throw (Error "Gemini API key not found")
     | Some _ =>
         toast toast_info "Getting answer to your question..." ;;;
         answer <- callGeminiAPI (followupPrompt originalClause question) apiKey ;;
         ret (trim answer)
     end)
    (fun error =>
       toast toast_error "Failed to submit follow-up question" ;;;
       throw error).

End WithPlatform.
End ApiServices.

(** ** [semantic-search.ts] *)

Module SemanticSearch.

(** Options of [retrieveRelevantContext]; an absent field takes its
      default.  [maxResults] is a count. *)
Record Options : Type := mkOptions {
  maxResults : option nat;
  relevanceThreshold : option Q;
  includeMetadata : option bool
}.

Record RetrievalResult : Type := mkRetrieval {
  relevantChunks : list ClauseChunk;
  contextSummary : string;
  totalChunks : nat;
  averageRelevance : Q
}.

Record ContextMetrics : Type := mkMetrics {
  chunksUsed : nat;
  metrics_totalChunks : nat;
  metrics_averageRelevance : Q;
  tokensSaved : nat
}.

Record EnhancedFollowupResponse : Type := mkEnhanced {
  answer : string;
  relevantContext : string;
  contextMetrics : ContextMetrics
}.

(** *** The [Map] holding the cache, in insertion order *)

Section MapOps.
Context {V : Type}.

Fixpoint map_get (key : string) (m : list (string * V)) : option V :=
  match m with
  | [] => None
  | (k, v) :: rest => if String.eqb k key then Some v else map_get key rest
  end.

Definition map_has (key : string) (m : list (string * V)) : bool :=
  match map_get key m with Some _ => true | None => false end.

(** [m.set(key, v)]: a present key keeps its place, a new key goes last. *)
Fixpoint map_set (key : string) (v : V) (m : list (string * V)) : list (string * V) :=
  match m with
  | [] => [(key, v)]
  | (k, old) :: rest =>
      if String.eqb k key then (k, v) :: rest else (k, old) :: map_set key v rest
  end.

Fixpoint map_delete (key : string) (m : list (string * V)) : list (string * V) :=
  match m with
  | [] => []
  | (k, v) :: rest =>
      if String.eqb k key then rest else (k, v) :: map_delete key rest
  end.

(** [m.keys().next().value] *)
Definition first_key (m : list (string * V)) : option string :=
  match m with
  | [] => None
  | (k, _) :: _ => Some k
  end.
End MapOps.

(** [items.map((x, index) => f(x, index))] *)
Fixpoint mapi_from {A B} (i : nat) (f : A -> nat -> B) (items : list A) : list B :=
  match items with
  | [] => []
  | x :: rest => f x i :: mapi_from (S i) f rest
  end.
Definition mapi {A B} (f : A -> nat -> B) (items : list A) : list B := mapi_from 0 f items.

Section WithPlatform.
Context (P : Platform).
Import JsString.
Local Open Scope m_scope.

(** Create embeddings instance: the constructor is called with the key
    and may reject it. *)
Definition createEmbeddings (apiKey : string) : M Embeddings :=
  emit (EvNewEmbeddings apiKey) ;;;
  lift (new_embeddings P apiKey) ;;;
  ret (mkEmbeddings apiKey "embedding-001").

(** [JSON.stringify(analysisData)] *)
Definition stringify_riskyTerm (t : RiskyTerm) : string :=
  "{" ++ quote "term" ++ ":" ++ quote (term t) ++ ","
      ++ quote "severity" ++ ":" ++ quote (severity t) ++ ","
      ++ quote "explanation" ++ ":" ++ quote (explanation t) ++ "}".

Definition stringify_article (a : GovernmentArticle) : string :=
  "{" ++ quote "title" ++ ":" ++ quote (title a) ++ ","
      ++ quote "url" ++ ":" ++ quote (url a) ++ ","
      ++ quote "relevance" ++ ":" ++ quote (relevance a) ++ "}".

Definition JSON_stringify (d : AnalysisResponse) : string :=
  "{" ++ quote "simplifiedExplanation" ++ ":" ++ quote (simplifiedExplanation d) ++ ","
      ++ quote "riskyTerms" ++ ":[" ++ join "," (map stringify_riskyTerm (riskyTerms d)) ++ "],"
      ++ quote "governmentArticles" ++ ":["
      ++ join "," (map stringify_article (governmentArticles d)) ++ "]}".

(** Generate a cache key for the clause and its analysis *)
Definition generateCacheKey (originalClause : string) (analysisData : option AnalysisResponse)
  : string :=
  let baseKey := btoa (slice0 100 originalClause) in
  let analysisKey :=
    match analysisData with
    | Some d => btoa (slice0 50 (JSON_stringify d))
    | None => EmptyString
    end in
  baseKey ++ "_" ++ analysisKey.

(** The chunks pushed by the four [forEach] loops, in order. *)
Definition original_chunks (originalClause : string) : list ClauseChunk :=
  mapi (fun chunk index => mkChunk chunk (mkMetadata index "original_clause" original None))
       (splitText P originalClause).

Definition simplified_chunks (d : AnalysisResponse) : list ClauseChunk :=
  if isEmpty (simplifiedExplanation d) then []
  else mapi (fun chunk index =>
               mkChunk chunk (mkMetadata index "simplified_explanation" simplified None))
            (splitText P (simplifiedExplanation d)).

Definition risky_term_chunks (d : AnalysisResponse) : list ClauseChunk :=
  mapi (fun t index =>
          mkChunk ("Risky Term: " ++ dq ++ term t ++ dq ++ " (" ++ severity t
                     ++ " severity) - " ++ explanation t)
                  (mkMetadata index ("risky_term_" ++ term t) risky_terms None))
       (riskyTerms d).

Definition article_chunks (d : AnalysisResponse) : list ClauseChunk :=
  mapi (fun a index =>
          mkChunk ("Legal Article: " ++ dq ++ title a ++ dq ++ " - " ++ relevance a)
                  (mkMetadata index ("gov_article_" ++ of_nat index) government_articles None))
       (governmentArticles d).

Definition build_chunks (originalClause : string) (d : AnalysisResponse) : list ClauseChunk :=
  original_chunks originalClause ++ simplified_chunks d
    ++ risky_term_chunks d ++ article_chunks d.

Definition document_of (c : ClauseChunk) : Document :=
  mkDocument (content c) (metadata c).

(** [MemoryVectorStore.fromDocuments(documents, embeddings)] *)
Definition fromDocuments (documents : list Document) (e : Embeddings) : M MemoryVectorStore :=
  emit (EvEmbedDocuments (emb_apiKey e) (map pageContent documents)) ;;;
  lift (embed_documents P (emb_apiKey e) (map pageContent documents)) ;;;
  ret (mkVectorStore documents e).

(** A new [VectorStoreData] object. *)
Definition new_storeData (vs : MemoryVectorStore) (cs : list ClauseChunk) (e : Embeddings)
  : M VectorStoreData :=
  w <- get_world ;;
  modify (set_next_ref (S (next_ref w))) ;;;
  ret (mkStoreData (next_ref w) vs cs e).

(** Create and populate vector store with clause content and analysis *)
Definition createClauseVectorStore (originalClause : string) (analysisData : AnalysisResponse)
    (apiKey : string) : M VectorStoreData :=
  let cacheKey := generateCacheKey originalClause (Some analysisData) in
  w <- get_world ;;
  match map_get cacheKey (vectorStoreCache w) with
  | Some cached => ret cached
  | None =>
      try_catch
        (embeddings_ <- createEmbeddings apiKey ;;
         let chunks_ := build_chunks originalClause analysisData in
         let documents := map document_of chunks_ in
         vectorStore_ <- fromDocuments documents embeddings_ ;;
         storeData <- new_storeData vectorStore_ chunks_ embeddings_ ;;
         modify (fun w => set_vectorStoreCache
                            (map_set cacheKey storeData (vectorStoreCache w)) w) ;;;
         w1 <- get_world ;;
         (if 10 <? List.length (vectorStoreCache w1) then
            match first_key (vectorStoreCache w1) with
            | Some firstKey =>
                modify (fun w => set_vectorStoreCache
                                   (map_delete firstKey (vectorStoreCache w)) w)
            | None => ret tt
            end
          else ret tt) ;;;
         ret storeData)
        (fun _ => throw (Error "Failed to create vector store for semantic search"))
  end.

Definition default_maxResults : nat := 3.
Definition default_relevanceThreshold : Q := 7 # 10.

Definition maxResults_of (o : Options) : nat :=
  match maxResults o with Some n => n | None => default_maxResults end.
Definition relevanceThreshold_of (o : Options) : Q :=
  match relevanceThreshold o with Some t => t | None => default_relevanceThreshold end.
Definition includeMetadata_of (o : Options) : bool :=
  match includeMetadata o with Some b => b | None => true end.

(** The chunk returned for a search hit: the stored chunk with the same
    content, carrying the score; a hit not found among the chunks is
    reported with source 'unknown'. *)
Definition scored_chunk (vsd : VectorStoreData) (hit : Document * Q) : ClauseChunk :=
  let '(document, score) := hit in
  match find (fun c => String.eqb (content c) (pageContent document)) (chunks vsd) with
  | Some chunkData =>
      mkChunk (content chunkData)
        (mkMetadata (chunkIndex (metadata chunkData)) (source (metadata chunkData))
           (type (metadata chunkData)) (Some score))
  | None =>
      mkChunk (pageContent document) (mkMetadata 0 "unknown" original (Some score))
  end.

Definition summary_line (withPrefix : bool) (c : ClauseChunk) (index : nat) : string :=
  let prefix :=
    if withPrefix
    then "[" ++ toUpperCase (ChunkType_name (type (metadata c))) ++ "] "
    else EmptyString in
  of_nat (index + 1) ++ ". " ++ prefix ++ content c.

Definition score_or_zero (c : ClauseChunk) : Q :=
  match relevanceScore (metadata c) with Some s => s | None => 0%Q end.

Definition average (cs : list ClauseChunk) : Q :=
  if 0 <? List.length cs
  then (fold_left (fun sum c => sum + score_or_zero c) cs 0
        / inject_Z (Z.of_nat (List.length cs)))%Q
  else 0%Q.

(** Retrieve relevant context for a follow-up question *)
Definition retrieveRelevantContext (question : string) (vectorStoreData : VectorStoreData)
    (options : Options) : M RetrievalResult :=
  let maxResults_ := maxResults_of options in
  let relevanceThreshold_ := relevanceThreshold_of options in
  let includeMetadata_ := includeMetadata_of options in
  try_catch
    (emit (EvSimilaritySearch (emb_apiKey (vs_embeddings (vectorStore vectorStoreData)))
             question (maxResults_ * 2)) ;;;
     searchResults <- lift (similarity_search P (vectorStore vectorStoreData)
                              question (maxResults_ * 2)) ;;
     let relevantResults :=
       map (scored_chunk vectorStoreData)
         (firstn maxResults_
            (filter (fun hit => Qle_bool relevanceThreshold_ (snd hit)) searchResults)) in
     ret (mkRetrieval relevantResults
            (join (nl ++ nl) (mapi (summary_line includeMetadata_) relevantResults))
            (List.length (chunks vectorStoreData))
            (average relevantResults)))
    (fun _ =>
       let fallbackChunks := firstn maxResults_ (chunks vectorStoreData) in
       ret (mkRetrieval fallbackChunks
              (join (nl ++ nl) (map content fallbackChunks))
              (List.length (chunks vectorStoreData))
              0%Q)).

Definition enhancedFollowupTemplate (relevantContext question : string) : string :=
"
You are a helpful legal assistant providing precise answers about legal clauses using semantic context.

RELEVANT CONTEXT (automatically selected based on question relevance):
" ++ relevantContext ++ "

USER'S QUESTION: " ++ dq ++ question ++ dq ++ "

INSTRUCTIONS:
- Provide a CONCISE and DIRECT answer (2-3 sentences maximum)
- Use ONLY the relevant context provided above
- Focus on answering the specific question asked
- Use simple, clear language that non-lawyers can understand
- If the context doesn't contain enough information, say so clearly
- Reference specific parts of the context when relevant

ANSWER:
".

(** Enhanced follow-up question handler with semantic search *)
Definition submitEnhancedFollowupQuestion (question originalClause : string)
    (analysisData : AnalysisResponse) (apiKey : string) : M EnhancedFollowupResponse :=
  try_catch
    (vectorStoreData <- createClauseVectorStore originalClause analysisData apiKey ;;
     contextResult <- retrieveRelevantContext question vectorStoreData
                        (mkOptions (Some 3) (Some (6 # 10)) (Some true)) ;;
     llm <- LangchainApi.createLLMInstance apiKey ;;
     answer_ <- LangchainApi.invoke P llm
                  (enhancedFollowupTemplate (contextSummary contextResult) question) ;;
     let originalTokens :=
       String.length originalClause + String.length (JSON_stringify analysisData) in
     let contextTokens := String.length (contextSummary contextResult) in
     ret (mkEnhanced (trim answer_) (contextSummary contextResult)
            (mkMetrics (List.length (relevantChunks contextResult))
               (totalChunks contextResult)
               (averageRelevance contextResult)
               (originalTokens - contextTokens))))
    (fun _ => throw (Error "Failed to process enhanced follow-up question")).

(** Utility function to clear vector store cache *)
Definition clearVectorStoreCache : M unit :=
  modify (set_vectorStoreCache []).

(** Utility function to get cache statistics *)
Definition getVectorStoreCacheStats : M (nat * list string) :=
  w <- get_world ;;
  ret (List.length (vectorStoreCache w), map fst (vectorStoreCache w)).

End WithPlatform.
End SemanticSearch.

(** ** [api-wrapper.ts] *)

Module ApiWrapper.

(** [Partial<APIConfig>] *)
Record PartialConfig : Type := mkPartial {
  p_useLangChain : option bool;
  p_enableBatchProcessing : option bool;
  p_enableAdvancedPrompts : option bool;
  p_enableSemanticSearch : option bool
}.

(** What a follow-up returns: the enhanced response of the semantic
    path, or the plain answer of the two other paths. *)
Inductive FollowupResult : Type :=
| Enhanced (r : SemanticSearch.EnhancedFollowupResponse)
| Plain (answer : string).

Record APIInfo : Type := mkInfo {
  apiType : string;
  batchProcessing : bool;
  advancedPrompts : bool;
  parallelProcessing : bool;
  improvedErrorHandling : bool;
  enhancedJSONParsing : bool;
  semanticSearch : bool
}.

(** Default configuration - can be updated via settings *)
Definition default_apiConfig : APIConfig := mkConfig true true true true.

Definition or_else (o : option bool) (d : bool) : bool :=
  match o with Some b => b | None => d end.

Definition json_bool (b : bool) : string := if b then "true" else "false".

(** [JSON.stringify(apiConfig)] *)
Definition stringify_config (c : APIConfig) : string :=
  let q := JsString.quote in
  "{" ++ q "useLangChain" ++ ":" ++ json_bool (useLangChain c) ++ ","
      ++ q "enableBatchProcessing" ++ ":" ++ json_bool (enableBatchProcessing c) ++ ","
      ++ q "enableAdvancedPrompts" ++ ":" ++ json_bool (enableAdvancedPrompts c) ++ ","
      ++ q "enableSemanticSearch" ++ ":" ++ json_bool (enableSemanticSearch c) ++ "}".

(** The value a spread of [storedConfig] leaves in field [key]. *)
Definition spread_field (storedConfig : JSON) (key : string) (current : bool) : bool :=
  match storedConfig with
  | JObj fields =>
      match Js.lookup key fields with
      | Some v => Js.truthy (Some v)
      | None => current
      end
  | _ => current
  end.

(** [v ?? true] as a condition *)
Definition nullish_true (v : option JSON) : bool :=
  match v with
  | None => true
  | Some JNull => true
  | Some x => Js.truthy (Some x)
  end.

Section WithPlatform.
Context (P : Platform).
Local Open Scope m_scope.

(** Function to update API configuration *)
Definition updateAPIConfig (newConfig : PartialConfig) : M unit :=
  w <- get_world ;;
  let c := apiConfig w in
  let c' := mkConfig (or_else (p_useLangChain newConfig) (useLangChain c))
              (or_else (p_enableBatchProcessing newConfig) (enableBatchProcessing c))
              (or_else (p_enableAdvancedPrompts newConfig) (enableAdvancedPrompts c))
              (or_else (p_enableSemanticSearch newConfig) (enableSemanticSearch c)) in
  modify (set_apiConfig c') ;;;
  modify (set_ls_api_config (Some (stringify_config c'))).

(** Function to load API configuration *)
Definition loadAPIConfig : M APIConfig :=
  try_catch
    (w <- get_world ;;
     match ls_api_config w with
     | Some stored =>
         if JsString.isEmpty stored then ret tt
         else
           storedConfig <- lift (JSON_parse P stored) ;;
           semantic <- lift (Js.get storedConfig "enableSemanticSearch") ;;
           let c := apiConfig w in
           modify (set_apiConfig
                     (mkConfig
                        (spread_field storedConfig "useLangChain" (useLangChain c))
                        (spread_field storedConfig "enableBatchProcessing"
                           (enableBatchProcessing c))
                        (spread_field storedConfig "enableAdvancedPrompts"
                           (enableAdvancedPrompts c))
                        (nullish_true semantic)))
     | None => ret tt
     end)
    (fun _ => ret tt) ;;;
  w <- get_world ;;
  ret (apiConfig w).

(** Enhanced smart wrapper for follow-up questions with semantic search *)
Definition submitFollowupQuestion (question originalClause : string)
    (analysisData : option AnalysisResponse) : M FollowupResult :=
  config <- loadAPIConfig ;;
  match useLangChain config && enableSemanticSearch config, analysisData with
  | true, Some data =>
      r <- SemanticSearch.submitEnhancedFollowupQuestion P question originalClause data
             EmptyString ;;
      ret (Enhanced r)
  | _, _ =>
      if useLangChain config then
        a <- LangchainApi.submitFollowupQuestion P question originalClause ;;
        ret (Plain a)
      else
        a <- ApiServices.submitFollowupQuestion P question originalClause ;;
        ret (Plain a)
  end.

(** New feature: Batch processing (only available with LangChain) *)
Definition processBatchClauses (clauses : list string) : M (list AnalysisResponse) :=
  config <- loadAPIConfig ;;
  if negb (useLangChain config) then
    throw (Error "Batch processing is only available with LangChain API")
  else if negb (enableBatchProcessing config) then
    throw (Error "Batch processing is disabled in configuration")
  else
    LangchainApi.analyzeBatchClauses P clauses.

(** Utility to get current API info *)
Definition getCurrentAPIInfo : M APIInfo :=
  config <- loadAPIConfig ;;
  ret (mkInfo (if useLangChain config then "LangChain" else "Traditional")
         (useLangChain config && enableBatchProcessing config)
         (useLangChain config && enableAdvancedPrompts config)
         (useLangChain config)
         (useLangChain config)
         (useLangChain config)
         (useLangChain config && enableSemanticSearch config)).

End WithPlatform.
End ApiWrapper.

(** ** [BatchAnalysisDemo.tsx]: the handler of the batch form *)

Module BatchDemo.
Section WithPlatform.
Context (P : Platform).
Import JsString.
Local Open Scope m_scope.

(** [canUseBatch], computed when the component renders. *)
Definition canUseBatch : M bool :=
  apiInfo <- ApiWrapper.getCurrentAPIInfo P ;;
  ret (ApiWrapper.batchProcessing apiInfo).

(** Split clauses by double newlines or numbered lists *)
Definition clauseList_of (clauses : string) : list string :=
  map trim (filter (fun clause => 10 <? String.length (trim clause)) (split_clauses P clauses)).

(** [onAnalysisComplete?.(batchResults)] *)
Definition call_optional {A : Type} (callback : option (A -> M unit)) (x : A) : M unit :=
  match callback with
  | Some f => f x
  | None => ret tt
  end.

(** [handleBatchAnalysis] for the [onAnalysisComplete] the component was
    given, the rendered [canUseBatch] and the text of the form; the
    result is the list handed to [setResults], if any.  Results that were
    set stay set when the callback throws after them: the catch block is
    written once for a throw before [setResults] and once for a throw
    after it. *)
Definition handleBatchAnalysis
    (onAnalysisComplete : option (list AnalysisResponse -> M unit))
    (canUseBatch_ : bool) (clauses : string)
  : M (option (list AnalysisResponse)) :=
  if isEmpty (trim clauses) then
    toast toast_error "Please enter some legal clauses to analyze" ;;; ret None
  else if negb canUseBatch_ then
    toast toast_error "Batch processing is not enabled. Please enable LangChain in settings." ;;;
    ret None
  else
    let clauseList := clauseList_of clauses in
    if List.length clauseList =? 0 then
      toast toast_error
        "No valid clauses found. Please separate clauses with double line breaks." ;;;
      ret None
    else if 10 <? List.length clauseList then
      toast toast_warning "Maximum 10 clauses allowed for batch processing" ;;;
      ret None
    else
      try_catch
        (toast toast_info
           ("Starting batch analysis of " ++ of_nat (List.length clauseList) ++ " clauses...") ;;;
         batchResults <- ApiWrapper.processBatchClauses P clauseList ;;
         try_catch
           (call_optional onAnalysisComplete batchResults ;;;
            toast toast_success
              ("Successfully analyzed " ++ of_nat (List.length batchResults) ++ " clauses!") ;;;
            ret (Some batchResults))
           (fun _ =>
              toast toast_error "Failed to process batch analysis" ;;;
              ret (Some batchResults)))
        (fun _ =>
           toast toast_error "Failed to process batch analysis" ;;;
           ret None).

End WithPlatform.
End BatchDemo.

(** ** [LangChainDemoPage]: the page that renders the batch form *)

Module LangChainDemoPage.
Import JsString.

(** The [onAnalysisComplete] the page gives to the batch form. *)
Definition onAnalysisComplete (results : list AnalysisResponse) : M unit :=
  toast toast_success
    ("Batch analysis completed! Processed " ++ of_nat (List.length results) ++ " clauses.").

End LangChainDemoPage.


(** ** A platform to run the functions on

    Small stand-ins for the services, used to evaluate the functions on
    concrete inputs.  On the inputs of the examples they answer as the
    real services do: the URL parser accepts the absolute http(s) URLs
    and rejects the text without a scheme, [JSON.parse] reads the empty
    array and rejects prose, the splitter keeps a short text in one
    chunk, the form's pattern splits at blank lines, and the embeddings
    constructor, the models and the similarity search reject an empty
    API key. *)

Module Sample.
Import JsString.

Definition JSON_parse (s : string) : Exc JSON :=
  if String.eqb s "[]" then Ok (JArr []) else Throw SyntaxError.

Definition Number_toString (q : Q) : string :=
  NilEmpty.string_of_int (Z.to_int (Qnum q)).

Definition URL_parses (s : string) : bool :=
  (prefix "https://" s && (8 <? String.length s))
  || (prefix "http://" s && (7 <? String.length s)).

Definition splitText (s : string) : list string :=
  if isEmpty s then [] else [s].

(** Splitting at each blank line (two consecutive line feeds). *)
Fixpoint split_blank (cur : string) (s : string) : list string :=
  match s with
  | EmptyString => [cur]
  | String c r =>
      match r with
      | String c2 r2 =>
          if (nat_of_ascii c =? 10) && (nat_of_ascii c2 =? 10)
          then cur :: split_blank EmptyString r2
          else split_blank (cur ++ String c EmptyString) r
      | EmptyString => [cur ++ String c EmptyString]
      end
  end.

Definition answer_to (prompt : string) : string :=
  if prefix (nl ++ "You are a legal risk assessment expert") prompt
  then "I found no risky terms."
  else if prefix (nl ++ "You are a legal research expert") prompt
  then "[]"
  else " The clause means what it says. ".

Definition provider (apiKey prompt : string) : Exc string :=
  if isEmpty apiKey then Throw (Error "API key not valid")
  else Ok (answer_to prompt).

Definition new_embeddings (apiKey : string) : Exc unit :=
  if isEmpty apiKey then Throw (Error "Please set an API key for Google GenerativeAI")
  else Ok tt.

(** Embedding the documents reports no failure of the provider. *)
Definition embed_documents (apiKey : string) (texts : list string) : Exc unit := Ok tt.

(** The documents in stored order, the n-th with score 1/n. *)
Definition similarity_search (store : MemoryVectorStore) (question : string) (k : nat)
  : Exc (list (Document * Q)) :=
  if isEmpty (emb_apiKey (vs_embeddings store)) then Throw (Error "API key not valid")
  else Ok (firstn k (SemanticSearch.mapi (fun d i => (d, 1 # Pos.of_nat (i + 1)))
                       (vs_documents store))).

Definition platform : Platform :=
  mkPlatform JSON_parse Number_toString URL_parses (fun _ => None) (fun _ => None)
    splitText (split_blank EmptyString) provider provider new_embeddings embed_documents
    similarity_search.

(** A fresh session: default configuration, nothing stored but an API
    key in localStorage, empty cache, no event yet. *)
Definition world : World :=
  mkWorld ApiWrapper.default_apiConfig None (Some "key-123") None None [] [] 0 [].

(** The same session without any API key. *)
Definition world_no_key : World :=
  mkWorld ApiWrapper.default_apiConfig None None None None [] [] 0 [].

Definition facets : AnalysisResponse :=
  mkAnalysis "You pay if the client is sued."
    [mkRiskyTerm "indemnify" "high" "unlimited liability"]
    [mkArticle "Indian Contract Act, 1872" "https://indiankanoon.org/doc/171398/" "indemnity"].

Definition clause : string :=
  "The contractor shall indemnify and hold harmless the client from any claims arising from the work performed.".


(** The store built for [clause] and [facets] with a given API key. *)
Definition storeData (apiKey : string) : VectorStoreData :=
  let cs := SemanticSearch.build_chunks platform clause facets in
  let e := mkEmbeddings apiKey "embedding-001" in
  mkStoreData 0 (mkVectorStore (map SemanticSearch.document_of cs) e) cs e.

Definition options : SemanticSearch.Options :=
  SemanticSearch.mkOptions (Some 3) (Some (3 # 10)) None.

(** What the index answers on that store for 6 candidates. *)
Definition hits : list (Document * Q) :=
  firstn 6 (SemanticSearch.mapi (fun d i => (d, 1 # Pos.of_nat (i + 1)))
              (vs_documents (vectorStore (storeData "key-123")))).

Definition eleven_clauses : list string :=
  ["clause 1"; "clause 2"; "clause 3"; "clause 4"; "clause 5"; "clause 6";
   "clause 7"; "clause 8"; "clause 9"; "clause 10"; "clause 11"].

(** Eleven clauses as typed in the batch form, one blank line between them. *)
Definition eleven_clauses_text : string :=
  join (nl ++ nl)
    ["The first clause of the contract."; "The second clause of the contract.";
     "The third clause of the contract."; "The fourth clause of the contract.";
     "The fifth clause of the contract."; "The sixth clause of the contract.";
     "The seventh clause of the contract."; "The eighth clause of the contract.";
     "The ninth clause of the contract."; "The tenth clause of the contract.";
     "The eleventh clause of the contract."].

(** Parsed risky terms: a proper one, one with an unknown severity, one
    without severity, and a stray text. *)
Definition risky_items : list JSON :=
  [JObj [("term", JStr " Indemnify "); ("severity", JStr "High");
         ("explanation", JStr "unlimited liability")];
   JObj [("term", JStr "x"); ("severity", JStr "EXTREME"); ("explanation", JStr "y")];
   JObj [("term", JStr "x"); ("explanation", JStr "y")];
   JStr "prose"].


(** Sessions with one toggle switched off. *)
Definition world_without_langchain : World :=
  set_apiConfig (mkConfig false true true true) world.
Definition world_without_batch : World :=
  set_apiConfig (mkConfig true false true true) world.

End Sample.

(** ** Vocabulary of the statements *)

(** Scores in descending order. *)
Definition descending (scores : list Q) : Prop :=
  StronglySorted (fun a b => (b <= a)%Q) scores.

(** The hits the retriever keeps: those at or above the threshold, cut
    to [maxResults]. *)
Definition kept_hits (options : SemanticSearch.Options) (hits : list (Document * Q))
  : list (Document * Q) :=
  firstn (SemanticSearch.maxResults_of options)
    (filter (fun hit => Qle_bool (SemanticSearch.relevanceThreshold_of options) (snd hit)) hits).

(** The state of the cache reached from an empty cache: distinct keys, at
    most 10 entries, and entries that are distinct objects allocated
    before [next_ref]. *)
Definition cache_wf (w : World) : Prop :=
  NoDup (map fst (vectorStoreCache w))
  /\ List.length (vectorStoreCache w) <= 10
  /\ NoDup (map (fun kv => ref (snd kv)) (vectorStoreCache w))
  /\ Forall (fun kv => ref (snd kv) < next_ref w) (vectorStoreCache w).

(** The entry [createClauseVectorStore] builds on a cache miss, the cache
    after the insertion with its size limit applied, and the world the
    successful build leaves. *)
Definition built_entry (P : Platform) (originalClause : string) (analysisData : AnalysisResponse)
    (apiKey : string) (w : World) : VectorStoreData :=
  let cs := SemanticSearch.build_chunks P originalClause analysisData in
  let e := mkEmbeddings apiKey "embedding-001" in
  mkStoreData (next_ref w) (mkVectorStore (map SemanticSearch.document_of cs) e) cs e.

Definition limit_size (m : list (string * VectorStoreData)) : list (string * VectorStoreData) :=
  if 10 <? List.length m then
    match SemanticSearch.first_key m with
    | Some firstKey => SemanticSearch.map_delete firstKey m
    | None => m
    end
  else m.

Definition build_events (P : Platform) (originalClause : string) (analysisData : AnalysisResponse)
    (apiKey : string) : list Event :=
  [EvNewEmbeddings apiKey;
   EvEmbedDocuments apiKey
     (map pageContent
        (map SemanticSearch.document_of
           (SemanticSearch.build_chunks P originalClause analysisData)))].

Definition world_after_build (P : Platform) (originalClause : string)
    (analysisData : AnalysisResponse) (apiKey : string) (w : World) : World :=
  mkWorld (apiConfig w) (ls_api_config w) (ls_gemini_api_key w) (auth_user w) (api_keys_row w)
    (chat_history w)
    (limit_size
       (SemanticSearch.map_set
          (SemanticSearch.generateCacheKey originalClause (Some analysisData))
          (built_entry P originalClause analysisData apiKey w)
          (vectorStoreCache w)))
    (S (next_ref w))
    (events w ++ build_events P originalClause analysisData apiKey).

(** The world after a sequence of calls to [createClauseVectorStore],
    each given by its clause, analysis and API key. *)
Fixpoint after_calls (P : Platform) (calls : list (string * AnalysisResponse * string))
    (w : World) : World :=
  match calls with
  | [] => w
  | (originalClause, analysisData, apiKey) :: rest =>
      after_calls P rest
        (snd (SemanticSearch.createClauseVectorStore P originalClause analysisData apiKey w))
  end.

(** [item.key] of an item that is not [null]. *)
Definition field (item : JSON) (key : string) : option JSON :=
  match item with
  | JObj fields => Js.lookup key fields
  | _ => None
  end.

(** A field is present when its value is truthy: there, and neither
    [null], [false], [0] nor the empty string. *)
Definition present (item : JSON) (key : string) : bool := Js.truthy (field item key).

Definition is_null (v : JSON) : bool :=
  match v with JNull => true | _ => false end.

Definition is_string (v : option JSON) : bool :=
  match v with Some (JStr _) => true | _ => false end.

(** *** Risky terms *)

Definition complete_risky (item : JSON) : bool :=
  present item "term" && present item "severity" && present item "explanation".

(** A parsed risky-term item: not [null], and its severity, where the
    item is complete, is a string. *)
Definition risky_item (item : JSON) : bool :=
  negb (is_null item)
  && (if complete_risky item then is_string (field item "severity") else true).

Definition coerce_severity (s : string) : string :=
  let lowered := JsString.toLowerCase s in
  if existsb (String.eqb lowered) ["high"; "moderate"; "low"] then lowered else "moderate".

Definition text_of (P : Platform) (item : JSON) (key : string) : string :=
  JsString.trim (Js.String_ (Number_toString P) (field item key)).

Definition sanitized_risky (P : Platform) (item : JSON) : RiskyTerm :=
  mkRiskyTerm (text_of P item "term")
    (match field item "severity" with
     | Some (JStr s) => coerce_severity s
     | _ => "moderate"
     end)
    (text_of P item "explanation").

(** *** Legal references *)




(** *** Layered parsing

    The value the layers give, in their order: the direct parse; when
    that fails, the parse of the fenced block if the response has one;
    when it has none, the parse of the first array-like substring if
    there is one; the fallback in every other case (in particular when a
    block or substring is found but does not parse). *)

Definition parse_opt (P : Platform) (s : string) : option JSON :=
  match JSON_parse P s with
  | Ok v => Some v
  | Throw _ => None
  end.

Definition or_fallback (v : option JSON) (fallback : JSON) : JSON :=
  match v with Some x => x | None => fallback end.

Definition layered_result (P : Platform) (response : string) (fallback : JSON) : JSON :=
  match parse_opt P response with
  | Some v => v
  | None =>
      match match_code_block P response with
      | Some block => or_fallback (parse_opt P block) fallback
      | None =>
          match match_json_array P response with
          | Some found => or_fallback (parse_opt P found) fallback
          | None => fallback
          end
      end
  end.

(** A response none of the layers can read. *)
Definition malformed (P : Platform) (response : string) : Prop :=
  parse_opt P response = None
  /\ match match_code_block P response with
     | Some block => parse_opt P block = None
     | None =>
         match match_json_array P response with
         | Some found => parse_opt P found = None
         | None => True
         end
     end.

(** *** What [analyzeClause] does with a configured key *)

(** The three model calls of one analysis. *)
Definition analysis_calls (key clause : string) : list Event :=
  [EvModelCall key (LangchainApi.simplificationTemplate clause);
   EvModelCall key (LangchainApi.riskyTermsTemplate clause);
   EvModelCall key (LangchainApi.governmentArticlesTemplate clause)].

(** Its outcome: the first failure among the three answers, else the
    parsed and validated analysis. *)
Definition analysis_outcome (P : Platform) (key clause : string) : Exc AnalysisResponse :=
  (simplified_ <~ llm_complete P key (LangchainApi.simplificationTemplate clause) ;;
   riskyTermsResponse <~ llm_complete P key (LangchainApi.riskyTermsTemplate clause) ;;
   governmentArticlesResponse <~
     llm_complete P key (LangchainApi.governmentArticlesTemplate clause) ;;
   LangchainApi.parse_and_validate P simplified_ riskyTermsResponse
     governmentArticlesResponse)%exc.

Definition world_after_analysis (P : Platform) (key clause : string) (w : World) : World :=
  mkWorld (apiConfig w) (ls_api_config w) (ls_gemini_api_key w) (auth_user w) (api_keys_row w)
    (chat_history w
       ++ match analysis_outcome P key clause, auth_user w with
          | Ok result, Some user => [(user, clause, result)]
          | _, _ => []
          end)
    (vectorStoreCache w) (next_ref w)
    (events w
       ++ [EvReadApiKey; EvNewLLM key;
           EvToast toast_info "Analyzing your legal clause with advanced AI..."]
       ++ analysis_calls key clause
       ++ [match analysis_outcome P key clause with
           | Ok _ => EvToast toast_success "Analysis completed successfully!"
           | Throw _ => EvToast toast_error "Failed to analyze legal clause"
           end]).

(** *** Events *)

(** The events appended to the log between two worlds. *)
Definition events_added (w w' : World) (added : list Event) : Prop :=
  events w' = (events w ++ added)%list.

(** A computation that only appends to the log, and only events
    satisfying [Q]. *)
Definition appends {A : Type} (Q : Event -> Prop) (m : M A) : Prop :=
  forall w, exists added,
      events (snd (m w)) = (events w ++ added)%list /\ Forall Q added.

(** No use of an API key other than the empty string, and no read of the
    credentials store. *)
Definition uses_empty_key (ev : Event) : Prop :=
  match ev with
  | EvReadApiKey => False
  | EvNewEmbeddings k | EvNewLLM k => k = EmptyString
  | EvModelCall k _ | EvFetch k _ | EvEmbedDocuments k _ => k = EmptyString
  | EvToast _ _ | EvSimilaritySearch _ _ _ => True
  end.

(** The key [getGeminiApiKey] finds in a world. *)
Definition configured_key (w : World) : option string :=
  LangchainApi.usable_key
    (match auth_user w with
     | Some _ =>
         match api_keys_row w with
         | Some key => key
         | None => ls_gemini_api_key w
         end
     | None => ls_gemini_api_key w
     end).

(** ** Reading base64 back

    The inverse of [btoa] on its alphabet, used to show that the
    fingerprint loses nothing of the prefixes it encodes. *)

Module Base64.
Import JsString.

(** Position of a character in the alphabet. *)
Definition b64_value (c : ascii) : nat :=
  (fix index (l : list ascii) (i : nat) : nat :=
     match l with
     | [] => 0
     | x :: r => if Ascii.eqb x c then i else index r (S i)
     end) b64_alphabet 0.

Definition is_pad (c : ascii) : bool := Ascii.eqb c "="%char.

(** Four characters give back up to three codes. *)
Fixpoint decode (l : list ascii) : list nat :=
  match l with
  | c1 :: c2 :: c3 :: c4 :: r =>
      let v1 := b64_value c1 in
      let v2 := b64_value c2 in
      let v3 := b64_value c3 in
      let v4 := b64_value c4 in
      if is_pad c3 then [v1 * 4 + v2 / 16]
      else if is_pad c4 then [v1 * 4 + v2 / 16; (v2 mod 16) * 16 + v3 / 4]
      else (v1 * 4 + v2 / 16) :: ((v2 mod 16) * 16 + v3 / 4) :: ((v3 mod 4) * 64 + v4)
             :: decode r
  | _ => []
  end.

End Base64.

(** ** [FollowupQuestionsSection.tsx]: the handler of the question form *)

Module FollowupSection.

(** One entry of [followupAnswers]. *)
Record FollowupAnswer : Type := mkFollowupAnswer {
  fa_question : string;
  fa_answer : string;
  fa_contextMetrics : option SemanticSearch.ContextMetrics
}.

(** What a run of the handler does to the state of the component:
    nothing, [setSettingsOpen(true)], an entry appended to
    [followupAnswers] with the question field cleared, or nothing after
    a failure that was logged. *)
Inductive Outcome : Type :=
| Dismissed
| SettingsOpened
| Answered (entry : FollowupAnswer)
| Failed.

Section WithPlatform.
Context (P : Platform).
Import JsString.
Local Open Scope m_scope.

Definition handleSubmitQuestion (followupQuestion legalClause : string) (hasApiKey : bool)
    (analysisData : option AnalysisResponse) : M Outcome :=
  if isEmpty (trim followupQuestion) || isEmpty (trim legalClause) then
    toast toast_warning "Please enter a question" ;;; ret Dismissed
  else if negb hasApiKey then
    toast toast_error "Please enter your Gemini API key in settings first" ;;;
    ret SettingsOpened
  else
    try_catch
      (result <- ApiWrapper.submitFollowupQuestion P followupQuestion legalClause
                   analysisData ;;
       ret (Answered
              (mkFollowupAnswer followupQuestion
                 (match result with
                  | ApiWrapper.Enhanced r => SemanticSearch.answer r
                  | ApiWrapper.Plain a => a
                  end)
                 (match result with
                  | ApiWrapper.Enhanced r => Some (SemanticSearch.contextMetrics r)
                  | ApiWrapper.Plain _ => None
                  end))))
      (fun _ => ret Failed).

End WithPlatform.
End FollowupSection.

(** ** [RiskBadge.tsx] *)

Module RiskBadge.


End RiskBadge.


(** ** The settings as a JSON value

    The object the text written by [updateAPIConfig] denotes. *)
Definition config_json (c : APIConfig) : JSON :=
  JObj [("useLangChain", JBool (useLangChain c));
        ("enableBatchProcessing", JBool (enableBatchProcessing c));
        ("enableAdvancedPrompts", JBool (enableAdvancedPrompts c));
        ("enableSemanticSearch", JBool (enableSemanticSearch c))].

(** ** A call refused for want of an API key

    The call throws 'Gemini API key not found' after reading the key,
    and leaves the world as it was but for that read and error notices
    in the log. *)
Definition refused_for_key {A : Type} (m : M A) (w : World) : Prop :=
  exists notices,
    m w = (Throw (Error "Gemini API key not found"),
           set_events (events w ++ EvReadApiKey :: notices) w)
    /\ Forall (fun ev => exists message, ev = EvToast toast_error message) notices.

(** ** A batch of analyses

    [Promise.all] over settled outcomes: the list of values when every
    outcome is a value, a failure otherwise. *)
Fixpoint all_outcomes {A : Type} (outcomes : list (Exc A)) : Exc (list A) :=
  match outcomes with
  | [] => Ok []
  | r :: rest =>
      match r, all_outcomes rest with
      | Ok b, Ok bs => Ok (b :: bs)
      | Throw e, _ => Throw e
      | Ok _, Throw e => Throw e
      end
  end.

(** The rows the analyses of a list of clauses add to [chat_history]:
    one for each clause analysed with success, for a signed-in user. *)
Definition saved_rows (P : Platform) (key : string) (user : option string)
    (clauses : list string) : list (string * string * AnalysisResponse) :=
  flat_map (fun clause =>
              match analysis_outcome P key clause, user with
              | Ok result, Some u => [(u, clause, result)]
              | _, _ => []
              end) clauses.

(** The world after the analyses of a list of clauses, one after the
    other. *)
Definition worlds_after_analyses (P : Platform) (key : string) (clauses : list string)
    (w : World) : World :=
  fold_left (fun w clause => world_after_analysis P key clause w) clauses w.

(** The session after signing out. *)
Definition signed_out (w : World) : World :=
  mkWorld (apiConfig w) (ls_api_config w) (ls_gemini_api_key w) None (api_keys_row w)
    (chat_history w) (vectorStoreCache w) (next_ref w) (events w).

(** ** Further inputs for the examples *)

Module Sample2.
Import JsString.

(** The analysis of [Sample.facets] with the same explanation, but
    without risky terms and without legal references. *)
Definition facets_b : AnalysisResponse :=
  mkAnalysis "You pay if the client is sued." [] [].

(** A session whose cache is full: ten clauses were indexed, the first
    being "clause 1". *)
Definition ten_calls : list (string * AnalysisResponse * string) :=
  map (fun c => (c, Sample.facets, "key-123")) (firstn 10 Sample.eleven_clauses).

Definition full_world : World := after_calls Sample.platform ten_calls Sample.world.


(** A [JSON.parse] that also reads the settings the wrapper writes, and
    the settings of a version without semantic search. *)
Definition all_configs : list APIConfig :=
  flat_map (fun a => flat_map (fun b => flat_map (fun c =>
    map (fun d => mkConfig a b c d) [true; false]) [true; false]) [true; false])
    [true; false].

Definition legacy_settings : string :=
  "{" ++ quote "useLangChain" ++ ":false," ++ quote "enableBatchProcessing" ++ ":true}".

Definition JSON_parse (s : string) : Exc JSON :=
  match find (fun c => String.eqb s (ApiWrapper.stringify_config c)) all_configs with
  | Some c => Ok (config_json c)
  | None =>
      if String.eqb s legacy_settings
      then Ok (JObj [("useLangChain", JBool false); ("enableBatchProcessing", JBool true)])
      else Sample.JSON_parse s
  end.

Definition platform_reading_settings : Platform :=
  mkPlatform JSON_parse Sample.Number_toString Sample.URL_parses
    (fun _ => None) (fun _ => None)
    Sample.splitText (Sample.split_blank EmptyString) Sample.provider Sample.provider
    Sample.new_embeddings Sample.embed_documents Sample.similarity_search.

(** A session with the given text stored as settings. *)
Definition world_storing (stored : string) : World :=
  mkWorld ApiWrapper.default_apiConfig (Some stored) (Some "key-123") None None [] [] 0 [].

(** A signed-in user whose row of [api_keys] holds no key, with a key
    in localStorage. *)
Definition world_with_empty_row : World :=
  mkWorld ApiWrapper.default_apiConfig None (Some "key-123") (Some "user-1") (Some None)
    [] [] 0 [].

(** Two clauses as typed in the batch form, a blank line between them. *)
Definition two_clauses_text : string :=
  join (nl ++ nl)
    ["The first clause of the contract."; "The second clause of the contract."].

(** A signed-in user with a key in the row of [api_keys]. *)
Definition world_signed_in : World :=
  mkWorld ApiWrapper.default_apiConfig None None (Some "user-1") (Some (Some "key-123"))
    [] [] 0 [].

(** A model that answers the question about risky terms with a list
    holding [null], and a [JSON.parse] that reads that list. *)
Definition answer_with_null (prompt : string) : string :=
  if prefix (nl ++ "You are a legal risk assessment expert") prompt
  then "[null]"
  else Sample.answer_to prompt.

Definition JSON_parse_null (s : string) : Exc JSON :=
  if String.eqb s "[null]" then Ok (JArr [JNull]) else Sample.JSON_parse s.

Definition platform_null_item : Platform :=
  mkPlatform JSON_parse_null Sample.Number_toString Sample.URL_parses
    (fun _ => None) (fun _ => None)
    Sample.splitText (Sample.split_blank EmptyString)
    (fun _ prompt => Ok (answer_with_null prompt)) Sample.provider
    Sample.new_embeddings Sample.embed_documents Sample.similarity_search.

End Sample2.

(** * Properties *)

Open Scope list_scope.

(** ** Running the monadic code *)

Ltac run :=
  cbv beta iota delta
    [bind ret throw try_catch lift get_world modify emit toast exc_bind exc_catch].

Lemma set_events_events (l : list Event) (w : World) : events (set_events l w) = l.
Proof. reflexivity. Qed.

Lemma In_firstn {A : Type} (n : nat) (l : list A) (x : A) :
  In x (firstn n l) -> In x l.
Proof.
  revert n; induction l as [| y l IH]; intros [| n]; simpl; try tauto.
  intros [-> | H]; eauto.
Qed.

(** ** Sorted lists under [filter], [firstn] and [map] *)

Section SortedSublists.
Context {A B : Type} (R : B -> B -> Prop) (f : A -> B).

Lemma Forall_map_filter (Q : B -> Prop) (p : A -> bool) (l : list A) :
  Forall Q (map f l) -> Forall Q (map f (filter p l)).
Proof.
  induction l as [| x l IH]; simpl; intros H; [constructor|].
  inversion H; subst.
  destruct (p x); simpl; auto.
Qed.

Lemma Forall_map_firstn (Q : B -> Prop) (n : nat) (l : list A) :
  Forall Q (map f l) -> Forall Q (map f (firstn n l)).
Proof.
  revert n; induction l as [| x l IH]; intros [| n] H; simpl; try constructor.
  - inversion H; assumption.
  - apply IH. inversion H; assumption.
Qed.

Lemma StronglySorted_map_filter (p : A -> bool) (l : list A) :
  StronglySorted R (map f l) -> StronglySorted R (map f (filter p l)).
Proof.
  induction l as [| x l IH]; simpl; intros H; [constructor|].
  apply StronglySorted_inv in H as [Hs Hall].
  destruct (p x); simpl; auto.
  constructor; auto using Forall_map_filter.
Qed.

Lemma StronglySorted_map_firstn (n : nat) (l : list A) :
  StronglySorted R (map f l) -> StronglySorted R (map f (firstn n l)).
Proof.
  revert n; induction l as [| x l IH]; intros [| n] H; simpl; try constructor.
  - apply IH. apply StronglySorted_inv in H. tauto.
  - apply Forall_map_firstn. apply StronglySorted_inv in H. tauto.
Qed.

End SortedSublists.

(** ** The retriever *)

Section Retriever.
Context (P : Platform).
Import SemanticSearch.

Lemma scored_chunk_score (vsd : VectorStoreData) (hit : Document * Q) :
  relevanceScore (metadata (scored_chunk vsd hit)) = Some (snd hit).
Proof.
  destruct hit as [d s]. unfold scored_chunk.
  destruct (find _ (chunks vsd)); reflexivity.
Qed.

Lemma scored_chunks_scores (vsd : VectorStoreData) (hits : list (Document * Q)) :
  map score_or_zero (map (scored_chunk vsd) hits) = map snd hits.
Proof.
  induction hits as [| h hits IH]; simpl; [reflexivity|].
  unfold score_or_zero at 1. rewrite scored_chunk_score. now rewrite IH.
Qed.

Lemma retrieve_success (question : string) (vsd : VectorStoreData) (options : Options)
    (hits : list (Document * Q)) (w : World) :
  similarity_search P (vectorStore vsd) question (maxResults_of options * 2) = Ok hits ->
  retrieveRelevantContext P question vsd options w =
    (Ok (mkRetrieval
           (map (scored_chunk vsd) (kept_hits options hits))
           (JsString.join (JsString.nl ++ JsString.nl)
              (mapi (summary_line (includeMetadata_of options))
                 (map (scored_chunk vsd) (kept_hits options hits))))
           (List.length (chunks vsd))
           (average (map (scored_chunk vsd) (kept_hits options hits)))),
     set_events
       (events w ++ [EvSimilaritySearch (emb_apiKey (vs_embeddings (vectorStore vsd)))
                       question (maxResults_of options * 2)]) w).
Proof.
  intros H. unfold retrieveRelevantContext. run. rewrite H. reflexivity.
Qed.

Lemma retrieve_failure (question : string) (vsd : VectorStoreData) (options : Options)
    (e : JsError) (w : World) :
  similarity_search P (vectorStore vsd) question (maxResults_of options * 2) = Throw e ->
  retrieveRelevantContext P question vsd options w =
    (Ok (mkRetrieval
           (firstn (maxResults_of options) (chunks vsd))
           (JsString.join (JsString.nl ++ JsString.nl)
              (map content (firstn (maxResults_of options) (chunks vsd))))
           (List.length (chunks vsd))
           0%Q),
     set_events
       (events w ++ [EvSimilaritySearch (emb_apiKey (vs_embeddings (vectorStore vsd)))
                       question (maxResults_of options * 2)]) w).
Proof.
  intros H. unfold retrieveRelevantContext. run. rewrite H. reflexivity.
Qed.

End Retriever.

(** C1.  When the similarity query succeeds, [retrieveRelevantContext]
    asks the index for [2 * maxResults] candidates (the logged query, and
    the answer the result is computed from), returns at most [maxResults]
    chunks, each carrying a score that is at least [relevanceThreshold],
    and returns them in descending order of score, the index answering
    most relevant first. *)
Theorem C1_retrieve_bounded_filtered_ordered :
  forall (P : Platform) (question : string) (vsd : VectorStoreData)
         (options : SemanticSearch.Options) (hits : list (Document * Q)) (w : World),
    similarity_search P (vectorStore vsd) question
      (2 * SemanticSearch.maxResults_of options) = Ok hits ->
    descending (map snd hits) ->
    exists result w',
      SemanticSearch.retrieveRelevantContext P question vsd options w = (Ok result, w')
      /\ events_added w w'
           [EvSimilaritySearch (emb_apiKey (vs_embeddings (vectorStore vsd))) question
              (2 * SemanticSearch.maxResults_of options)]
      /\ List.length (SemanticSearch.relevantChunks result)
         <= SemanticSearch.maxResults_of options
      /\ Forall (fun c => exists score,
                     relevanceScore (metadata c) = Some score
                     /\ (SemanticSearch.relevanceThreshold_of options <= score)%Q)
           (SemanticSearch.relevantChunks result)
      /\ descending (map SemanticSearch.score_or_zero (SemanticSearch.relevantChunks result)).
Proof.
  intros P question vsd options hits w Hq Hsorted.
  rewrite Nat.mul_comm in Hq.
  eexists; eexists. split; [apply (retrieve_success P _ _ _ _ _ Hq)|].
  cbn [SemanticSearch.relevantChunks]. repeat split.
  - unfold events_added. rewrite set_events_events, (Nat.mul_comm 2). reflexivity.
  - rewrite length_map. unfold kept_hits. apply firstn_le_length.
  - apply Forall_forall. intros c Hin.
    apply in_map_iff in Hin as [hit [<- Hin]].
    exists (snd hit). split; [apply scored_chunk_score|].
    unfold kept_hits in Hin. apply In_firstn in Hin.
    apply filter_In in Hin as [_ Hle]. now apply Qle_bool_iff.
  - rewrite scored_chunks_scores. unfold kept_hits, descending.
    apply StronglySorted_map_firstn, StronglySorted_map_filter. exact Hsorted.
Qed.

(** C3.  When the similarity query fails, [retrieveRelevantContext] does
    not throw: it returns the first [maxResults] chunks of the full chunk
    set in their original order, with [averageRelevance = 0]. *)
Theorem C3_retrieve_fallback_on_failure :
  forall (P : Platform) (question : string) (vsd : VectorStoreData)
         (options : SemanticSearch.Options) (e : JsError) (w : World),
    similarity_search P (vectorStore vsd) question
      (2 * SemanticSearch.maxResults_of options) = Throw e ->
    exists result w',
      SemanticSearch.retrieveRelevantContext P question vsd options w = (Ok result, w')
      /\ SemanticSearch.relevantChunks result
         = firstn (SemanticSearch.maxResults_of options) (chunks vsd)
      /\ SemanticSearch.averageRelevance result = 0%Q
      /\ SemanticSearch.totalChunks result = List.length (chunks vsd)
      /\ SemanticSearch.contextSummary result
         = JsString.join (JsString.nl ++ JsString.nl)
             (map content (firstn (SemanticSearch.maxResults_of options) (chunks vsd))).
Proof.
  intros P question vsd options e w Hq.
  rewrite Nat.mul_comm in Hq.
  eexists; eexists. split; [apply (retrieve_failure P _ _ _ _ _ Hq)|].
  simpl. repeat split.
Qed.

(** ** The cache of vector stores *)

Section CacheMap.
Context {V : Type}.
Import SemanticSearch.

Lemma map_get_In (key : string) (m : list (string * V)) (v : V) :
  map_get key m = Some v -> In (key, v) m.
Proof.
  induction m as [| [k x] m IH]; simpl; [discriminate|].
  destruct (String.eqb k key) eqn:E.
  - apply String.eqb_eq in E. intros [= ->]. left. now subst.
  - intros H. right. auto.
Qed.

Lemma map_get_None (key : string) (m : list (string * V)) :
  map_get key m = None -> ~ In key (map fst m).
Proof.
  induction m as [| [k x] m IH]; simpl; [tauto|].
  destruct (String.eqb k key) eqn:E; [discriminate|].
  apply String.eqb_neq in E. intros H [Hk | Hin]; [congruence | now apply IH].
Qed.

Lemma map_get_notin (key : string) (m : list (string * V)) :
  ~ In key (map fst m) -> map_get key m = None.
Proof.
  induction m as [| [k x] m IH]; simpl; [reflexivity|].
  intros H. destruct (String.eqb k key) eqn:E.
  - apply String.eqb_eq in E. tauto.
  - apply IH. tauto.
Qed.

Lemma map_set_absent (key : string) (v : V) (m : list (string * V)) :
  map_get key m = None -> map_set key v m = m ++ [(key, v)].
Proof.
  induction m as [| [k x] m IH]; simpl; [reflexivity|].
  destruct (String.eqb k key); [discriminate|].
  intros H. now rewrite IH.
Qed.

Lemma map_get_app_last (key : string) (v : V) (m : list (string * V)) :
  map_get key m = None -> map_get key (m ++ [(key, v)]) = Some v.
Proof.
  induction m as [| [k x] m IH]; simpl.
  - now rewrite String.eqb_refl.
  - destruct (String.eqb k key); [discriminate | exact IH].
Qed.

Lemma map_get_app_other (key key' : string) (v : V) (m : list (string * V)) :
  key' <> key -> map_get key' (m ++ [(key, v)]) = map_get key' m.
Proof.
  intros Hne. induction m as [| [k x] m IH]; simpl.
  - destruct (String.eqb key key') eqn:E; [|reflexivity].
    apply String.eqb_eq in E. congruence.
  - destruct (String.eqb k key'); [reflexivity | exact IH].
Qed.

Lemma map_get_tl (key : string) (m : list (string * V)) (v : V) :
  map_get key (tl m) = Some v -> NoDup (map fst m) -> map_get key m = Some v.
Proof.
  destruct m as [| [k x] m]; simpl; [discriminate|].
  intros H Hnd. destruct (String.eqb k key) eqn:E; [|exact H].
  apply String.eqb_eq in E. subst k.
  apply map_get_In in H. inversion Hnd as [| ? ? Hnotin _]; subst.
  exfalso. apply Hnotin. change key with (fst (key, v)). now apply in_map.
Qed.

Lemma map_delete_first (m : list (string * V)) :
  match first_key m with
  | Some firstKey => map_delete firstKey m = tl m
  | None => m = []
  end.
Proof.
  destruct m as [| [k x] m]; simpl; [reflexivity|].
  now rewrite String.eqb_refl.
Qed.

End CacheMap.

Section Cache.
Context (P : Platform).
Import SemanticSearch.

(** Inserting a new key into a cache of at most 10 entries: the entry
    goes last, and the first entry leaves when there were 10. *)
Lemma limit_size_insert (key : string) (entry : VectorStoreData)
    (m : list (string * VectorStoreData)) :
  map_get key m = None -> List.length m <= 10 ->
  limit_size (map_set key entry m)
  = (if List.length m =? 10 then tl m else m) ++ [(key, entry)].
Proof.
  intros Hnone Hlen. rewrite (map_set_absent _ _ _ Hnone).
  unfold limit_size. rewrite length_app. simpl List.length.
  destruct (Nat.eqb_spec (List.length m) 10) as [E | E].
  - replace (10 <? List.length m + 1) with true by (symmetry; apply Nat.ltb_lt; lia).
    pose proof (map_delete_first (m ++ [(key, entry)])) as Hd.
    destruct m as [| [k x] m]; [discriminate|].
    simpl in Hd |- *. now rewrite Hd.
  - replace (10 <? List.length m + 1) with false by (symmetry; apply Nat.ltb_ge; lia).
    reflexivity.
Qed.

Lemma create_hit (c : string) (d : AnalysisResponse) (k : string) (w : World)
    (cached : VectorStoreData) :
  map_get (generateCacheKey c (Some d)) (vectorStoreCache w) = Some cached ->
  createClauseVectorStore P c d k w = (Ok cached, w).
Proof.
  intros H. unfold createClauseVectorStore. run. now rewrite H.
Qed.

Lemma create_miss_ok (c : string) (d : AnalysisResponse) (k : string) (w : World) :
  map_get (generateCacheKey c (Some d)) (vectorStoreCache w) = None ->
  new_embeddings P k = Ok tt ->
  embed_documents P k (map pageContent (map document_of (build_chunks P c d))) = Ok tt ->
  createClauseVectorStore P c d k w
  = (Ok (built_entry P c d k w), world_after_build P c d k w).
Proof.
  intros Hget Hnew Hembed. unfold createClauseVectorStore. run. rewrite Hget.
  unfold createEmbeddings, fromDocuments, new_storeData. run. rewrite Hnew.
  cbn [emb_apiKey]. rewrite Hembed.
  cbn [vectorStoreCache set_vectorStoreCache set_next_ref set_events events next_ref].
  unfold world_after_build, limit_size, built_entry, build_events.
  destruct (10 <? _); [destruct (first_key _)|]; destruct w; cbn;
    rewrite <- ?app_assoc; reflexivity.
Qed.

Lemma create_miss_fail (c : string) (d : AnalysisResponse) (k : string) (w : World)
    (e : JsError) :
  map_get (generateCacheKey c (Some d)) (vectorStoreCache w) = None ->
  new_embeddings P k = Ok tt ->
  embed_documents P k (map pageContent (map document_of (build_chunks P c d))) = Throw e ->
  createClauseVectorStore P c d k w
  = (Throw (Error "Failed to create vector store for semantic search"),
     set_events (events w ++ build_events P c d k) w).
Proof.
  intros Hget Hnew Hembed. unfold createClauseVectorStore. run. rewrite Hget.
  unfold createEmbeddings, fromDocuments. run. rewrite Hnew.
  cbn [emb_apiKey]. rewrite Hembed.
  unfold build_events. destruct w; cbn; rewrite <- ?app_assoc; reflexivity.
Qed.

(** The constructor rejects the key: nothing is embedded. *)
Lemma create_miss_rejected (c : string) (d : AnalysisResponse) (k : string) (w : World)
    (e : JsError) :
  map_get (generateCacheKey c (Some d)) (vectorStoreCache w) = None ->
  new_embeddings P k = Throw e ->
  createClauseVectorStore P c d k w
  = (Throw (Error "Failed to create vector store for semantic search"),
     set_events (events w ++ [EvNewEmbeddings k]) w).
Proof.
  intros Hget Hnew. unfold createClauseVectorStore. run. rewrite Hget.
  unfold createEmbeddings. run. rewrite Hnew. reflexivity.
Qed.

(** The three outcomes of a call. *)
Lemma create_cases (c : string) (d : AnalysisResponse) (k : string) (w : World) :
  (exists cached,
      map_get (generateCacheKey c (Some d)) (vectorStoreCache w) = Some cached
      /\ createClauseVectorStore P c d k w = (Ok cached, w))
  \/ (map_get (generateCacheKey c (Some d)) (vectorStoreCache w) = None
      /\ createClauseVectorStore P c d k w
         = (Ok (built_entry P c d k w), world_after_build P c d k w))
  \/ (map_get (generateCacheKey c (Some d)) (vectorStoreCache w) = None
      /\ exists added,
          createClauseVectorStore P c d k w
          = (Throw (Error "Failed to create vector store for semantic search"),
             set_events (events w ++ added) w)).
Proof.
  destruct (map_get (generateCacheKey c (Some d)) (vectorStoreCache w)) as [cached|] eqn:Hget.
  - left. exists cached. auto using create_hit.
  - destruct (new_embeddings P k) as [[]| e0] eqn:Hnew.
    + destruct (embed_documents P k (map pageContent (map document_of (build_chunks P c d))))
        as [[]| e] eqn:Hembed.
      * right; left. auto using create_miss_ok.
      * right; right. eauto using create_miss_fail.
    + right; right. eauto using create_miss_rejected.
Qed.

Lemma cache_wf_after_build (c : string) (d : AnalysisResponse) (k : string) (w : World) :
  cache_wf w ->
  map_get (generateCacheKey c (Some d)) (vectorStoreCache w) = None ->
  cache_wf (world_after_build P c d k w).
Proof.
  intros (Hkeys & Hlen & Hrefs & Hlt) Hnone.
  unfold cache_wf, world_after_build.
  cbn [vectorStoreCache next_ref].
  rewrite (limit_size_insert _ _ _ Hnone Hlen).
  set (key := generateCacheKey c (Some d)) in *.
  set (entry := built_entry P c d k w).
  assert (Hsub : forall x, In x (if List.length (vectorStoreCache w) =? 10
                                 then tl (vectorStoreCache w) else vectorStoreCache w) ->
                           In x (vectorStoreCache w)).
  { intros x. destruct (_ =? _); [|tauto].
    destruct (vectorStoreCache w); simpl; tauto. }
  assert (Hnd : forall (B : Type) (f : string * VectorStoreData -> B),
             NoDup (map f (vectorStoreCache w)) ->
             NoDup (map f (if List.length (vectorStoreCache w) =? 10
                           then tl (vectorStoreCache w) else vectorStoreCache w))).
  { intros B f H. destruct (_ =? _); [|exact H].
    destruct (vectorStoreCache w); simpl in *; [exact H | now inversion H]. }
  repeat split.
  - rewrite map_app. simpl. apply NoDup_app.
    + now apply Hnd.
    + constructor; [simpl; tauto | constructor].
    + intros x Hin [<- | []].
      apply in_map_iff in Hin as [kv [Hk Hin]]. apply Hsub in Hin.
      apply (map_get_None _ _ Hnone). rewrite <- Hk. now apply in_map.
  - rewrite length_app. simpl.
    destruct (Nat.eqb_spec (List.length (vectorStoreCache w)) 10) as [E | E].
    + destruct (vectorStoreCache w); simpl in *; lia.
    + lia.
  - rewrite map_app. simpl. apply NoDup_app.
    + now apply Hnd.
    + constructor; [simpl; tauto | constructor].
    + intros x Hin [<- | []].
      apply in_map_iff in Hin as [kv [Hk Hin]]. apply Hsub in Hin.
      rewrite Forall_forall in Hlt. specialize (Hlt _ Hin).
      rewrite Hk in Hlt. lia.
  - apply Forall_app. split.
    + apply Forall_forall. intros x Hin. apply Hsub in Hin.
      rewrite Forall_forall in Hlt. specialize (Hlt _ Hin). lia.
    + constructor; [|constructor]. simpl. lia.
Qed.

End Cache.


Section CacheCalls.
Context (P : Platform).
Import SemanticSearch.

Lemma cache_wf_set_events (l : list Event) (w : World) :
  cache_wf w -> cache_wf (set_events l w).
Proof. intros H. exact H. Qed.

(** After a successful call the entry is in the cache under its key. *)
Lemma create_ok_cached (c : string) (d : AnalysisResponse) (k : string) (w w1 : World)
    (r1 : VectorStoreData) :
  cache_wf w ->
  createClauseVectorStore P c d k w = (Ok r1, w1) ->
  map_get (generateCacheKey c (Some d)) (vectorStoreCache w1) = Some r1.
Proof.
  intros Hwf Hcall.
  destruct (create_cases P c d k w) as [(cached & Hget & E) | [(Hget & E) | (Hget & added & E)]];
    rewrite E in Hcall; inversion Hcall; subst; clear Hcall.
  - exact Hget.
  - unfold world_after_build. cbn [vectorStoreCache].
    destruct Hwf as (_ & Hlen & _).
    rewrite (limit_size_insert _ _ _ Hget Hlen).
    apply map_get_app_last. apply map_get_notin. intros Hin.
    apply (map_get_None _ _ Hget).
    destruct (_ =? _); [|exact Hin].
    destruct (vectorStoreCache w); simpl in *; tauto.
Qed.

Lemma create_preserves_wf (c : string) (d : AnalysisResponse) (k : string) (w w1 : World)
    (res : Exc VectorStoreData) :
  cache_wf w ->
  createClauseVectorStore P c d k w = (res, w1) ->
  cache_wf w1.
Proof.
  intros Hwf Hcall.
  destruct (create_cases P c d k w) as [(cached & Hget & E) | [(Hget & E) | (Hget & added & E)]];
    rewrite E in Hcall; inversion Hcall; subst; clear Hcall.
  - exact Hwf.
  - now apply cache_wf_after_build.
  - now apply cache_wf_set_events.
Qed.

Lemma cache_wf_after_calls (calls : list (string * AnalysisResponse * string)) (w : World) :
  cache_wf w -> cache_wf (after_calls P calls w).
Proof.
  revert w. induction calls as [| [[c d] k] calls IH]; intros w Hwf; [exact Hwf|].
  cbn [after_calls]. apply IH.
  destruct (createClauseVectorStore P c d k w) as [res w1] eqn:E.
  exact (create_preserves_wf c d k w w1 res Hwf E).
Qed.

End CacheCalls.


(** The fingerprint reads only the first 100 characters of the clause and
    the first 50 characters of the serialized analysis. *)
Lemma generateCacheKey_prefixes (c1 c2 : string) (d1 d2 : AnalysisResponse) :
  JsString.slice0 100 c1 = JsString.slice0 100 c2 ->
  JsString.slice0 50 (SemanticSearch.JSON_stringify d1)
  = JsString.slice0 50 (SemanticSearch.JSON_stringify d2) ->
  SemanticSearch.generateCacheKey c1 (Some d1) = SemanticSearch.generateCacheKey c2 (Some d2).
Proof.
  intros H1 H2. unfold SemanticSearch.generateCacheKey. now rewrite H1, H2.
Qed.

Lemma cache_wf_empty (w : World) : vectorStoreCache w = [] -> cache_wf w.
Proof.
  intros H. unfold cache_wf. rewrite H. simpl.
  repeat split; try constructor. lia.
Qed.



(** ** Credentials and configuration *)

Lemma getGeminiApiKey_run (w : World) :
  LangchainApi.getGeminiApiKey w
  = (Ok (match auth_user w with
         | Some _ =>
             match api_keys_row w with
             | Some key => key
             | None => ls_gemini_api_key w
             end
         | None => ls_gemini_api_key w
         end),
     set_events (events w ++ [EvReadApiKey]) w).
Proof.
  unfold LangchainApi.getGeminiApiKey. run. cbn.
  destruct (auth_user w); [destruct (api_keys_row w)|]; reflexivity.
Qed.

(** Loading the configuration always succeeds and touches nothing but
    the module variable. *)
Lemma loadAPIConfig_run (P : Platform) (w : World) :
  exists config, ApiWrapper.loadAPIConfig P w = (Ok config, set_apiConfig config w).
Proof.
  unfold ApiWrapper.loadAPIConfig. run.
  destruct (ls_api_config w) as [stored|].
  - destruct (JsString.isEmpty stored).
    + exists (apiConfig w). destruct w; reflexivity.
    + destruct (JSON_parse P stored) as [storedConfig | e].
      * destruct (Js.get storedConfig "enableSemanticSearch") as [semantic | e].
        -- eexists. cbn. reflexivity.
        -- exists (apiConfig w). destruct w; reflexivity.
      * exists (apiConfig w). destruct w; reflexivity.
  - exists (apiConfig w). destruct w; reflexivity.
Qed.

(** ** The analysis of one clause *)

Section Analysis.
Context (P : Platform).
Import LangchainApi.

Lemma analyzeClause_with_key (clause : string) (w : World) (key : string) :
  configured_key w = Some key ->
  analyzeClause P clause w = (analysis_outcome P key clause, world_after_analysis P key clause w).
Proof.
  intros Hkey.
  unfold analyzeClause. unfold try_catch at 1. unfold bind at 1.
  rewrite getGeminiApiKey_run.
  unfold configured_key in Hkey. rewrite Hkey.
  unfold createAnalysisChains, createLLMInstance, invoke, save_analysis.
  unfold world_after_analysis, analysis_outcome, analysis_calls.
  cbn -[simplificationTemplate riskyTermsTemplate governmentArticlesTemplate
        parse_and_validate].
  destruct (llm_complete P key (simplificationTemplate clause)) as [r1 | e1];
    destruct (llm_complete P key (riskyTermsTemplate clause)) as [r2 | e2];
    destruct (llm_complete P key (governmentArticlesTemplate clause)) as [r3 | e3];
    cbn -[simplificationTemplate riskyTermsTemplate governmentArticlesTemplate
          parse_and_validate];
    try destruct (parse_and_validate P r1 r2 r3) as [result | e]; run;
    destruct w as [cfg lsc lsk user row history cache next evs];
    cbn -[simplificationTemplate riskyTermsTemplate governmentArticlesTemplate];
    try destruct user;
    cbn -[simplificationTemplate riskyTermsTemplate governmentArticlesTemplate];
    rewrite <- ?app_assoc, ?app_nil_r; reflexivity.
Qed.

Lemma analyzeClause_without_key (clause : string) (w : World) :
  configured_key w = None ->
  analyzeClause P clause w
  = (Throw (Error "Gemini API key not found"),
     set_events
       (events w
          ++ [EvReadApiKey;
              EvToast toast_error "Please enter your Gemini API key in settings";
              EvToast toast_error "Failed to analyze legal clause"]) w).
Proof.
  intros Hkey.
  unfold analyzeClause. unfold try_catch at 1. unfold bind at 1.
  rewrite getGeminiApiKey_run.
  unfold configured_key in Hkey. rewrite Hkey.
  destruct w; cbn; rewrite <- ?app_assoc; reflexivity.
Qed.

Lemma model_calls_after_analysis (key clause : string) (w : World) :
  model_calls (world_after_analysis P key clause w)
  = model_calls w ++ analysis_calls key clause.
Proof.
  unfold model_calls, world_after_analysis. cbn [events].
  rewrite !filter_app.
  destruct (analysis_outcome P key clause); reflexivity.
Qed.

Lemma configured_key_after_analysis (key clause : string) (w : World) :
  configured_key (world_after_analysis P key clause w) = configured_key w.
Proof. reflexivity. Qed.

(** A batch issues the three model calls of every clause, whatever the
    number of clauses and whatever the individual outcomes. *)
Lemma promise_all_analyze_calls (key : string) (clauses : list string) (w : World) :
  configured_key w = Some key ->
  model_calls (snd (promise_all (analyzeClause P) clauses w))
  = model_calls w ++ flat_map (analysis_calls key) clauses.
Proof.
  revert w. induction clauses as [| clause clauses IH]; intros w Hkey.
  - cbn. now rewrite app_nil_r.
  - cbn [promise_all flat_map].
    rewrite (analyzeClause_with_key clause w key Hkey).
    specialize (IH (world_after_analysis P key clause w)
                  (eq_trans (configured_key_after_analysis key clause w) Hkey)).
    destruct (promise_all (analyzeClause P) clauses (world_after_analysis P key clause w))
      as [rs w2].
    cbn [snd] in IH.
    assert (Hw2 : model_calls w2
                  = model_calls w ++ analysis_calls key clause
                      ++ flat_map (analysis_calls key) clauses).
    { rewrite IH, model_calls_after_analysis. now rewrite <- app_assoc. }
    destruct (analysis_outcome P key clause), rs; exact Hw2.
Qed.

Lemma analyzeBatchClauses_calls (key : string) (clauses : list string) (w : World) :
  configured_key w = Some key ->
  model_calls (snd (analyzeBatchClauses P clauses w))
  = model_calls w ++ flat_map (analysis_calls key) clauses.
Proof.
  intros Hkey.
  unfold analyzeBatchClauses. unfold try_catch at 1. unfold bind at 1.
  rewrite getGeminiApiKey_run.
  unfold configured_key in Hkey. rewrite Hkey.
  unfold toast, emit, modify. unfold bind at 1. unfold bind at 1.
  match goal with
  | |- context [promise_all (analyzeClause P) clauses ?w0] =>
      pose proof (promise_all_analyze_calls key clauses w0) as Hcalls;
      destruct (promise_all (analyzeClause P) clauses w0) as [[results | e] w1]
  end; cbn [snd] in Hcalls; run; cbn [snd];
    unfold model_calls in *; cbn [events set_events] in *;
    rewrite !filter_app in *; cbn [filter is_model_call] in *;
    rewrite ?app_nil_r in *; apply Hcalls; exact Hkey.
Qed.

End Analysis.

(** ** Batch processing *)

Section Batch.
Context (P : Platform).

Lemma loadAPIConfig_world (w w0 : World) (config : APIConfig) :
  ApiWrapper.loadAPIConfig P w = (Ok config, w0) -> w0 = set_apiConfig config w.
Proof.
  intros H. destruct (loadAPIConfig_run P w) as [c E].
  rewrite E in H. now inversion H.
Qed.

Lemma processBatchClauses_run (clauses : list string) (w w0 : World) (config : APIConfig) :
  ApiWrapper.loadAPIConfig P w = (Ok config, w0) ->
  ApiWrapper.processBatchClauses P clauses w
  = if negb (useLangChain config) then
      (Throw (Error "Batch processing is only available with LangChain API"), w0)
    else if negb (enableBatchProcessing config) then
      (Throw (Error "Batch processing is disabled in configuration"), w0)
    else LangchainApi.analyzeBatchClauses P clauses w0.
Proof.
  intros H. unfold ApiWrapper.processBatchClauses. unfold bind at 1. rewrite H.
  destruct (useLangChain config), (enableBatchProcessing config); reflexivity.
Qed.

Lemma handleBatchAnalysis_over_ten
    (onAnalysisComplete : option (list AnalysisResponse -> M unit)) (text : string)
    (w : World) :
  JsString.isEmpty (JsString.trim text) = false ->
  10 < List.length (BatchDemo.clauseList_of P text) ->
  BatchDemo.handleBatchAnalysis P onAnalysisComplete true text w
  = (Ok None,
     set_events
       (events w ++ [EvToast toast_warning "Maximum 10 clauses allowed for batch processing"])
       w).
Proof.
  intros Hne Hlen. unfold BatchDemo.handleBatchAnalysis.
  rewrite Hne. cbn [negb].
  destruct (Nat.eqb_spec (List.length (BatchDemo.clauseList_of P text)) 0) as [E | _]; [lia|].
  apply Nat.ltb_lt in Hlen. rewrite Hlen. reflexivity.
Qed.

End Batch.

Lemma length_flat_map_analysis_calls (key : string) (clauses : list string) :
  List.length (flat_map (analysis_calls key) clauses) = 3 * List.length clauses.
Proof.
  induction clauses as [| c clauses IH]; [reflexivity|].
  cbn [flat_map]. rewrite length_app, IH. cbn [analysis_calls List.length]. lia.
Qed.

(** C4, amended.  The ceiling of 10 clauses is enforced before any model
    call by the handler of the batch form, which answers a list of more
    than 10 clauses with the warning and calls nothing.
    [processBatchClauses] itself has no ceiling: with both toggles on and
    an API key configured, a list of any length (11 or more included) is
    handed to [analyzeBatchClauses] and three model calls are issued for
    each of its clauses. *)
Theorem C4_ceiling_enforced_by_the_form :
  forall (P : Platform),
    (forall (onAnalysisComplete : option (list AnalysisResponse -> M unit))
            (text : string) (w : World),
        JsString.isEmpty (JsString.trim text) = false ->
        10 < List.length (BatchDemo.clauseList_of P text) ->
        exists w',
          BatchDemo.handleBatchAnalysis P onAnalysisComplete true text w = (Ok None, w')
          /\ events_added w w'
               [EvToast toast_warning "Maximum 10 clauses allowed for batch processing"]
          /\ model_calls w' = model_calls w)
    /\ (forall (clauses : list string) (w w0 : World) (config : APIConfig) (key : string),
           ApiWrapper.loadAPIConfig P w = (Ok config, w0) ->
           useLangChain config = true ->
           enableBatchProcessing config = true ->
           configured_key w = Some key ->
           ApiWrapper.processBatchClauses P clauses w
           = LangchainApi.analyzeBatchClauses P clauses w0
           /\ model_calls (snd (ApiWrapper.processBatchClauses P clauses w))
              = model_calls w ++ flat_map (analysis_calls key) clauses
           /\ List.length (model_calls (snd (ApiWrapper.processBatchClauses P clauses w)))
              = List.length (model_calls w) + 3 * List.length clauses).
Proof.
  intros P. split.
  - intros onAnalysisComplete text w Hne Hlen.
    eexists. split; [now apply handleBatchAnalysis_over_ten|].
    split.
    + unfold events_added. now rewrite set_events_events.
    + unfold model_calls. rewrite set_events_events, filter_app. cbn. now rewrite app_nil_r.
  - intros clauses w w0 config key Hload Hlang Hbatch Hkey.
    pose proof (processBatchClauses_run P clauses w w0 config Hload) as Hrun.
    rewrite Hlang, Hbatch in Hrun. cbn [negb] in Hrun.
    pose proof (loadAPIConfig_world P w w0 config Hload) as ->.
    assert (Hcalls : model_calls (snd (ApiWrapper.processBatchClauses P clauses w))
                     = model_calls w ++ flat_map (analysis_calls key) clauses).
    { rewrite Hrun.
      exact (analyzeBatchClauses_calls P key clauses (set_apiConfig config w) Hkey). }
    repeat split; [exact Hrun | exact Hcalls |].
    rewrite Hcalls, length_app, length_flat_map_analysis_calls. reflexivity.
Qed.

Lemma C4_ceiling_witness :
  (JsString.isEmpty (JsString.trim Sample.eleven_clauses_text) = false
   /\ 10 < List.length (BatchDemo.clauseList_of Sample.platform Sample.eleven_clauses_text))
  /\ exists w',
      BatchDemo.handleBatchAnalysis Sample.platform (Some LangChainDemoPage.onAnalysisComplete)
        true Sample.eleven_clauses_text Sample.world
      = (Ok None, w')
      /\ events_added Sample.world w'
           [EvToast toast_warning "Maximum 10 clauses allowed for batch processing"]
      /\ model_calls w' = model_calls Sample.world.
Proof.
  assert (H1 : JsString.isEmpty (JsString.trim Sample.eleven_clauses_text) = false)
    by reflexivity.
  assert (H2 : 10 < List.length (BatchDemo.clauseList_of Sample.platform
                                   Sample.eleven_clauses_text))
    by (apply Nat.ltb_lt; vm_compute; reflexivity).
  split; [split; assumption|].
  exact (proj1 (C4_ceiling_enforced_by_the_form Sample.platform)
           (Some LangChainDemoPage.onAnalysisComplete) Sample.eleven_clauses_text Sample.world
           H1 H2).
Defined.

(** C4 as the specification states it fails: with both toggles on, a
    list of 11 clauses is not rejected; all 11 are analysed, with 33
    model calls. *)
Lemma C4_eleven_clauses_are_analysed :
  exists results w',
    ApiWrapper.processBatchClauses Sample.platform Sample.eleven_clauses Sample.world
    = (Ok results, w')
    /\ List.length results = 11
    /\ List.length (model_calls w') = 33.
Proof.
  eexists; eexists. split; [vm_compute; reflexivity|]. split; reflexivity.
Qed.

(** C9.  [processBatchClauses] goes on to the batch analysis only when
    both toggles of the loaded configuration are on.  With [useLangChain]
    off it throws the error naming the LangChain API, with
    [enableBatchProcessing] off the error naming the disabled batch
    processing; in both cases nothing was called: the world is the one
    left by loading the configuration, whose event log is unchanged. *)
Theorem C9_batch_needs_both_toggles :
  forall (P : Platform) (clauses : list string) (w w0 : World) (config : APIConfig),
    ApiWrapper.loadAPIConfig P w = (Ok config, w0) ->
    events w0 = events w
    /\ (useLangChain config = false ->
        ApiWrapper.processBatchClauses P clauses w
        = (Throw (Error "Batch processing is only available with LangChain API"), w0))
    /\ (useLangChain config = true ->
        enableBatchProcessing config = false ->
        ApiWrapper.processBatchClauses P clauses w
        = (Throw (Error "Batch processing is disabled in configuration"), w0))
    /\ (useLangChain config = true ->
        enableBatchProcessing config = true ->
        ApiWrapper.processBatchClauses P clauses w
        = LangchainApi.analyzeBatchClauses P clauses w0).
Proof.
  intros P clauses w w0 config Hload.
  pose proof (processBatchClauses_run P clauses w w0 config Hload) as Hrun.
  split; [now rewrite (loadAPIConfig_world P w w0 config Hload)|].
  repeat split; intros; rewrite Hrun;
    repeat match goal with H : _ = _ |- _ => rewrite H; clear H end; reflexivity.
Qed.

Lemma C9_batch_toggle_witness :
  ApiWrapper.loadAPIConfig Sample.platform Sample.world_without_batch
  = (Ok (mkConfig true false true true), Sample.world_without_batch)
  /\ ApiWrapper.processBatchClauses Sample.platform Sample.eleven_clauses
       Sample.world_without_batch
     = (Throw (Error "Batch processing is disabled in configuration"),
        Sample.world_without_batch)
  /\ ApiWrapper.processBatchClauses Sample.platform Sample.eleven_clauses
       Sample.world_without_langchain
     = (Throw (Error "Batch processing is only available with LangChain API"),
        Sample.world_without_langchain).
Proof.
  split; [reflexivity|]. split.
  - exact (proj1 (proj2 (proj2
             (C9_batch_needs_both_toggles Sample.platform Sample.eleven_clauses
                Sample.world_without_batch Sample.world_without_batch
                (mkConfig true false true true) eq_refl))) eq_refl eq_refl).
  - exact (proj1 (proj2
             (C9_batch_needs_both_toggles Sample.platform Sample.eleven_clauses
                Sample.world_without_langchain Sample.world_without_langchain
                (mkConfig false true true true) eq_refl)) eq_refl).
Defined.

(** ** Follow-up questions *)

Section Followup.
Context (P : Platform).


Lemma langchain_followup_without_key (question originalClause : string) (w : World) :
  configured_key w = None ->
  LangchainApi.submitFollowupQuestion P question originalClause w
  = (Throw (Error "Gemini API key not found"),
     set_events
       (events w
          ++ [EvReadApiKey;
              EvToast toast_error "Please enter your Gemini API key in settings";
              EvToast toast_error "Failed to submit follow-up question"]) w).
Proof.
  intros Hkey.
  unfold LangchainApi.submitFollowupQuestion. unfold try_catch at 1. unfold bind at 1.
  rewrite getGeminiApiKey_run.
  unfold configured_key in Hkey. rewrite Hkey.
  destruct w; cbn; rewrite <- ?app_assoc; reflexivity.
Qed.


Lemma wrapper_followup_semantic (question originalClause : string)
    (data : AnalysisResponse) (w w0 : World) (config : APIConfig) :
  ApiWrapper.loadAPIConfig P w = (Ok config, w0) ->
  useLangChain config = true ->
  enableSemanticSearch config = true ->
  ApiWrapper.submitFollowupQuestion P question originalClause (Some data) w
  = (let '(r, w') :=
       SemanticSearch.submitEnhancedFollowupQuestion P question originalClause data
         EmptyString w0 in
     (exc_bind r (fun x => Ok (ApiWrapper.Enhanced x)), w')).
Proof.
  intros Hload Hlang Hsem.
  unfold ApiWrapper.submitFollowupQuestion. unfold bind at 1. rewrite Hload, Hlang, Hsem.
  cbn [andb]. unfold bind, ret.
  destruct (SemanticSearch.submitEnhancedFollowupQuestion P question originalClause data
              EmptyString w0) as [[a | e] w'];
    reflexivity.
Qed.

End Followup.



(** ** Computations that only append to the event log *)

Section Appends.
Context {A : Type} (Q : Event -> Prop).

Lemma appends_ret (a : A) : appends Q (ret a).
Proof. intros w. exists []. cbn. now rewrite app_nil_r. Qed.

Lemma appends_throw (e : JsError) : appends Q (@throw A e).
Proof. intros w. exists []. cbn. now rewrite app_nil_r. Qed.

Lemma appends_lift (x : Exc A) : appends Q (lift x).
Proof. intros w. exists []. cbn. now rewrite app_nil_r. Qed.

Lemma appends_bind {B : Type} (m : M B) (k : B -> M A) :
  appends Q m -> (forall b, appends Q (k b)) -> appends Q (bind m k).
Proof.
  intros Hm Hk w. unfold bind.
  destruct (Hm w) as (added1 & E1 & F1).
  destruct (m w) as [[b | e] w1]; cbn [snd] in E1.
  - destruct (Hk b w1) as (added2 & E2 & F2).
    exists (added1 ++ added2). rewrite E2, E1, app_assoc.
    split; [reflexivity | apply Forall_app; auto].
  - exists added1. auto.
Qed.

Lemma appends_try_catch (body : M A) (handler : JsError -> M A) :
  appends Q body -> (forall e, appends Q (handler e)) -> appends Q (try_catch body handler).
Proof.
  intros Hm Hk w. unfold try_catch.
  destruct (Hm w) as (added1 & E1 & F1).
  destruct (body w) as [[b | e] w1]; cbn [snd] in E1.
  - exists added1. auto.
  - destruct (Hk e w1) as (added2 & E2 & F2).
    exists (added1 ++ added2). rewrite E2, E1, app_assoc.
    split; [reflexivity | apply Forall_app; auto].
Qed.

End Appends.

Lemma appends_get_world (Q : Event -> Prop) : appends Q get_world.
Proof. intros w. exists []. cbn. now rewrite app_nil_r. Qed.

Lemma appends_modify (Q : Event -> Prop) (f : World -> World) :
  (forall w, events (f w) = events w) -> appends Q (modify f).
Proof. intros H w. exists []. cbn. now rewrite H, app_nil_r. Qed.

Lemma appends_emit (Q : Event -> Prop) (ev : Event) : Q ev -> appends Q (emit ev).
Proof. intros H w. exists [ev]. cbn. auto. Qed.

(** A step that always succeeds with a known value and known events. *)
Lemma appends_bind_known {A B : Type} (Q : Event -> Prop) (m : M B) (k : B -> M A)
    (b : B) (l : list Event) :
  (forall w, m w = (Ok b, set_events (events w ++ l) w)) ->
  Forall Q l -> appends Q (k b) -> appends Q (bind m k).
Proof.
  intros Hm Hl Hk w. unfold bind. rewrite Hm.
  destruct (Hk (set_events (events w ++ l) w)) as (added & E & F).
  exists (l ++ added). rewrite E, set_events_events, app_assoc.
  split; [reflexivity | apply Forall_app; auto].
Qed.

(** A step with known events that succeeds with a known value or
    throws. *)
Lemma appends_bind_known_or_throw {A B : Type} (Q : Event -> Prop) (m : M B) (k : B -> M A)
    (b : B) (l : list Event) :
  (forall w, m w = (Ok b, set_events (events w ++ l) w)
             \/ exists e, m w = (Throw e, set_events (events w ++ l) w)) ->
  Forall Q l -> appends Q (k b) -> appends Q (bind m k).
Proof.
  intros Hm Hl Hk w. unfold bind. destruct (Hm w) as [-> | [e ->]].
  - destruct (Hk (set_events (events w ++ l) w)) as (added & E & F).
    exists (l ++ added). rewrite E, set_events_events, app_assoc.
    split; [reflexivity | apply Forall_app; auto].
  - exists l. cbn [snd]. now rewrite set_events_events.
Qed.

Lemma createEmbeddings_run (P : Platform) (apiKey : string) (w : World) :
  SemanticSearch.createEmbeddings P apiKey w
  = (Ok (mkEmbeddings apiKey "embedding-001"),
     set_events (events w ++ [EvNewEmbeddings apiKey]) w)
  \/ exists e,
      SemanticSearch.createEmbeddings P apiKey w
      = (Throw e, set_events (events w ++ [EvNewEmbeddings apiKey]) w).
Proof.
  unfold SemanticSearch.createEmbeddings. run.
  destruct (new_embeddings P apiKey) as [[]| e]; [now left | right; now exists e].
Qed.

Lemma createLLMInstance_run (apiKey : string) (w : World) :
  LangchainApi.createLLMInstance apiKey w
  = (Ok apiKey, set_events (events w ++ [EvNewLLM apiKey]) w).
Proof. reflexivity. Qed.

Ltac appends_step :=
  first
    [ apply appends_ret
    | apply appends_throw
    | apply appends_lift
    | apply appends_get_world
    | apply appends_emit; cbn; auto
    | apply appends_modify; intros; reflexivity
    | apply (appends_bind_known_or_throw _ _ _ _ _ (createEmbeddings_run _ _));
      [repeat constructor|]
    | apply (appends_bind_known _ _ _ _ _ (createLLMInstance_run _));
      [repeat constructor|]
    | apply appends_bind; [| intros ?]
    | apply appends_try_catch; [| intros ?]
    | match goal with
      | |- appends _ (match ?x with _ => _ end) => destruct x
      | |- appends _ (if ?x then _ else _) => destruct x
      end ].

(** The semantic path with the empty key: every instance it creates and
    every provider call it makes carries the empty key, and the
    credentials store is not read. *)
Lemma enhanced_followup_appends (P : Platform) (question originalClause : string)
    (data : AnalysisResponse) :
  appends uses_empty_key
    (SemanticSearch.submitEnhancedFollowupQuestion P question originalClause data EmptyString).
Proof.
  unfold SemanticSearch.submitEnhancedFollowupQuestion,
    SemanticSearch.createClauseVectorStore,
    SemanticSearch.fromDocuments, SemanticSearch.new_storeData,
    SemanticSearch.retrieveRelevantContext, LangchainApi.invoke, toast.
  repeat appends_step.
Qed.

(** C10.  With both the advanced-orchestration and the semantic-search
    toggles on and analysis data supplied, the wrapper calls
    [submitEnhancedFollowupQuestion] with the empty string as API key:
    the credentials store is not read, and every embeddings instance and
    model instance created on the way, and every call made with them,
    carries the empty key. *)
Theorem C10_semantic_path_uses_empty_key :
  forall (P : Platform) (question originalClause : string) (data : AnalysisResponse)
         (w w0 : World) (config : APIConfig),
    ApiWrapper.loadAPIConfig P w = (Ok config, w0) ->
    useLangChain config = true ->
    enableSemanticSearch config = true ->
    exists r w' added,
      SemanticSearch.submitEnhancedFollowupQuestion P question originalClause data
        EmptyString w0 = (r, w')
      /\ ApiWrapper.submitFollowupQuestion P question originalClause (Some data) w
         = (exc_bind r (fun x => Ok (ApiWrapper.Enhanced x)), w')
      /\ events_added w w' added
      /\ Forall uses_empty_key added.
Proof.
  intros P question originalClause data w w0 config Hload Hlang Hsem.
  rewrite (wrapper_followup_semantic P question originalClause data w w0 config
             Hload Hlang Hsem).
  destruct (enhanced_followup_appends P question originalClause data w0)
    as (added & Hadded & Hall).
  destruct (SemanticSearch.submitEnhancedFollowupQuestion P question originalClause data
              EmptyString w0) as [r w'].
  exists r, w', added. repeat split; auto.
  unfold events_added. cbn [snd] in Hadded. rewrite Hadded.
  now rewrite (loadAPIConfig_world P w w0 config Hload).
Qed.

Lemma C10_semantic_path_witness :
  (ApiWrapper.loadAPIConfig Sample.platform Sample.world
   = (Ok (mkConfig true true true true), Sample.world))
  /\ exists r w' added,
      ApiWrapper.submitFollowupQuestion Sample.platform "Who pays?" Sample.clause
        (Some Sample.facets) Sample.world
      = (exc_bind r (fun x => Ok (ApiWrapper.Enhanced x)), w')
      /\ events_added Sample.world w' added
      /\ Forall uses_empty_key added.
Proof.
  split; [reflexivity|].
  destruct (C10_semantic_path_uses_empty_key Sample.platform "Who pays?" Sample.clause
              Sample.facets Sample.world Sample.world (mkConfig true true true true)
              eq_refl eq_refl eq_refl)
    as (r & w' & added & _ & H2 & H3 & H4).
  exists r, w', added. repeat split; assumption.
Defined.

(** ** Validation of parsed items *)

Section Validation.
Context (P : Platform).
Import LangchainApi.

Lemma filterE_total {A : Type} (pred : A -> Exc bool) (p : A -> bool) (items : list A) :
  (forall x, In x items -> pred x = Ok (p x)) ->
  filterE pred items = Ok (filter p items).
Proof.
  induction items as [| x items IH]; intros H; [reflexivity|].
  cbn [filterE filter]. rewrite (H x (or_introl eq_refl)). cbn [exc_bind].
  rewrite IH by (intros y Hy; apply H; now right). cbn [exc_bind].
  destruct (p x); reflexivity.
Qed.

Lemma mapE_total {A B : Type} (f : A -> Exc B) (g : A -> B) (items : list A) :
  (forall x, In x items -> f x = Ok (g x)) ->
  mapE f items = Ok (map g items).
Proof.
  induction items as [| x items IH]; intros H; [reflexivity|].
  cbn [mapE map]. rewrite (H x (or_introl eq_refl)). cbn [exc_bind].
  rewrite IH by (intros y Hy; apply H; now right). reflexivity.
Qed.

Lemma get_field (item : JSON) (key : string) :
  is_null item = false -> Js.get item key = Ok (field item key).
Proof. destruct item; intros H; try reflexivity. discriminate H. Qed.

Lemma all_three_present (item : JSON) (a b c : string) :
  is_null item = false ->
  all_three item a b c = Ok (present item a && present item b && present item c).
Proof.
  intros H. unfold all_three, present. rewrite !(get_field _ _ H). cbn [exc_bind].
  destruct (Js.truthy (field item a)); cbn [andb exc_bind]; [|reflexivity].
  destruct (Js.truthy (field item b)); reflexivity.
Qed.

Lemma field_text_of (item : JSON) (key : string) :
  is_null item = false -> field_text P item key = Ok (text_of P item key).
Proof.
  intros H. unfold field_text, text_of. now rewrite (get_field _ _ H).
Qed.

(** The coercion of one item whose severity is a string, [null] or
    absent. *)
Lemma sanitizeRiskyTerm_run (item : JSON) :
  is_null item = false ->
  match field item "severity" with
  | None | Some JNull | Some (JStr _) => True
  | _ => False
  end ->
  sanitizeRiskyTerm P item = Ok (sanitized_risky P item).
Proof.
  intros Hnull Hsev. unfold sanitizeRiskyTerm, sanitized_risky.
  rewrite !(field_text_of _ _ Hnull), (get_field _ _ Hnull). cbn [exc_bind].
  destruct (field item "severity") as [[| | | s | |]|]; try contradiction; try reflexivity.
  cbn [Js.toLowerCase_opt Js.toLowerCase exc_bind includes].
  unfold coerce_severity, severity_levels.
  destruct (existsb _ _); reflexivity.
Qed.

Lemma coerce_severity_level (s : string) :
  In (coerce_severity s) ["high"; "moderate"; "low"].
Proof.
  unfold coerce_severity.
  destruct (existsb _ _) eqn:E; [|simpl; tauto].
  apply existsb_exists in E as (x & Hin & Heq).
  apply String.eqb_eq in Heq. now subst.
Qed.

Lemma validateRiskyTerms_run (items : list JSON) :
  forallb risky_item items = true ->
  validateRiskyTerms P (JArr items)
  = Ok (map (sanitized_risky P) (filter complete_risky items)).
Proof.
  intros Hitems. rewrite forallb_forall in Hitems.
  unfold validateRiskyTerms.
  rewrite (filterE_total _ complete_risky).
  - cbn [exc_bind]. apply mapE_total.
    intros item Hin. apply filter_In in Hin as [Hin Hcomplete].
    specialize (Hitems _ Hin). unfold risky_item in Hitems.
    rewrite Hcomplete in Hitems. apply andb_true_iff in Hitems as [Hnull Hstr].
    apply negb_true_iff in Hnull.
    apply sanitizeRiskyTerm_run; [exact Hnull|].
    destruct (field item "severity") as [[| | | s | |]|]; try discriminate; exact I.
  - intros item Hin. specialize (Hitems _ Hin). unfold risky_item in Hitems.
    apply andb_true_iff in Hitems as [Hnull _]. apply negb_true_iff in Hnull.
    now apply all_three_present.
Qed.


End Validation.

(** ** Items the validators cannot read *)

Section ValidationFailures.
Variable P : Platform.
Import LangchainApi.

Lemma filterE_throw {A : Type} (pred : A -> Exc bool) (p : A -> bool) (e : JsError)
    (items : list A) :
  (forall x, In x items -> pred x = Ok (p x) \/ pred x = Throw e) ->
  (exists x, In x items /\ pred x = Throw e) ->
  filterE pred items = Throw e.
Proof.
  induction items as [| x items IH]; intros Hall [y [Hin Hy]]; [destruct Hin|].
  cbn [filterE].
  destruct (Hall x (or_introl eq_refl)) as [Hx | Hx]; rewrite Hx; [|reflexivity].
  cbn [exc_bind]. rewrite IH; [reflexivity | |].
  - intros z Hz. apply Hall. now right.
  - destruct Hin as [-> | Hin]; [congruence|]. now exists y.
Qed.

Lemma mapE_throw {A B : Type} (f : A -> Exc B) (g : A -> B) (e : JsError) (items : list A) :
  (forall x, In x items -> f x = Ok (g x) \/ f x = Throw e) ->
  (exists x, In x items /\ f x = Throw e) ->
  mapE f items = Throw e.
Proof.
  induction items as [| x items IH]; intros Hall [y [Hin Hy]]; [destruct Hin|].
  cbn [mapE].
  destruct (Hall x (or_introl eq_refl)) as [Hx | Hx]; rewrite Hx; [|reflexivity].
  cbn [exc_bind]. rewrite IH; [reflexivity | |].
  - intros z Hz. apply Hall. now right.
  - destruct Hin as [-> | Hin]; [congruence|]. now exists y.
Qed.

Lemma forallb_false_exists {A : Type} (p : A -> bool) (items : list A) :
  forallb p items = false -> exists x, In x items /\ p x = false.
Proof.
  induction items as [| x items IH]; cbn; [discriminate|].
  destruct (p x) eqn:E; cbn.
  - intros H. destruct (IH H) as [y [Hin Hy]]. exists y. auto.
  - intros _. exists x. auto.
Qed.

Lemma all_three_null (a b c : string) : all_three JNull a b c = Throw TypeError.
Proof. reflexivity. Qed.

Lemma all_three_cases (item : JSON) (a b c : string) :
  all_three item a b c = Ok (present item a && present item b && present item c)
  \/ all_three item a b c = Throw TypeError.
Proof.
  destruct (is_null item) eqn:E.
  - right. destruct item; try discriminate. reflexivity.
  - left. now apply all_three_present.
Qed.

Lemma sanitizeRiskyTerm_cases (item : JSON) :
  is_null item = false ->
  complete_risky item = true ->
  sanitizeRiskyTerm P item
  = if is_string (field item "severity") then Ok (sanitized_risky P item)
    else Throw TypeError.
Proof.
  intros Hnull Hcomplete.
  unfold complete_risky in Hcomplete. rewrite !andb_true_iff in Hcomplete.
  destruct Hcomplete as [[_ Hsev] _]. unfold present in Hsev.
  destruct (field item "severity") as [[| b | q | s | l | o]|] eqn:E;
    try discriminate Hsev;
    try (apply sanitizeRiskyTerm_run; [exact Hnull | now rewrite E]);
    unfold sanitizeRiskyTerm;
    rewrite !(field_text_of P _ _ Hnull), (get_field _ _ Hnull), E; reflexivity.
Qed.

Lemma validateRiskyTerms_fails (items : list JSON) :
  forallb risky_item items = false ->
  validateRiskyTerms P (JArr items) = Throw TypeError.
Proof.
  intros Hbad. unfold validateRiskyTerms.
  destruct (forallb (fun item => negb (is_null item)) items) eqn:Hnull.
  - rewrite forallb_forall in Hnull.
    rewrite (filterE_total _ complete_risky)
      by (intros item Hin; apply all_three_present, negb_true_iff, Hnull, Hin).
    cbn [exc_bind].
    apply (mapE_throw _ (sanitized_risky P)).
    + intros item Hin. apply filter_In in Hin as [Hin Hc].
      rewrite (sanitizeRiskyTerm_cases item) by
        (try apply negb_true_iff; auto).
      destruct (is_string _); auto.
    + apply forallb_false_exists in Hbad as [item [Hin Hitem]].
      exists item. unfold risky_item in Hitem.
      rewrite (Hnull _ Hin) in Hitem. cbn [andb] in Hitem.
      destruct (complete_risky item) eqn:Hc; [|discriminate].
      split; [apply filter_In; auto|].
      rewrite (sanitizeRiskyTerm_cases item) by
        (try apply negb_true_iff; auto).
      now rewrite Hitem.
  - apply forallb_false_exists in Hnull as [item [Hin Hitem]].
    rewrite (filterE_throw _ complete_risky TypeError); [reflexivity | |].
    + intros x _. apply all_three_cases.
    + exists item. split; [exact Hin|].
      apply negb_false_iff in Hitem. destruct item; try discriminate. reflexivity.
Qed.


End ValidationFailures.

(** C6.  [validateRiskyTerms] coerces and drops as the claim says on the
    items it can read, and throws on the others.  On a list of items
    none of which is [null] and whose complete items have a string as
    severity, it returns the complete items, sanitized: an item lacking
    a truthy [term], [severity] or [explanation] is dropped, and every
    returned severity is one of high, moderate, low: the lowered input
    when that is one of the three, moderate otherwise (EXTREME becomes
    moderate, an item without explanation is dropped).  On every other
    list it throws a [TypeError] and nothing is returned: a complete item
    with the number 3 as severity is not given the severity moderate,
    and a [null] item is not dropped. *)
Theorem C6_risky_terms_coerced_dropped_or_thrown :
  forall (P : Platform) (items : list JSON),
    LangchainApi.validateRiskyTerms P (JArr items)
    = (if forallb risky_item items
       then Ok (map (sanitized_risky P) (filter complete_risky items))
       else Throw TypeError)
    /\ Forall (fun t => In (severity t) ["high"; "moderate"; "low"])
         (map (sanitized_risky P) (filter complete_risky items))
    /\ (forall item s,
           field item "severity" = Some (JStr s) ->
           severity (sanitized_risky P item)
           = if existsb (String.eqb (JsString.toLowerCase s)) ["high"; "moderate"; "low"]
             then JsString.toLowerCase s else "moderate")
    /\ (forall item,
           is_null item = false ->
           field item "severity" = None ->
           exists t, LangchainApi.sanitizeRiskyTerm P item = Ok t /\ severity t = "moderate")
    /\ (forall item key,
           In key ["term"; "severity"; "explanation"] ->
           present item key = false ->
           filter complete_risky [item] = [])
    /\ LangchainApi.validateRiskyTerms P
         (JArr [JObj [("term", JStr "x"); ("severity", JStr "EXTREME");
                      ("explanation", JStr "y")]])
       = Ok [mkRiskyTerm "x" "moderate" "y"]
    /\ LangchainApi.validateRiskyTerms P
         (JArr [JObj [("term", JStr "x"); ("severity", JStr "high")]])
       = Ok []
    /\ LangchainApi.validateRiskyTerms P
         (JArr [JObj [("term", JStr "x"); ("severity", JNum 3); ("explanation", JStr "y")]])
       = Throw TypeError
    /\ LangchainApi.validateRiskyTerms P
         (JArr [JObj [("term", JStr "x"); ("severity", JStr "high");
                      ("explanation", JStr "y")];
                JNull])
       = Throw TypeError.
Proof.
  intros P items. split.
  { destruct (forallb risky_item items) eqn:Hitems.
    - now apply validateRiskyTerms_run.
    - now apply validateRiskyTerms_fails. }
  split; [|split; [|split; [|split; [|split; [|split; [|split]]]]]].
  - apply Forall_forall. intros t Hin.
    apply in_map_iff in Hin as (item & <- & _).
    unfold sanitized_risky. cbn [severity].
    destruct (field item "severity") as [[| | | s | |]|];
      try (simpl; tauto). apply coerce_severity_level.
  - intros item s Hs. unfold sanitized_risky. cbn [severity]. now rewrite Hs.
  - intros item Hnull Hnone. eexists. split.
    + apply sanitizeRiskyTerm_run; [exact Hnull | now rewrite Hnone].
    + unfold sanitized_risky. cbn [severity]. now rewrite Hnone.
  - intros item key Hkey Hmissing. cbn [filter]. unfold complete_risky.
    destruct Hkey as [<- | [<- | [<- | []]]]; rewrite Hmissing;
      rewrite ?andb_false_r; reflexivity.
  - reflexivity.
  - reflexivity.
  - now apply validateRiskyTerms_fails.
  - now apply validateRiskyTerms_fails.
Qed.

(** The validation of a list of readable items. *)
Example validateRiskyTerms_sample :
  forallb risky_item Sample.risky_items = true
  /\ LangchainApi.validateRiskyTerms Sample.platform (JArr Sample.risky_items)
     = Ok [mkRiskyTerm "Indemnify" "high" "unlimited liability";
           mkRiskyTerm "x" "moderate" "y"].
Proof. split; reflexivity. Qed.




(** ** Layered parsing of a model response *)

Section Parsing.
Context (P : Platform).
Import LangchainApi.

Lemma parseJSONResponse_layered (response : string) (fallback : JSON) :
  parseJSONResponse P response fallback = Ok (layered_result P response fallback).
Proof.
  unfold parseJSONResponse, layered_result, parse_opt, or_fallback, exc_catch.
  destruct (JSON_parse P response) as [v | e]; [reflexivity|].
  destruct (match_code_block P response) as [block|].
  - destruct (JSON_parse P block); reflexivity.
  - destruct (match_json_array P response) as [found|]; [|reflexivity].
    destruct (JSON_parse P found); reflexivity.
Qed.

Lemma malformed_fallback (response : string) (fallback : JSON) :
  malformed P response -> layered_result P response fallback = fallback.
Proof.
  intros [Hdirect Hrest]. unfold layered_result. rewrite Hdirect.
  destruct (match_code_block P response) as [block|].
  - now rewrite Hrest.
  - destruct (match_json_array P response) as [found|]; [now rewrite Hrest | reflexivity].
Qed.

Lemma parse_and_validate_layered (simplified_ risky articles : string) :
  parse_and_validate P simplified_ risky articles
  = (riskyTerms_ <~ validateRiskyTerms P (layered_result P risky (JArr [])) ;;
     governmentArticles_ <~
       validateGovernmentArticles P (layered_result P articles (JArr [])) ;;
     Ok (mkAnalysis (JsString.trim simplified_) riskyTerms_ governmentArticles_))%exc.
Proof.
  unfold parse_and_validate. now rewrite !parseJSONResponse_layered.
Qed.

End Parsing.

(** C8.  [parseJSONResponse] never throws and returns what the layers
    give in their order: the direct parse; failing that, the parse of the
    fenced block if there is one; failing a block, the parse of the first
    array-like substring if there is one; and the fallback otherwise.
    Hence a response that none of the layers can read yields the empty
    list for its facet, and [analyzeClause] returns: with the risky-terms
    answer malformed the analysis has no risky terms, with the articles
    answer malformed it has no articles. *)
Theorem C8_layered_parse_never_throws :
  forall (P : Platform),
    (forall response fallback,
        LangchainApi.parseJSONResponse P response fallback
        = Ok (layered_result P response fallback))
    /\ (forall response fallback,
           malformed P response -> layered_result P response fallback = fallback)
    /\ (forall clause w key simplified_ risky articles found,
           configured_key w = Some key ->
           llm_complete P key (LangchainApi.simplificationTemplate clause) = Ok simplified_ ->
           llm_complete P key (LangchainApi.riskyTermsTemplate clause) = Ok risky ->
           llm_complete P key (LangchainApi.governmentArticlesTemplate clause) = Ok articles ->
           malformed P risky ->
           LangchainApi.validateGovernmentArticles P
             (layered_result P articles (JArr [])) = Ok found ->
           LangchainApi.analyzeClause P clause w
           = (Ok (mkAnalysis (JsString.trim simplified_) [] found),
              world_after_analysis P key clause w))
    /\ (forall clause w key simplified_ risky articles found,
           configured_key w = Some key ->
           llm_complete P key (LangchainApi.simplificationTemplate clause) = Ok simplified_ ->
           llm_complete P key (LangchainApi.riskyTermsTemplate clause) = Ok risky ->
           llm_complete P key (LangchainApi.governmentArticlesTemplate clause) = Ok articles ->
           malformed P articles ->
           LangchainApi.validateRiskyTerms P
             (layered_result P risky (JArr [])) = Ok found ->
           LangchainApi.analyzeClause P clause w
           = (Ok (mkAnalysis (JsString.trim simplified_) found []),
              world_after_analysis P key clause w)).
Proof.
  intros P. split; [apply parseJSONResponse_layered|].
  split; [apply malformed_fallback|].
  split; intros clause w key simplified_ risky articles found Hkey H1 H2 H3 Hbad Hother;
    rewrite (analyzeClause_with_key P clause w key Hkey); f_equal;
    unfold analysis_outcome; rewrite H1, H2, H3; cbn [exc_bind];
    rewrite parse_and_validate_layered, (malformed_fallback P _ _ Hbad), Hother;
    reflexivity.
Qed.

Lemma C8_layered_parse_witness :
  (configured_key Sample.world = Some "key-123"
   /\ malformed Sample.platform "I found no risky terms."
   /\ LangchainApi.validateGovernmentArticles Sample.platform
        (layered_result Sample.platform "[]" (JArr [])) = Ok [])
  /\ LangchainApi.analyzeClause Sample.platform Sample.clause Sample.world
     = (Ok (mkAnalysis "The clause means what it says." [] []),
        world_after_analysis Sample.platform "key-123" Sample.clause Sample.world).
Proof.
  assert (Hbad : malformed Sample.platform "I found no risky terms.")
    by (split; reflexivity).
  split; [repeat split; reflexivity|].
  exact (proj1 (proj2 (proj2 (C8_layered_parse_never_throws Sample.platform)))
           Sample.clause Sample.world "key-123" " The clause means what it says. "
           "I found no risky terms." "[]" []
           eq_refl eq_refl eq_refl eq_refl Hbad eq_refl).
Defined.

(** ** The retriever on the sample store *)

Lemma sample_hits_scores : map snd Sample.hits = [1; 1 # 2; 1 # 3; 1 # 4]%Q.
Proof. vm_compute. reflexivity. Qed.

Lemma sample_hits_descending : descending (map snd Sample.hits).
Proof.
  rewrite sample_hits_scores. unfold descending.
  repeat constructor; unfold Qle; cbn; lia.
Qed.

Lemma C1_retrieve_witness :
  (similarity_search Sample.platform (vectorStore (Sample.storeData "key-123")) "Who pays?"
     (2 * SemanticSearch.maxResults_of Sample.options) = Ok Sample.hits
   /\ descending (map snd Sample.hits))
  /\ exists result w',
      SemanticSearch.retrieveRelevantContext Sample.platform "Who pays?"
        (Sample.storeData "key-123") Sample.options Sample.world = (Ok result, w')
      /\ events_added Sample.world w' [EvSimilaritySearch "key-123" "Who pays?" 6]
      /\ List.length (SemanticSearch.relevantChunks result) <= 3
      /\ Forall (fun c => exists score,
                     relevanceScore (metadata c) = Some score /\ (3 # 10 <= score)%Q)
           (SemanticSearch.relevantChunks result)
      /\ descending (map SemanticSearch.score_or_zero (SemanticSearch.relevantChunks result)).
Proof.
  split; [split; [reflexivity | exact sample_hits_descending]|].
  exact (C1_retrieve_bounded_filtered_ordered Sample.platform "Who pays?"
           (Sample.storeData "key-123") Sample.options Sample.hits Sample.world
           eq_refl sample_hits_descending).
Defined.

Lemma C3_retrieve_fallback_witness :
  similarity_search Sample.platform (vectorStore (Sample.storeData EmptyString)) "Who pays?"
    (2 * SemanticSearch.maxResults_of Sample.options) = Throw (Error "API key not valid")
  /\ exists result w',
      SemanticSearch.retrieveRelevantContext Sample.platform "Who pays?"
        (Sample.storeData EmptyString) Sample.options Sample.world = (Ok result, w')
      /\ SemanticSearch.relevantChunks result
         = firstn 3 (chunks (Sample.storeData EmptyString))
      /\ SemanticSearch.averageRelevance result = 0%Q.
Proof.
  split; [reflexivity|].
  destruct (C3_retrieve_fallback_on_failure Sample.platform "Who pays?"
              (Sample.storeData EmptyString) Sample.options (Error "API key not valid")
              Sample.world eq_refl)
    as (result & w' & H1 & H2 & H3 & _).
  exists result, w'. repeat split; assumption.
Defined.

(** ** The functions on examples *)

Example btoa_examples :
  JsString.btoa "Man" = "TWFu" /\ JsString.btoa "Ma" = "TWE=" /\ JsString.btoa "M" = "TQ==".
Proof. repeat split. Qed.

Example trim_example : JsString.trim "  a b  " = "a b".
Proof. reflexivity. Qed.

Example generateCacheKey_example :
  SemanticSearch.generateCacheKey "abc" (Some Sample.facets)
  = "YWJj_eyJzaW1wbGlmaWVkRXhwbGFuYXRpb24iOiJZb3UgcGF5IGlmIHRoZSBjbGllbnQgaXM=".
Proof. reflexivity. Qed.

Example retrieve_example :
  exists result w',
    SemanticSearch.retrieveRelevantContext Sample.platform "Who pays?"
      (Sample.storeData "key-123") Sample.options Sample.world = (Ok result, w')
    /\ map content (SemanticSearch.relevantChunks result)
       = [Sample.clause; "You pay if the client is sued.";
          "Risky Term: " ++ JsString.dq ++ "indemnify" ++ JsString.dq
            ++ " (high severity) - unlimited liability"]%string
    /\ map SemanticSearch.score_or_zero (SemanticSearch.relevantChunks result)
       = [1; 1 # 2; 1 # 3]%Q.
Proof. eexists; eexists. repeat split. Qed.

(** A severity that is not a string makes the validation throw. *)
Example validateRiskyTerms_numeric_severity :
  LangchainApi.validateRiskyTerms Sample.platform
    (JArr [JObj [("term", JStr "x"); ("severity", JNum 1); ("explanation", JStr "y")]])
  = Throw TypeError.
Proof. reflexivity. Qed.

(** The follow-up through the wrapper in a fresh session takes the
    semantic path with the empty key, which the embeddings constructor
    rejects. *)
Example wrapper_followup_example :
  fst (ApiWrapper.submitFollowupQuestion Sample.platform "Who pays?" Sample.clause
         (Some Sample.facets) Sample.world)
  = Throw (Error "Failed to process enhanced follow-up question").
Proof. reflexivity. Qed.

(** * Further properties of the code *)

(** ** The fingerprint *)

Section Base64Facts.
Import JsString Base64.

Lemma b64_digit_value (n : nat) :
  n < 64 -> b64_value (b64_digit n) = n /\ is_pad (b64_digit n) = false.
Proof.
  intros H.
  do 64 (destruct n as [| n]; [split; vm_compute; reflexivity|]).
  lia.
Qed.

Lemma group_arith (a b c : nat) :
  a < 256 -> b < 256 -> c < 256 ->
  a / 4 < 64 /\ (a mod 4) * 16 + b / 16 < 64 /\ (b mod 16) * 4 + c / 64 < 64 /\ c mod 64 < 64
  /\ (a / 4) * 4 + ((a mod 4) * 16 + b / 16) / 16 = a
  /\ (((a mod 4) * 16 + b / 16) mod 16) * 16 + ((b mod 16) * 4 + c / 64) / 4 = b
  /\ (((b mod 16) * 4 + c / 64) mod 4) * 64 + c mod 64 = c.
Proof.
  intros Ha Hb Hc.
  pose proof (Nat.div_mod_eq a 4). pose proof (Nat.mod_upper_bound a 4).
  pose proof (Nat.div_mod_eq b 16). pose proof (Nat.mod_upper_bound b 16).
  pose proof (Nat.div_mod_eq c 64). pose proof (Nat.mod_upper_bound c 64).
  set (a1 := a / 4) in *. set (a0 := a mod 4) in *.
  set (b1 := b / 16) in *. set (b0 := b mod 16) in *.
  set (c1 := c / 64) in *. set (c0 := c mod 64) in *.
  assert (E1 : (a0 * 16 + b1) / 16 = a0) by (symmetry; apply (Nat.div_unique _ 16 a0 b1); lia).
  assert (E2 : (a0 * 16 + b1) mod 16 = b1) by (symmetry; apply (Nat.mod_unique _ 16 a0 b1); lia).
  assert (E3 : (b0 * 4 + c1) / 4 = b0) by (symmetry; apply (Nat.div_unique _ 4 b0 c1); lia).
  assert (E4 : (b0 * 4 + c1) mod 4 = c1) by (symmetry; apply (Nat.mod_unique _ 4 b0 c1); lia).
  rewrite E1, E2, E3, E4. repeat split; lia.
Qed.

Lemma decode_btoa_codes (n : nat) (l : list nat) :
  List.length l <= n ->
  Forall (fun x => x < 256) l ->
  decode (list_ascii_of_string (btoa_codes l)) = l.
Proof.
  revert l. induction n as [| n IH]; intros l Hlen Hall.
  - destruct l; [reflexivity | simpl in Hlen; lia].
  - destruct l as [| a [| b [| c r]]]; [reflexivity | | |].
    + inversion Hall as [| ? ? Ha _]; subst.
      destruct (group_arith a 0 0 Ha) as (H1 & H2 & _ & _ & E1 & _); try lia.
      cbn [btoa_codes list_ascii_of_string decode].
      replace (a mod 4 * 16) with (a mod 4 * 16 + 0 / 16) by (cbn; lia).
      destruct (b64_digit_value _ H1) as [V1 _].
      destruct (b64_digit_value _ H2) as [V2 _].
      rewrite V1, V2. cbn [is_pad]. 
      change (Ascii.eqb "=" "=") with true. cbn iota. now rewrite E1.
    + inversion Hall as [| ? ? Ha Hall']; subst.
      inversion Hall' as [| ? ? Hb _]; subst.
      destruct (group_arith a b 0 Ha Hb) as (H1 & H2 & H3 & _ & E1 & E2 & _); try lia.
      cbn [btoa_codes list_ascii_of_string decode].
      replace (b mod 16 * 4) with (b mod 16 * 4 + 0 / 64) by (cbn; lia).
      destruct (b64_digit_value _ H1) as [V1 _].
      destruct (b64_digit_value _ H2) as [V2 _].
      destruct (b64_digit_value _ H3) as [V3 P3].
      rewrite V1, V2, V3, P3. unfold is_pad at 1.
      change (Ascii.eqb "=" "=") with true. cbn iota. now rewrite E1, E2.
    + inversion Hall as [| ? ? Ha Hall1]; subst.
      inversion Hall1 as [| ? ? Hb Hall2]; subst.
      inversion Hall2 as [| ? ? Hc Hall3]; subst.
      destruct (group_arith a b c Ha Hb Hc) as (H1 & H2 & H3 & H4 & E1 & E2 & E3).
      cbn [btoa_codes list_ascii_of_string decode].
      destruct (b64_digit_value _ H1) as [V1 _].
      destruct (b64_digit_value _ H2) as [V2 _].
      destruct (b64_digit_value _ H3) as [V3 P3].
      destruct (b64_digit_value _ H4) as [V4 P4].
      rewrite V1, V2, V3, V4, P3, P4, E1, E2, E3.
      rewrite IH; [reflexivity | simpl in Hlen; lia | assumption].
Qed.

Lemma btoa_injective (s1 s2 : string) : btoa s1 = btoa s2 -> s1 = s2.
Proof.
  intros H. unfold btoa in H.
  assert (Hb : forall s, Forall (fun x => x < 256) (map nat_of_ascii (list_ascii_of_string s))).
  { intros s. apply Forall_forall. intros x Hin.
    apply in_map_iff in Hin as (c & <- & _). apply nat_ascii_bounded. }
  apply (f_equal list_ascii_of_string) in H. apply (f_equal decode) in H.
  rewrite !(decode_btoa_codes _ _ (le_n _) (Hb _)) in H.
  assert (Hl : list_ascii_of_string s1 = list_ascii_of_string s2).
  { revert H. generalize (list_ascii_of_string s1) (list_ascii_of_string s2).
    induction l as [| x l IH]; intros [| y l']; simpl; intros E; try discriminate; auto.
    inversion E as [[Hx Hr]].
    apply (f_equal ascii_of_nat) in Hx. rewrite !ascii_nat_embedding in Hx.
    subst. f_equal. auto. }
  apply (f_equal string_of_list_ascii) in Hl.
  now rewrite !string_of_list_ascii_of_string in Hl.
Qed.

End Base64Facts.

Section FingerprintFacts.
Import JsString.

Lemma b64_digit_not_underscore (n : nat) : b64_digit n <> "_"%char.
Proof.
  destruct (Nat.lt_ge_cases n 64) as [H | H].
  - do 64 (destruct n as [| n]; [vm_compute; discriminate|]). lia.
  - unfold b64_digit. rewrite nth_overflow by exact H. discriminate.
Qed.

Lemma btoa_codes_no_underscore (n : nat) (l : list nat) :
  List.length l <= n ->
  Forall (fun c => c <> "_"%char) (list_ascii_of_string (btoa_codes l)).
Proof.
  revert l. induction n as [| n IH]; intros l Hlen.
  - destruct l; [constructor | simpl in Hlen; lia].
  - destruct l as [| a [| b [| c r]]]; cbn [btoa_codes list_ascii_of_string].
    + constructor.
    + repeat constructor; try apply b64_digit_not_underscore; discriminate.
    + repeat constructor; try apply b64_digit_not_underscore; discriminate.
    + repeat (constructor; [apply b64_digit_not_underscore|]).
      apply IH. simpl in Hlen. lia.
Qed.

Lemma btoa_no_underscore (s : string) :
  Forall (fun c => c <> "_"%char) (list_ascii_of_string (btoa s)).
Proof. unfold btoa. eapply btoa_codes_no_underscore. apply le_n. Qed.

(** Two texts without underscore joined by one are read back uniquely. *)
Lemma underscore_split (a a' b b' : string) :
  Forall (fun c => c <> "_"%char) (list_ascii_of_string a) ->
  Forall (fun c => c <> "_"%char) (list_ascii_of_string a') ->
  (a ++ "_" ++ b = a' ++ "_" ++ b')%string ->
  a = a' /\ b = b'.
Proof.
  revert a'. induction a as [| c a IH]; intros [| c' a'] Ha Ha' E; cbn in *.
  - inversion E. auto.
  - inversion E; subst. inversion Ha' as [| ? ? Hc _]. congruence.
  - inversion E; subst. inversion Ha as [| ? ? Hc _]. congruence.
  - inversion E; subst. inversion Ha; inversion Ha'; subst.
    destruct (IH a') as [-> ->]; auto.
Qed.

End FingerprintFacts.

(** X1.  Two inputs have the same cache key exactly when their clauses
    agree on the first 100 characters and their serialized analyses on
    the first 50: the key loses nothing else, and nothing less. *)
Theorem fingerprint_equal_iff_prefixes_equal :
  forall (c1 c2 : string) (d1 d2 : AnalysisResponse),
    SemanticSearch.generateCacheKey c1 (Some d1) = SemanticSearch.generateCacheKey c2 (Some d2)
    <-> (JsString.slice0 100 c1 = JsString.slice0 100 c2
         /\ JsString.slice0 50 (SemanticSearch.JSON_stringify d1)
            = JsString.slice0 50 (SemanticSearch.JSON_stringify d2)).
Proof.
  intros c1 c2 d1 d2. unfold SemanticSearch.generateCacheKey. split.
  - intros E.
    apply underscore_split in E as [E1 E2]; try apply btoa_no_underscore.
    split; now apply btoa_injective.
  - intros [-> ->]. reflexivity.
Qed.

Section StringFacts.
Import JsString.
Local Open Scope string_scope.

Lemma string_app_assoc (a b c : string) : (a ++ b) ++ c = a ++ (b ++ c).
Proof. induction a as [| x a IH]; cbn; [reflexivity | now rewrite IH]. Qed.

Lemma string_length_app (a b : string) :
  String.length (a ++ b) = String.length a + String.length b.
Proof. induction a as [| x a IH]; cbn; [reflexivity | now rewrite IH]. Qed.

Lemma slice0_app_le (n : nat) (a b : string) :
  n <= String.length a -> slice0 n (a ++ b) = slice0 n a.
Proof.
  revert a. induction n as [| n IH]; intros [| x a] H; cbn in *; try reflexivity; try lia.
  rewrite IH by lia. reflexivity.
Qed.

Lemma quote_char_length (c : ascii) : 1 <= String.length (quote_char c).
Proof.
  unfold quote_char.
  repeat match goal with |- context [if ?b then _ else _] => destruct b end; cbn; lia.
Qed.

Lemma quote_body_length (s : string) : String.length s <= String.length (quote_body s).
Proof.
  induction s as [| c s IH]; cbn; [lia|].
  rewrite string_length_app. pose proof (quote_char_length c). lia.
Qed.

(** The serialized analysis starts with the name of its first field and
    the quoted explanation. *)
Lemma JSON_stringify_prefix (d : AnalysisResponse) :
  exists rest,
    SemanticSearch.JSON_stringify d
    = "{" ++ quote "simplifiedExplanation" ++ ":" ++ dq
          ++ quote_body (simplifiedExplanation d) ++ rest.
Proof.
  eexists. unfold SemanticSearch.JSON_stringify.
  unfold quote at 2. rewrite !string_app_assoc. reflexivity.
Qed.

Lemma JSON_stringify_slice (d : AnalysisResponse) :
  24 <= String.length (simplifiedExplanation d) ->
  slice0 50 (SemanticSearch.JSON_stringify d)
  = "{" ++ quote "simplifiedExplanation" ++ ":" ++ dq
        ++ slice0 24 (quote_body (simplifiedExplanation d)).
Proof.
  intros H. destruct (JSON_stringify_prefix d) as [rest ->].
  change (slice0 50 ("{" ++ quote "simplifiedExplanation" ++ ":" ++ dq
                       ++ quote_body (simplifiedExplanation d) ++ rest))
    with ("{" ++ quote "simplifiedExplanation" ++ ":" ++ dq
            ++ slice0 24 (quote_body (simplifiedExplanation d) ++ rest)).
  rewrite slice0_app_le; [reflexivity|].
  pose proof (quote_body_length (simplifiedExplanation d)). lia.
Qed.

End StringFacts.

(** X2.  The cache key reads no more of the analysis than the first 24
    characters of its explanation: two analyses of a clause with the
    same explanation of at least 24 characters have the same key,
    whatever their risky terms and legal references.  After a call that
    returned an entry, a call with such a changed analysis returns that
    same entry, built from the former analysis, and embeds nothing. *)
Theorem fingerprint_ignores_terms_and_references :
  forall (P : Platform) (c : string) (d1 d2 : AnalysisResponse),
    simplifiedExplanation d1 = simplifiedExplanation d2 ->
    24 <= String.length (simplifiedExplanation d1) ->
    SemanticSearch.generateCacheKey c (Some d1) = SemanticSearch.generateCacheKey c (Some d2)
    /\ (forall (w w1 : World) (k1 k2 : string) (r1 : VectorStoreData),
           cache_wf w ->
           SemanticSearch.createClauseVectorStore P c d1 k1 w = (Ok r1, w1) ->
           SemanticSearch.createClauseVectorStore P c d2 k2 w1 = (Ok r1, w1)).
Proof.
  intros P c d1 d2 He Hlen.
  assert (Hkey : SemanticSearch.generateCacheKey c (Some d1)
                 = SemanticSearch.generateCacheKey c (Some d2)).
  { unfold SemanticSearch.generateCacheKey.
    rewrite (JSON_stringify_slice d1 Hlen).
    rewrite (JSON_stringify_slice d2) by (rewrite <- He; exact Hlen).
    now rewrite He. }
  split; [exact Hkey|].
  intros w w1 k1 k2 r1 Hwf Hcall.
  apply create_hit. rewrite <- Hkey.
  exact (create_ok_cached P c d1 k1 w w1 r1 Hwf Hcall).
Qed.

Lemma fingerprint_ignores_terms_witness :
  (simplifiedExplanation Sample.facets = simplifiedExplanation Sample2.facets_b
   /\ 24 <= String.length (simplifiedExplanation Sample.facets))
  /\ SemanticSearch.generateCacheKey Sample.clause (Some Sample.facets)
     = SemanticSearch.generateCacheKey Sample.clause (Some Sample2.facets_b).
Proof.
  assert (H1 : simplifiedExplanation Sample.facets = simplifiedExplanation Sample2.facets_b)
    by reflexivity.
  assert (H2 : 24 <= String.length (simplifiedExplanation Sample.facets))
    by (apply Nat.leb_le; reflexivity).
  split; [split; assumption|].
  exact (proj1 (fingerprint_ignores_terms_and_references Sample.platform Sample.clause
                  Sample.facets Sample2.facets_b H1 H2)).
Defined.

(** ** The chunks of a clause and its analysis *)

Section MapiFacts.
Context {A B : Type}.
Import SemanticSearch.

Lemma map_mapi_from {C : Type} (g : B -> C) (f : A -> nat -> B) (i : nat) (l : list A) :
  map g (mapi_from i f l) = mapi_from i (fun x n => g (f x n)) l.
Proof. revert i. induction l as [| x l IH]; intros i; cbn; [reflexivity | now rewrite IH]. Qed.

Lemma mapi_from_ignore (h : A -> B) (i : nat) (l : list A) :
  mapi_from i (fun x _ => h x) l = map h l.
Proof. revert i. induction l as [| x l IH]; intros i; cbn; [reflexivity | now rewrite IH]. Qed.

Lemma mapi_from_index (h : nat -> B) (i : nat) (l : list A) :
  mapi_from i (fun _ n => h n) l = map h (seq i (List.length l)).
Proof. revert i. induction l as [| x l IH]; intros i; cbn; [reflexivity | now rewrite IH]. Qed.

Lemma map_const_repeat (b : B) (l : list A) :
  map (fun _ => b) l = repeat b (List.length l).
Proof. induction l as [| x l IH]; cbn; [reflexivity | now rewrite IH]. Qed.

Lemma length_mapi_from (f : A -> nat -> B) (i : nat) (l : list A) :
  List.length (mapi_from i f l) = List.length l.
Proof. revert i. induction l as [| x l IH]; intros i; cbn; [reflexivity | now rewrite IH]. Qed.

End MapiFacts.

(** X3.  A store newly built by [createClauseVectorStore] holds, in this
    order, the pieces of the clause, the pieces of the explanation (none
    when it is empty), one chunk per risky term and one per legal
    reference, each numbered from 0 within its kind and labelled with its
    source; the url of a reference is not part of its text.  No chunk
    carries a score, the documents mirror the chunks, and the embedding
    provider is sent exactly the chunk texts, once, with the given key. *)
Theorem built_store_chunks :
  forall (P : Platform) (c : string) (d : AnalysisResponse) (k : string) (w w' : World)
         (r : VectorStoreData),
    SemanticSearch.map_get (SemanticSearch.generateCacheKey c (Some d)) (vectorStoreCache w)
    = None ->
    SemanticSearch.createClauseVectorStore P c d k w = (Ok r, w') ->
    let pieces := splitText P c in
    let explained :=
      if JsString.isEmpty (simplifiedExplanation d) then []
      else splitText P (simplifiedExplanation d) in
    map content (chunks r)
    = pieces ++ explained
        ++ map (fun t => ("Risky Term: " ++ JsString.dq ++ term t ++ JsString.dq ++ " ("
                            ++ severity t ++ " severity) - " ++ explanation t)%string)
             (riskyTerms d)
        ++ map (fun a => ("Legal Article: " ++ JsString.dq ++ title a ++ JsString.dq ++ " - "
                            ++ relevance a)%string)
             (governmentArticles d)
    /\ map (fun x => type (metadata x)) (chunks r)
       = repeat original (List.length pieces)
           ++ repeat simplified (List.length explained)
           ++ repeat risky_terms (List.length (riskyTerms d))
           ++ repeat government_articles (List.length (governmentArticles d))
    /\ map (fun x => chunkIndex (metadata x)) (chunks r)
       = seq 0 (List.length pieces) ++ seq 0 (List.length explained)
           ++ seq 0 (List.length (riskyTerms d))
           ++ seq 0 (List.length (governmentArticles d))
    /\ map (fun x => source (metadata x)) (chunks r)
       = repeat "original_clause" (List.length pieces)
           ++ repeat "simplified_explanation" (List.length explained)
           ++ map (fun t => ("risky_term_" ++ term t)%string) (riskyTerms d)
           ++ map (fun i => ("gov_article_" ++ JsString.of_nat i)%string)
                (seq 0 (List.length (governmentArticles d)))
    /\ Forall (fun x => relevanceScore (metadata x) = None) (chunks r)
    /\ map pageContent (vs_documents (vectorStore r)) = map content (chunks r)
    /\ map doc_metadata (vs_documents (vectorStore r)) = map metadata (chunks r)
    /\ embeddings r = mkEmbeddings k "embedding-001"
    /\ events_added w w' [EvNewEmbeddings k; EvEmbedDocuments k (map content (chunks r))].
Proof.
  intros P c d k w w' r Hnone Hcall pieces explained.
  destruct (create_cases P c d k w) as [(cached & Hget & E) | [(Hget & E) | (Hget & added & E)]];
    rewrite E in Hcall; inversion Hcall; subst; clear Hcall; [congruence|].
  unfold built_entry. cbn [chunks vectorStore vs_documents embeddings].
  unfold SemanticSearch.build_chunks, SemanticSearch.original_chunks,
    SemanticSearch.simplified_chunks, SemanticSearch.risky_term_chunks,
    SemanticSearch.article_chunks, SemanticSearch.mapi.
  fold pieces.
  assert (Hexp : forall (B : Type) (g : ClauseChunk -> B),
             map g (if JsString.isEmpty (simplifiedExplanation d) then []
                    else SemanticSearch.mapi_from 0
                           (fun chunk index =>
                              mkChunk chunk
                                (mkMetadata index "simplified_explanation" simplified None))
                           (splitText P (simplifiedExplanation d)))
             = SemanticSearch.mapi_from 0
                 (fun chunk index =>
                    g (mkChunk chunk
                         (mkMetadata index "simplified_explanation" simplified None)))
                 explained).
  { intros B g. unfold explained. destruct (JsString.isEmpty _); [reflexivity|].
    apply map_mapi_from. }
  repeat split.
  - rewrite !map_app, Hexp, !map_mapi_from. cbn [content].
    now rewrite !(mapi_from_ignore (fun x => x)), !mapi_from_ignore, !map_id.
  - rewrite !map_app, Hexp, !map_mapi_from. cbn [metadata type].
    now rewrite !mapi_from_ignore, !map_const_repeat.
  - rewrite !map_app, Hexp, !map_mapi_from. cbn [metadata chunkIndex].
    now rewrite !(mapi_from_index (fun n => n)), !map_id.
  - rewrite !map_app, Hexp, !map_mapi_from. cbn [metadata source].
    rewrite (mapi_from_index (fun i => ("gov_article_" ++ JsString.of_nat i)%string)).
    now rewrite !mapi_from_ignore, !map_const_repeat.
  - rewrite !Forall_app. repeat split; try (destruct (JsString.isEmpty _); [constructor|]);
      apply Forall_forall; intros x Hin;
      apply (in_map (fun x => relevanceScore (metadata x))) in Hin;
      rewrite map_mapi_from in Hin; cbn [metadata relevanceScore] in Hin;
      rewrite mapi_from_ignore in Hin; apply in_map_iff in Hin as (? & <- & _); reflexivity.
  - rewrite map_map. reflexivity.
  - rewrite map_map. reflexivity.
  - unfold events_added, world_after_build, build_events. cbn [events].
    rewrite map_map. reflexivity.
Qed.

Lemma built_store_chunks_witness :
  (SemanticSearch.map_get (SemanticSearch.generateCacheKey Sample.clause (Some Sample.facets))
     (vectorStoreCache Sample.world) = None
   /\ SemanticSearch.createClauseVectorStore Sample.platform Sample.clause Sample.facets
        "key-123" Sample.world
      = (Ok (Sample.storeData "key-123"),
         world_after_build Sample.platform Sample.clause Sample.facets "key-123" Sample.world))
  /\ map (fun x => type (metadata x)) (chunks (Sample.storeData "key-123"))
     = [original; simplified; risky_terms; government_articles].
Proof.
  assert (H1 : SemanticSearch.map_get
                 (SemanticSearch.generateCacheKey Sample.clause (Some Sample.facets))
                 (vectorStoreCache Sample.world) = None) by reflexivity.
  assert (H2 : SemanticSearch.createClauseVectorStore Sample.platform Sample.clause
                 Sample.facets "key-123" Sample.world
               = (Ok (Sample.storeData "key-123"),
                  world_after_build Sample.platform Sample.clause Sample.facets "key-123"
                    Sample.world)) by (vm_compute; reflexivity).
  split; [split; assumption|].
  exact (proj1 (proj2 (built_store_chunks Sample.platform Sample.clause Sample.facets
                         "key-123" Sample.world _ _ H1 H2))).
Defined.

(** ** More on the cache *)

(** X4.  When the build of a store throws, be it that the embeddings
    constructor rejects the key or that [fromDocuments] throws,
    [createClauseVectorStore] throws its own error whatever the error
    was, and caches nothing: cache and object counter are as before.
    When it is the constructor that rejects the key, nothing is sent to
    be embedded.  A later call whose constructor and embedding succeed
    builds the entry and caches it. *)
Theorem failed_build_caches_nothing :
  forall (P : Platform) (c : string) (d : AnalysisResponse) (k : string) (w : World)
         (e : JsError),
    SemanticSearch.map_get (SemanticSearch.generateCacheKey c (Some d)) (vectorStoreCache w)
    = None ->
    new_embeddings P k = Throw e
    \/ (new_embeddings P k = Ok tt
        /\ embed_documents P k
             (map pageContent
                (map SemanticSearch.document_of (SemanticSearch.build_chunks P c d)))
           = Throw e) ->
    exists w',
      SemanticSearch.createClauseVectorStore P c d k w
      = (Throw (Error "Failed to create vector store for semantic search"), w')
      /\ vectorStoreCache w' = vectorStoreCache w
      /\ next_ref w' = next_ref w
      /\ (new_embeddings P k = Throw e -> events_added w w' [EvNewEmbeddings k])
      /\ (forall k2,
             new_embeddings P k2 = Ok tt ->
             embed_documents P k2
               (map pageContent
                  (map SemanticSearch.document_of (SemanticSearch.build_chunks P c d)))
             = Ok tt ->
             exists r w2,
               SemanticSearch.createClauseVectorStore P c d k2 w' = (Ok r, w2)
               /\ emb_apiKey (embeddings r) = k2
               /\ SemanticSearch.map_get (SemanticSearch.generateCacheKey c (Some d))
                    (vectorStoreCache w2) = Some r).
Proof.
  intros P c d k w e Hnone Hfail.
  assert (Hrun : exists added,
             SemanticSearch.createClauseVectorStore P c d k w
             = (Throw (Error "Failed to create vector store for semantic search"),
                set_events (events w ++ added) w)
             /\ (new_embeddings P k = Throw e -> added = [EvNewEmbeddings k])).
  { destruct Hfail as [Hnew | [Hnew Hembed]].
    - eexists. split; [exact (create_miss_rejected P c d k w e Hnone Hnew) | reflexivity].
    - eexists. split; [exact (create_miss_fail P c d k w e Hnone Hnew Hembed)|].
      rewrite Hnew. discriminate. }
  destruct Hrun as (added & Hrun & Hadded).
  eexists. split; [exact Hrun|].
  split; [reflexivity|]. split; [reflexivity|].
  split; [intros Hnew; unfold events_added; now rewrite (Hadded Hnew)|].
  intros k2 Hnew2 Hok.
  pose proof (create_miss_ok P c d k2 (set_events (events w ++ added) w)
                Hnone Hnew2 Hok) as Hbuilt.
  eexists; eexists. split; [exact Hbuilt|]. split; [reflexivity|].
  unfold world_after_build. cbn [vectorStoreCache set_events].
  unfold limit_size.
  destruct (10 <? _) eqn:Hfull.
  - pose proof (map_delete_first
                  (SemanticSearch.map_set (SemanticSearch.generateCacheKey c (Some d))
                     (built_entry P c d k2 (set_events (events w ++ added) w))
                     (vectorStoreCache w))) as Hd.
    rewrite (map_set_absent _ _ _ Hnone) in *.
    destruct (vectorStoreCache w) as [| [k0 e0] rest] eqn:Hc.
    + cbn in Hfull. discriminate.
    + cbn [SemanticSearch.first_key app] in *. rewrite Hd. cbn [tl app].
      apply map_get_app_last. apply map_get_notin. intros Hin.
      apply (map_get_None _ _ Hnone). cbn. now right.
  - rewrite (map_set_absent _ _ _ Hnone). now apply map_get_app_last.
Qed.

Lemma failed_build_witness :
  (SemanticSearch.map_get (SemanticSearch.generateCacheKey Sample.clause (Some Sample.facets))
     (vectorStoreCache Sample.world) = None
   /\ new_embeddings Sample.platform EmptyString
      = Throw (Error "Please set an API key for Google GenerativeAI"))
  /\ exists w',
      SemanticSearch.createClauseVectorStore Sample.platform Sample.clause Sample.facets
        EmptyString Sample.world
      = (Throw (Error "Failed to create vector store for semantic search"), w')
      /\ vectorStoreCache w' = vectorStoreCache Sample.world
      /\ events_added Sample.world w' [EvNewEmbeddings EmptyString].
Proof.
  split; [split; reflexivity|].
  destruct (failed_build_caches_nothing Sample.platform Sample.clause Sample.facets
              EmptyString Sample.world
              (Error "Please set an API key for Google GenerativeAI")
              eq_refl (or_introl eq_refl))
    as (w' & H1 & H2 & _ & H4 & _).
  exists w'. split; [exact H1|]. split; [exact H2 | exact (H4 eq_refl)].
Defined.

(** X5.  Eviction follows insertion, not use.  In a full cache, asking
    for the oldest entry returns it and leaves the cache as it is, and
    the next newly built entry still evicts it. *)
Theorem eviction_ignores_use :
  forall (P : Platform) (w : World) (k0 : string) (e0 : VectorStoreData)
         (rest : list (string * VectorStoreData)),
    cache_wf w ->
    vectorStoreCache w = (k0, e0) :: rest ->
    List.length rest = 9 ->
    (forall c0 d0 k,
        SemanticSearch.generateCacheKey c0 (Some d0) = k0 ->
        SemanticSearch.createClauseVectorStore P c0 d0 k w = (Ok e0, w))
    /\ (forall c d k r w',
           SemanticSearch.map_get (SemanticSearch.generateCacheKey c (Some d))
             (vectorStoreCache w) = None ->
           SemanticSearch.createClauseVectorStore P c d k w = (Ok r, w') ->
           vectorStoreCache w' = rest ++ [(SemanticSearch.generateCacheKey c (Some d), r)]
           /\ SemanticSearch.map_get k0 (vectorStoreCache w') = None).
Proof.
  intros P w k0 e0 rest Hwf Hcache Hlen. split.
  - intros c0 d0 k Hk. apply create_hit. rewrite Hk, Hcache. cbn.
    now rewrite String.eqb_refl.
  - intros c d k r w' Hnone Hcall.
    destruct (create_cases P c d k w) as [(cached & Hget & E) | [(Hget & E) | (Hget & added & E)]];
      rewrite E in Hcall; inversion Hcall; subst; clear Hcall; [congruence|].
    unfold world_after_build. cbn [vectorStoreCache].
    destruct Hwf as (Hkeys & Hsize & _).
    rewrite (limit_size_insert _ _ _ Hnone Hsize), Hcache.
    cbn [List.length]. rewrite Hlen. cbn [Nat.eqb tl].
    split; [reflexivity|].
    assert (Hk : k0 <> SemanticSearch.generateCacheKey c (Some d)).
    { intros Heq. rewrite Hcache in Hnone. cbn in Hnone.
      rewrite Heq, String.eqb_refl in Hnone. discriminate. }
    rewrite Hcache in Hkeys. cbn in Hkeys.
    apply NoDup_cons_iff in Hkeys. destruct Hkeys as [Hnotin _].
    rewrite map_get_app_other by exact Hk.
    now apply map_get_notin.
Qed.

Lemma eviction_ignores_use_witness :
  (cache_wf Sample2.full_world
   /\ vectorStoreCache Sample2.full_world
      = hd (EmptyString, Sample.storeData EmptyString) (vectorStoreCache Sample2.full_world)
          :: tl (vectorStoreCache Sample2.full_world)
   /\ List.length (tl (vectorStoreCache Sample2.full_world)) = 9)
  /\ SemanticSearch.createClauseVectorStore Sample.platform "clause 1" Sample.facets "key-123"
       Sample2.full_world
     = (Ok (snd (hd (EmptyString, Sample.storeData EmptyString)
                   (vectorStoreCache Sample2.full_world))),
        Sample2.full_world).
Proof.
  assert (Hwf : cache_wf Sample2.full_world)
    by (apply cache_wf_after_calls, cache_wf_empty; reflexivity).
  assert (Hc : vectorStoreCache Sample2.full_world
               = (fst (hd (EmptyString, Sample.storeData EmptyString)
                         (vectorStoreCache Sample2.full_world)),
                  snd (hd (EmptyString, Sample.storeData EmptyString)
                         (vectorStoreCache Sample2.full_world)))
                   :: tl (vectorStoreCache Sample2.full_world))
    by (vm_compute; reflexivity).
  assert (Hl : List.length (tl (vectorStoreCache Sample2.full_world)) = 9)
    by (vm_compute; reflexivity).
  split; [split; [exact Hwf | split; [vm_compute; reflexivity | exact Hl]]|].
  exact (proj1 (eviction_ignores_use Sample.platform Sample2.full_world _ _ _ Hwf Hc Hl)
           "clause 1" Sample.facets "key-123" ltac:(vm_compute; reflexivity)).
Defined.

(** X6.  Clearing the cache forgets every entry without touching the
    object counter: the statistics then report an empty cache, and the
    next call for a clause indexed before cannot be served from the
    cache; when it succeeds it has embedded the chunks again and returns
    a store object distinct from the one returned before. *)
Theorem clear_forces_rebuild :
  forall (P : Platform) (c : string) (d : AnalysisResponse) (k : string) (w w1 : World)
         (r1 : VectorStoreData),
    cache_wf w ->
    SemanticSearch.createClauseVectorStore P c d k w = (Ok r1, w1) ->
    exists w2,
      SemanticSearch.clearVectorStoreCache w1 = (Ok tt, w2)
      /\ SemanticSearch.getVectorStoreCacheStats w2 = (Ok (0, []), w2)
      /\ events w2 = events w1
      /\ forall k2 r2 w3,
          SemanticSearch.createClauseVectorStore P c d k2 w2 = (Ok r2, w3) ->
          ref r2 <> ref r1
          /\ chunks r2 = SemanticSearch.build_chunks P c d
          /\ events_added w2 w3 (build_events P c d k2)
          /\ vectorStoreCache w3 = [(SemanticSearch.generateCacheKey c (Some d), r2)].
Proof.
  intros P c d k w w1 r1 Hwf Hcall.
  exists (set_vectorStoreCache [] w1).
  split; [reflexivity|]. split; [reflexivity|]. split; [destruct w1; reflexivity|].
  intros k2 r2 w3 Hcall2.
  assert (Hwf1 : cache_wf w1) by exact (create_preserves_wf P c d k w w1 _ Hwf Hcall).
  pose proof (create_ok_cached P c d k w w1 r1 Hwf Hcall) as Hin.
  apply map_get_In in Hin.
  destruct Hwf1 as (_ & _ & _ & Hrefs).
  rewrite Forall_forall in Hrefs. specialize (Hrefs _ Hin). cbn in Hrefs.
  destruct (create_cases P c d k2 (set_vectorStoreCache [] w1))
    as [(cached & Hget & E) | [(Hget & E) | (Hget & added & E)]];
    rewrite E in Hcall2; inversion Hcall2; subst; clear Hcall2.
  - destruct w1; discriminate.
  - split; [destruct w1; cbn in *; lia|].
    split; [reflexivity|].
    split; [destruct w1; reflexivity|].
    destruct w1; reflexivity.
Qed.

Lemma clear_forces_rebuild_witness :
  cache_wf Sample.world
  /\ exists r1 w1,
      SemanticSearch.createClauseVectorStore Sample.platform Sample.clause Sample.facets
        "key-123" Sample.world = (Ok r1, w1)
      /\ exists w2,
          SemanticSearch.clearVectorStoreCache w1 = (Ok tt, w2)
          /\ SemanticSearch.getVectorStoreCacheStats w2 = (Ok (0, []), w2).
Proof.
  assert (Hwf : cache_wf Sample.world) by (apply cache_wf_empty; reflexivity).
  split; [exact Hwf|].
  eexists; eexists. split; [vm_compute; reflexivity|].
  destruct (clear_forces_rebuild Sample.platform Sample.clause Sample.facets "key-123"
              Sample.world _ _ Hwf ltac:(vm_compute; reflexivity))
    as (w2 & H1 & H2 & _).
  exists w2. split; assumption.
Defined.

(** X7.  The statistics are a read-only view of the cache: after a
    successful call in a session whose cache held at most ten distinct
    keys, they report at most ten keys, all distinct, as many as the
    reported size, the key of the call among them, and asking for them
    changes nothing. *)
Theorem stats_after_successful_call :
  forall (P : Platform) (c : string) (d : AnalysisResponse) (k : string) (w w1 : World)
         (r1 : VectorStoreData),
    cache_wf w ->
    SemanticSearch.createClauseVectorStore P c d k w = (Ok r1, w1) ->
    exists size keys,
      SemanticSearch.getVectorStoreCacheStats w1 = (Ok (size, keys), w1)
      /\ size = List.length keys
      /\ 1 <= size <= 10
      /\ NoDup keys
      /\ In (SemanticSearch.generateCacheKey c (Some d)) keys.
Proof.
  intros P c d k w w1 r1 Hwf Hcall.
  exists (List.length (vectorStoreCache w1)), (map fst (vectorStoreCache w1)).
  pose proof (create_preserves_wf P c d k w w1 _ Hwf Hcall) as (Hkeys & Hsize & _).
  pose proof (create_ok_cached P c d k w w1 r1 Hwf Hcall) as Hin.
  apply map_get_In in Hin.
  split; [reflexivity|]. split; [now rewrite length_map|].
  split.
  - split; [|exact Hsize]. destruct (vectorStoreCache w1); [destruct Hin | cbn; lia].
  - split; [exact Hkeys|]. now apply (in_map fst) in Hin.
Qed.

Lemma stats_after_successful_call_witness :
  cache_wf Sample2.full_world
  /\ exists r1 w1,
      SemanticSearch.createClauseVectorStore Sample.platform "clause 11" Sample.facets
        "key-123" Sample2.full_world = (Ok r1, w1)
      /\ exists size keys,
          SemanticSearch.getVectorStoreCacheStats w1 = (Ok (size, keys), w1)
          /\ size = List.length keys /\ 1 <= size <= 10.
Proof.
  assert (Hwf : cache_wf Sample2.full_world)
    by (apply cache_wf_after_calls, cache_wf_empty; reflexivity).
  split; [exact Hwf|].
  eexists; eexists. split; [vm_compute; reflexivity|].
  destruct (stats_after_successful_call Sample.platform "clause 11" Sample.facets "key-123"
              Sample2.full_world _ _ Hwf ltac:(vm_compute; reflexivity))
    as (size & keys & H1 & H2 & H3 & _).
  exists size, keys. repeat split; try assumption; apply H3.
Defined.

(** ** More on retrieval *)

(** X8.  Retrieval over a store whose documents mirror its chunks, as
    [createClauseVectorStore] builds it, never invents a chunk: when the
    index answers with documents of the store, each returned chunk is a
    stored chunk with its index, source and type, only the score added,
    and the contents are those of the kept hits in order. *)
Theorem retrieved_chunks_are_stored_chunks :
  forall (P : Platform) (question : string) (vsd : VectorStoreData)
         (options : SemanticSearch.Options) (hits : list (Document * Q)) (w : World),
    vs_documents (vectorStore vsd) = map SemanticSearch.document_of (chunks vsd) ->
    similarity_search P (vectorStore vsd) question
      (2 * SemanticSearch.maxResults_of options) = Ok hits ->
    Forall (fun hit => In (fst hit) (vs_documents (vectorStore vsd))) hits ->
    exists result w',
      SemanticSearch.retrieveRelevantContext P question vsd options w = (Ok result, w')
      /\ map content (SemanticSearch.relevantChunks result)
         = map (fun hit => pageContent (fst hit)) (kept_hits options hits)
      /\ Forall (fun c =>
                   exists stored,
                     In stored (chunks vsd)
                     /\ content c = content stored
                     /\ chunkIndex (metadata c) = chunkIndex (metadata stored)
                     /\ source (metadata c) = source (metadata stored)
                     /\ type (metadata c) = type (metadata stored))
           (SemanticSearch.relevantChunks result).
Proof.
  intros P question vsd options hits w Hdocs Hq Hfrom.
  rewrite Nat.mul_comm in Hq.
  eexists; eexists. split; [apply (retrieve_success P _ _ _ _ _ Hq)|].
  cbn [SemanticSearch.relevantChunks]. split.
  - rewrite map_map. apply map_ext. intros [doc s]. unfold SemanticSearch.scored_chunk.
    destruct (find _ (chunks vsd)) as [c|] eqn:Hf; [|reflexivity].
    apply find_some in Hf as [_ Heq]. now apply String.eqb_eq in Heq.
  - apply Forall_forall. intros c Hin.
    apply in_map_iff in Hin as [[doc s] [<- Hin]].
    unfold kept_hits in Hin. apply In_firstn in Hin. apply filter_In in Hin as [Hin _].
    rewrite Forall_forall in Hfrom. specialize (Hfrom _ Hin). cbn [fst] in Hfrom.
    rewrite Hdocs in Hfrom. apply in_map_iff in Hfrom as [c0 [Hc0 Hin0]].
    unfold SemanticSearch.scored_chunk.
    destruct (find _ (chunks vsd)) as [c1|] eqn:Hf.
    + apply find_some in Hf as [Hin1 _]. exists c1. cbn. auto.
    + exfalso. apply (find_none _ _ Hf) in Hin0.
      rewrite <- Hc0 in Hin0. unfold SemanticSearch.document_of in Hin0. cbn in Hin0.
      now rewrite String.eqb_refl in Hin0.
Qed.

Lemma retrieved_chunks_witness :
  (vs_documents (vectorStore (Sample.storeData "key-123"))
   = map SemanticSearch.document_of (chunks (Sample.storeData "key-123"))
   /\ similarity_search Sample.platform (vectorStore (Sample.storeData "key-123")) "Who pays?"
        (2 * SemanticSearch.maxResults_of Sample.options) = Ok Sample.hits
   /\ Forall (fun hit => In (fst hit) (vs_documents (vectorStore (Sample.storeData "key-123"))))
        Sample.hits)
  /\ exists result w',
      SemanticSearch.retrieveRelevantContext Sample.platform "Who pays?"
        (Sample.storeData "key-123") Sample.options Sample.world = (Ok result, w')
      /\ map content (SemanticSearch.relevantChunks result)
         = map (fun hit => pageContent (fst hit)) (kept_hits Sample.options Sample.hits).
Proof.
  assert (Hd : vs_documents (vectorStore (Sample.storeData "key-123"))
               = map SemanticSearch.document_of (chunks (Sample.storeData "key-123")))
    by reflexivity.
  assert (Hq : similarity_search Sample.platform (vectorStore (Sample.storeData "key-123"))
                 "Who pays?" (2 * SemanticSearch.maxResults_of Sample.options)
               = Ok Sample.hits) by (vm_compute; reflexivity).
  assert (Hfrom : Forall (fun hit => In (fst hit)
                                       (vs_documents (vectorStore (Sample.storeData "key-123"))))
                    Sample.hits).
  { vm_compute. repeat (apply Forall_cons; [auto 10|]). apply Forall_nil. }
  split; [repeat split; assumption|].
  destruct (retrieved_chunks_are_stored_chunks Sample.platform "Who pays?"
              (Sample.storeData "key-123") Sample.options Sample.hits Sample.world
              Hd Hq Hfrom) as (result & w' & Hrun & Hc & _).
  exists result, w'. split; assumption.
Defined.

(** ** The follow-up with semantic retrieval *)

Section EnhancedFollowup.
Variable P : Platform.
Import SemanticSearch.

Lemma retrieve_total (question : string) (vsd : VectorStoreData) (options : Options)
    (w : World) :
  exists result,
    retrieveRelevantContext P question vsd options w
    = (Ok result,
       set_events
         (events w ++ [EvSimilaritySearch (emb_apiKey (vs_embeddings (vectorStore vsd)))
                         question (maxResults_of options * 2)]) w)
    /\ List.length (relevantChunks result) <= maxResults_of options
    /\ totalChunks result = List.length (chunks vsd).
Proof.
  destruct (similarity_search P (vectorStore vsd) question (maxResults_of options * 2))
    as [hits | e] eqn:Hq.
  - eexists. split; [apply (retrieve_success P _ _ _ _ _ Hq)|].
    cbn [relevantChunks totalChunks averageRelevance].
    split; [rewrite length_map; apply firstn_le_length | reflexivity].
  - eexists. split; [apply (retrieve_failure P _ _ _ _ _ Hq)|].
    cbn [relevantChunks totalChunks averageRelevance].
    split; [apply firstn_le_length | reflexivity].
Qed.

Lemma enhanced_followup_build_fails (question originalClause : string)
    (analysisData : AnalysisResponse) (apiKey : string) (w w1 : World) (e : JsError) :
  createClauseVectorStore P originalClause analysisData apiKey w = (Throw e, w1) ->
  submitEnhancedFollowupQuestion P question originalClause analysisData apiKey w
  = (Throw (Error "Failed to process enhanced follow-up question"), w1).
Proof.
  intros H. unfold submitEnhancedFollowupQuestion. run. rewrite H. reflexivity.
Qed.

Lemma enhanced_followup_run (question originalClause : string)
    (analysisData : AnalysisResponse) (apiKey : string) (w w1 w2 : World)
    (vsd : VectorStoreData) (r : RetrievalResult) :
  createClauseVectorStore P originalClause analysisData apiKey w = (Ok vsd, w1) ->
  retrieveRelevantContext P question vsd (mkOptions (Some 3) (Some (6 # 10)) (Some true)) w1
  = (Ok r, w2) ->
  submitEnhancedFollowupQuestion P question originalClause analysisData apiKey w
  = (match llm_complete P apiKey (enhancedFollowupTemplate (contextSummary r) question) with
     | Ok answer_ =>
         Ok (mkEnhanced (JsString.trim answer_) (contextSummary r)
               (mkMetrics (List.length (relevantChunks r)) (totalChunks r)
                  (averageRelevance r)
                  (String.length originalClause
                   + String.length (JSON_stringify analysisData)
                   - String.length (contextSummary r))))
     | Throw _ => Throw (Error "Failed to process enhanced follow-up question")
     end,
     set_events
       (events w2 ++ [EvNewLLM apiKey;
                      EvModelCall apiKey
                        (enhancedFollowupTemplate (contextSummary r) question)]) w2).
Proof.
  intros Hc Hr. unfold submitEnhancedFollowupQuestion, LangchainApi.invoke,
    LangchainApi.createLLMInstance. run. rewrite Hc, Hr.
  destruct (llm_complete P apiKey _);
    (f_equal; destruct w2; cbn; rewrite <- ?app_assoc; reflexivity).
Qed.

End EnhancedFollowup.

(** X9.  [submitEnhancedFollowupQuestion] has two outcomes only.  It
    throws the one error 'Failed to process enhanced follow-up question',
    whatever failed underneath, or it returns a response that used at
    most 3 chunks and whose token saving is at most the size of the
    clause and analysis. *)
Theorem enhanced_followup_outcomes :
  forall (P : Platform) (question originalClause : string) (analysisData : AnalysisResponse)
         (apiKey : string) (w : World),
  exists w',
    SemanticSearch.submitEnhancedFollowupQuestion P question originalClause analysisData
      apiKey w
    = (Throw (Error "Failed to process enhanced follow-up question"), w')
    \/ exists r,
        SemanticSearch.submitEnhancedFollowupQuestion P question originalClause analysisData
          apiKey w = (Ok r, w')
        /\ SemanticSearch.chunksUsed (SemanticSearch.contextMetrics r) <= 3
        /\ SemanticSearch.tokensSaved (SemanticSearch.contextMetrics r)
           <= String.length originalClause
              + String.length (SemanticSearch.JSON_stringify analysisData).
Proof.
  intros P question originalClause analysisData apiKey w.
  destruct (SemanticSearch.createClauseVectorStore P originalClause analysisData apiKey w)
    as [[vsd | e] w1] eqn:Hc.
  - destruct (retrieve_total P question vsd
                (SemanticSearch.mkOptions (Some 3) (Some (6 # 10)) (Some true)) w1)
      as (r & Hr & Hlen & _).
    rewrite (enhanced_followup_run P _ _ _ _ _ _ _ _ _ Hc Hr).
    eexists. destruct (llm_complete P apiKey _) as [a | e].
    + right. eexists. split; [reflexivity|]. cbn.
      split; [exact Hlen | lia].
    + left. reflexivity.
  - exists w1. left. exact (enhanced_followup_build_fails P _ _ _ _ _ _ e Hc).
Qed.



(** ** The settings of the wrapper *)

Section Settings.
Variable P : Platform.
Import ApiWrapper.

Lemma set_apiConfig_same (w : World) : set_apiConfig (apiConfig w) w = w.
Proof. destruct w; reflexivity. Qed.

Lemma set_apiConfig_twice (c c' : APIConfig) (w : World) :
  set_apiConfig c (set_apiConfig c' w) = set_apiConfig c w.
Proof. reflexivity. Qed.

Lemma loadAPIConfig_unreadable (w : World) :
  match ls_api_config w with
  | None => True
  | Some stored =>
      JsString.isEmpty stored = true
      \/ (exists e, JSON_parse P stored = Throw e)
      \/ JSON_parse P stored = Ok JNull
  end ->
  loadAPIConfig P w = (Ok (apiConfig w), w).
Proof.
  unfold loadAPIConfig. run.
  destruct (ls_api_config w) as [stored|]; [|reflexivity].
  intros [-> | [[e ->] | ->]]; [reflexivity | |];
    destruct (JsString.isEmpty stored); reflexivity.
Qed.

Lemma loadAPIConfig_object (w : World) (stored : string) (fields : list (string * JSON)) :
  ls_api_config w = Some stored ->
  JsString.isEmpty stored = false ->
  JSON_parse P stored = Ok (JObj fields) ->
  loadAPIConfig P w
  = (let c := mkConfig
                (spread_field (JObj fields) "useLangChain" (useLangChain (apiConfig w)))
                (spread_field (JObj fields) "enableBatchProcessing"
                   (enableBatchProcessing (apiConfig w)))
                (spread_field (JObj fields) "enableAdvancedPrompts"
                   (enableAdvancedPrompts (apiConfig w)))
                (nullish_true (Js.lookup "enableSemanticSearch" fields)) in
     (Ok c, set_apiConfig c w)).
Proof.
  intros Hs He Hp. unfold loadAPIConfig. run. rewrite Hs, He, Hp. reflexivity.
Qed.

Lemma spread_field_twice (storedConfig : JSON) (key : string) (current : bool) :
  spread_field storedConfig key (spread_field storedConfig key current)
  = spread_field storedConfig key current.
Proof.
  unfold spread_field. destruct storedConfig; try reflexivity.
  destruct (Js.lookup key _); reflexivity.
Qed.

Lemma loadAPIConfig_again (w : World) :
  exists config,
    loadAPIConfig P w = (Ok config, set_apiConfig config w)
    /\ loadAPIConfig P (set_apiConfig config w) = (Ok config, set_apiConfig config w).
Proof.
  unfold loadAPIConfig. run.
  cbn [ls_api_config set_apiConfig apiConfig].
  destruct (ls_api_config w) as [stored|];
    [|exists (apiConfig w); rewrite set_apiConfig_same; split; reflexivity].
  destruct (JsString.isEmpty stored);
    [exists (apiConfig w); rewrite set_apiConfig_same; split; reflexivity|].
  destruct (JSON_parse P stored) as [storedConfig | e];
    [|exists (apiConfig w); rewrite set_apiConfig_same; split; reflexivity].
  destruct (Js.get storedConfig "enableSemanticSearch") as [semantic | e];
    [|exists (apiConfig w); rewrite set_apiConfig_same; split; reflexivity].
  eexists. split; [reflexivity|].
  cbn [useLangChain enableBatchProcessing enableAdvancedPrompts].
  now rewrite !spread_field_twice.
Qed.

End Settings.

(** X11.  Saved settings persist.  With a [JSON.parse] that reads back
    what the wrapper writes, [updateAPIConfig] overrides exactly the
    fields given, and [loadAPIConfig] afterwards returns the updated
    configuration whatever the module variable holds at that time, for
    instance the defaults after a reload; a semantic search switched off
    stays off. *)
Theorem saved_settings_are_loaded_back :
  forall (P : Platform) (newConfig : ApiWrapper.PartialConfig) (w : World),
    (forall c, JSON_parse P (ApiWrapper.stringify_config c) = Ok (config_json c)) ->
    exists w1,
      ApiWrapper.updateAPIConfig newConfig w = (Ok tt, w1)
      /\ useLangChain (apiConfig w1)
         = ApiWrapper.or_else (ApiWrapper.p_useLangChain newConfig) (useLangChain (apiConfig w))
      /\ enableBatchProcessing (apiConfig w1)
         = ApiWrapper.or_else (ApiWrapper.p_enableBatchProcessing newConfig)
             (enableBatchProcessing (apiConfig w))
      /\ enableAdvancedPrompts (apiConfig w1)
         = ApiWrapper.or_else (ApiWrapper.p_enableAdvancedPrompts newConfig)
             (enableAdvancedPrompts (apiConfig w))
      /\ enableSemanticSearch (apiConfig w1)
         = ApiWrapper.or_else (ApiWrapper.p_enableSemanticSearch newConfig)
             (enableSemanticSearch (apiConfig w))
      /\ forall c0,
          ApiWrapper.loadAPIConfig P (set_apiConfig c0 w1) = (Ok (apiConfig w1), w1).
Proof.
  intros P newConfig w Hparse.
  set (c' := mkConfig
               (ApiWrapper.or_else (ApiWrapper.p_useLangChain newConfig)
                  (useLangChain (apiConfig w)))
               (ApiWrapper.or_else (ApiWrapper.p_enableBatchProcessing newConfig)
                  (enableBatchProcessing (apiConfig w)))
               (ApiWrapper.or_else (ApiWrapper.p_enableAdvancedPrompts newConfig)
                  (enableAdvancedPrompts (apiConfig w)))
               (ApiWrapper.or_else (ApiWrapper.p_enableSemanticSearch newConfig)
                  (enableSemanticSearch (apiConfig w)))).
  exists (set_ls_api_config (Some (ApiWrapper.stringify_config c')) (set_apiConfig c' w)).
  split; [reflexivity|].
  repeat (split; [reflexivity|]).
  intros c0.
  generalize c'. clear c'. intros c'.
  rewrite (loadAPIConfig_object P
             (set_apiConfig c0
                (set_ls_api_config (Some (ApiWrapper.stringify_config c'))
                   (set_apiConfig c' w)))
             (ApiWrapper.stringify_config c') _ eq_refl eq_refl (Hparse c')).
  destruct c' as [[] [] [] []]; reflexivity.
Qed.

Lemma saved_settings_witness :
  (forall c, JSON_parse Sample2.platform_reading_settings (ApiWrapper.stringify_config c)
             = Ok (config_json c))
  /\ exists w1,
      ApiWrapper.updateAPIConfig (ApiWrapper.mkPartial None None None (Some false))
        Sample.world = (Ok tt, w1)
      /\ ApiWrapper.loadAPIConfig Sample2.platform_reading_settings
           (set_apiConfig ApiWrapper.default_apiConfig w1)
         = (Ok (mkConfig true true true false), w1).
Proof.
  assert (Hparse : forall c, JSON_parse Sample2.platform_reading_settings
                               (ApiWrapper.stringify_config c) = Ok (config_json c))
    by (intros [[] [] [] []]; vm_compute; reflexivity).
  split; [exact Hparse|].
  destruct (saved_settings_are_loaded_back Sample2.platform_reading_settings
              (ApiWrapper.mkPartial None None None (Some false)) Sample.world Hparse)
    as (w1 & Hup & _ & _ & _ & _ & Hload).
  exists w1. split; [exact Hup|].
  rewrite (Hload ApiWrapper.default_apiConfig).
  inversion Hup. reflexivity.
Defined.

(** X12.  Settings that cannot be used are ignored without an error:
    when nothing is stored, or the stored text is empty, or [JSON.parse]
    rejects it, or it denotes [null], [loadAPIConfig] returns the
    configuration in memory and changes nothing. *)
Theorem unreadable_settings_are_ignored :
  forall (P : Platform) (w : World),
    match ls_api_config w with
    | None => True
    | Some stored =>
        JsString.isEmpty stored = true
        \/ (exists e, JSON_parse P stored = Throw e)
        \/ JSON_parse P stored = Ok JNull
    end ->
    ApiWrapper.loadAPIConfig P w = (Ok (apiConfig w), w)
    /\ ApiWrapper.getCurrentAPIInfo P w
       = (Ok (ApiWrapper.mkInfo
                (if useLangChain (apiConfig w) then "LangChain" else "Traditional")
                (useLangChain (apiConfig w) && enableBatchProcessing (apiConfig w))
                (useLangChain (apiConfig w) && enableAdvancedPrompts (apiConfig w))
                (useLangChain (apiConfig w))
                (useLangChain (apiConfig w))
                (useLangChain (apiConfig w))
                (useLangChain (apiConfig w) && enableSemanticSearch (apiConfig w))), w).
Proof.
  intros P w H. pose proof (loadAPIConfig_unreadable P w H) as Hload.
  split; [exact Hload|].
  unfold ApiWrapper.getCurrentAPIInfo. unfold bind at 1. rewrite Hload. reflexivity.
Qed.

Lemma unreadable_settings_witness :
  (JsString.isEmpty "not json" = true
   \/ (exists e, JSON_parse Sample.platform "not json" = Throw e)
   \/ JSON_parse Sample.platform "not json" = Ok JNull)
  /\ ApiWrapper.loadAPIConfig Sample.platform (Sample2.world_storing "not json")
     = (Ok ApiWrapper.default_apiConfig, Sample2.world_storing "not json").
Proof.
  assert (H : JsString.isEmpty "not json" = true
              \/ (exists e, JSON_parse Sample.platform "not json" = Throw e)
              \/ JSON_parse Sample.platform "not json" = Ok JNull)
    by (right; left; exists SyntaxError; reflexivity).
  split; [exact H|].
  exact (proj1 (unreadable_settings_are_ignored Sample.platform
                  (Sample2.world_storing "not json") H)).
Defined.

(** X13.  Stored settings without the field [enableSemanticSearch], or
    with [null] there, switch semantic search on, also when it was off
    in memory; the three other toggles take the truthiness of the stored
    value where the stored object has the field, and keep the value in
    memory where it has not. *)
Theorem settings_without_semantic_field_switch_it_on :
  forall (P : Platform) (w : World) (stored : string) (fields : list (string * JSON)),
    ls_api_config w = Some stored ->
    JsString.isEmpty stored = false ->
    JSON_parse P stored = Ok (JObj fields) ->
    Js.lookup "enableSemanticSearch" fields = None
    \/ Js.lookup "enableSemanticSearch" fields = Some JNull ->
    exists config,
      ApiWrapper.loadAPIConfig P w = (Ok config, set_apiConfig config w)
      /\ enableSemanticSearch config = true
      /\ Forall (fun '(key, field) =>
                   field config
                   = match Js.lookup key fields with
                     | Some v => Js.truthy (Some v)
                     | None => field (apiConfig w)
                     end)
           [("useLangChain", useLangChain);
            ("enableBatchProcessing", enableBatchProcessing);
            ("enableAdvancedPrompts", enableAdvancedPrompts)].
Proof.
  intros P w stored fields Hs He Hp Hsem.
  eexists. split; [exact (loadAPIConfig_object P w stored fields Hs He Hp)|].
  cbn [enableSemanticSearch useLangChain enableBatchProcessing enableAdvancedPrompts].
  split; [destruct Hsem as [-> | ->]; reflexivity|].
  repeat constructor.
Qed.

Lemma settings_without_semantic_field_witness :
  (ls_api_config (set_apiConfig (mkConfig true true true false)
                    (Sample2.world_storing Sample2.legacy_settings))
   = Some Sample2.legacy_settings
   /\ JsString.isEmpty Sample2.legacy_settings = false
   /\ JSON_parse Sample2.platform_reading_settings Sample2.legacy_settings
      = Ok (JObj [("useLangChain", JBool false); ("enableBatchProcessing", JBool true)]))
  /\ exists config w',
      ApiWrapper.loadAPIConfig Sample2.platform_reading_settings
        (set_apiConfig (mkConfig true true true false)
           (Sample2.world_storing Sample2.legacy_settings))
      = (Ok config, w')
      /\ enableSemanticSearch config = true.
Proof.
  split; [repeat split; vm_compute; reflexivity|].
  destruct (settings_without_semantic_field_switch_it_on Sample2.platform_reading_settings
              (set_apiConfig (mkConfig true true true false)
                 (Sample2.world_storing Sample2.legacy_settings))
              Sample2.legacy_settings
              [("useLangChain", JBool false); ("enableBatchProcessing", JBool true)]
              eq_refl ltac:(vm_compute; reflexivity) ltac:(vm_compute; reflexivity)
              (or_introl eq_refl))
    as (config & Hload & Hon & _).
  exists config. eexists. split; [exact Hload | exact Hon].
Defined.

(** X14.  Loading the settings is idempotent: a second [loadAPIConfig]
    returns the configuration the first returned and changes nothing
    further, and the first changes nothing but the configuration in
    memory. *)
Theorem loading_settings_twice_changes_nothing :
  forall (P : Platform) (w : World),
  exists config,
    ApiWrapper.loadAPIConfig P w = (Ok config, set_apiConfig config w)
    /\ ApiWrapper.loadAPIConfig P (set_apiConfig config w)
       = (Ok config, set_apiConfig config w).
Proof. intros P w. apply loadAPIConfig_again. Qed.

(** X15.  The flag the batch form is rendered with agrees with the gate
    of [processBatchClauses]: when [canUseBatch] is true the call goes
    on to the batch analysis, and when it is false the call throws one
    of the two configuration errors without calling anything. *)
Theorem batch_flag_agrees_with_gate :
  forall (P : Platform) (clauses : list string) (w : World),
  exists flag w0,
    BatchDemo.canUseBatch P w = (Ok flag, w0)
    /\ events w0 = events w
    /\ (flag = true ->
        ApiWrapper.processBatchClauses P clauses w0
        = LangchainApi.analyzeBatchClauses P clauses w0)
    /\ (flag = false ->
        exists message,
          ApiWrapper.processBatchClauses P clauses w0 = (Throw (Error message), w0)
          /\ In message ["Batch processing is only available with LangChain API";
                         "Batch processing is disabled in configuration"]).
Proof.
  intros P clauses w.
  destruct (loadAPIConfig_again P w) as (config & Hload & Hagain).
  exists (useLangChain config && enableBatchProcessing config), (set_apiConfig config w).
  split.
  - unfold BatchDemo.canUseBatch, ApiWrapper.getCurrentAPIInfo. run.
    rewrite Hload. reflexivity.
  - split; [reflexivity|].
    rewrite (processBatchClauses_run P clauses _ _ config Hagain).
    destruct (useLangChain config), (enableBatchProcessing config); cbn;
      split; intros Hf; try discriminate; try reflexivity;
      eexists; (split; [reflexivity|]); cbn; auto.
Qed.

(** ** The API key and the traditional follow-up *)

Section KeyHandling.
Variable P : Platform.


Lemma legacy_followup_without_key (question originalClause : string) (w : World) :
  configured_key w = None ->
  ApiServices.submitFollowupQuestion P question originalClause w
  = (Throw (Error "Gemini API key not found"),
     set_events
       (events w
          ++ [EvReadApiKey;
              EvToast toast_error "Please enter your Gemini API key in settings";
              EvToast toast_error "Failed to submit follow-up question"]) w).
Proof.
  intros Hkey.
  unfold ApiServices.submitFollowupQuestion, ApiServices.getGeminiApiKey.
  unfold try_catch at 1. unfold bind at 1.
  rewrite getGeminiApiKey_run.
  unfold configured_key in Hkey. rewrite Hkey.
  destruct w; cbn; rewrite <- ?app_assoc; reflexivity.
Qed.

Lemma analyzeBatchClauses_without_key (clauses : list string) (w : World) :
  configured_key w = None ->
  LangchainApi.analyzeBatchClauses P clauses w
  = (Throw (Error "Gemini API key not found"),
     set_events
       (events w
          ++ [EvReadApiKey;
              EvToast toast_error "Failed to analyze clauses in batch"]) w).
Proof.
  intros Hkey.
  unfold LangchainApi.analyzeBatchClauses.
  unfold try_catch at 1. unfold bind at 1.
  rewrite getGeminiApiKey_run.
  unfold configured_key in Hkey. rewrite Hkey.
  destruct w; cbn; rewrite <- ?app_assoc; reflexivity.
Qed.


End KeyHandling.



(** X17.  Without a usable API key nothing is sent anywhere: the
    analysis, the batch analysis and both follow-ups throw 'Gemini API
    key not found' after reading the key, and add only error notices to
    the log; no model instance is created, nothing is saved and the
    cache is left alone. *)
Theorem no_usable_key_no_call :
  forall (P : Platform) (clause question : string) (clauses : list string) (w : World),
    configured_key w = None ->
    refused_for_key (LangchainApi.analyzeClause P clause) w
    /\ refused_for_key (LangchainApi.analyzeBatchClauses P clauses) w
    /\ refused_for_key (LangchainApi.submitFollowupQuestion P question clause) w
    /\ refused_for_key (ApiServices.submitFollowupQuestion P question clause) w.
Proof.
  intros P clause question clauses w Hkey. unfold refused_for_key.
  rewrite (analyzeClause_without_key P clause w Hkey),
    (analyzeBatchClauses_without_key P clauses w Hkey),
    (langchain_followup_without_key P question clause w Hkey),
    (legacy_followup_without_key P question clause w Hkey).
  repeat split; eexists; (split; [reflexivity|]); repeat constructor; eexists; reflexivity.
Qed.

Lemma no_usable_key_witness :
  configured_key Sample.world_no_key = None
  /\ refused_for_key (LangchainApi.analyzeBatchClauses Sample.platform Sample.eleven_clauses)
       Sample.world_no_key.
Proof.
  split; [reflexivity|].
  exact (proj1 (proj2 (no_usable_key_no_call Sample.platform Sample.clause "Who pays?"
                         Sample.eleven_clauses Sample.world_no_key eq_refl))).
Defined.

(** X18.  The key of the signed-in user's row is the one that counts,
    even when the row holds none: the analysis is then refused although
    localStorage holds a usable key, and the same session signed out
    analyses the clause with the key of localStorage. *)
Theorem stored_row_shadows_local_key :
  forall (P : Platform) (clause : string) (w : World) (user : string)
         (row : option string) (key : string),
    auth_user w = Some user ->
    api_keys_row w = Some row ->
    LangchainApi.usable_key row = None ->
    LangchainApi.usable_key (ls_gemini_api_key w) = Some key ->
    refused_for_key (LangchainApi.analyzeClause P clause) w
    /\ LangchainApi.analyzeClause P clause (signed_out w)
       = (analysis_outcome P key clause, world_after_analysis P key clause (signed_out w)).
Proof.
  intros P clause w user row key Huser Hrow Hnone Hlocal. split.
  - unfold refused_for_key. rewrite (analyzeClause_without_key P clause w).
    + eexists. split; [reflexivity|]. repeat constructor; eexists; reflexivity.
    + unfold configured_key. now rewrite Huser, Hrow.
  - apply analyzeClause_with_key. exact Hlocal.
Qed.

Lemma stored_row_shadows_witness :
  (auth_user Sample2.world_with_empty_row = Some "user-1"
   /\ api_keys_row Sample2.world_with_empty_row = Some None
   /\ LangchainApi.usable_key (ls_gemini_api_key Sample2.world_with_empty_row)
      = Some "key-123")
  /\ refused_for_key (LangchainApi.analyzeClause Sample.platform Sample.clause)
       Sample2.world_with_empty_row.
Proof.
  split; [repeat split; reflexivity|].
  exact (proj1 (stored_row_shadows_local_key Sample.platform Sample.clause
                  Sample2.world_with_empty_row "user-1" None "key-123"
                  eq_refl eq_refl eq_refl eq_refl)).
Defined.

(** ** Batches of analyses *)

Section BatchOutcome.
Variable P : Platform.
Import LangchainApi.

Lemma all_outcomes_ok_iff {A : Type} (outcomes : list (Exc A)) (values : list A) :
  all_outcomes outcomes = Ok values <-> outcomes = map Ok values.
Proof.
  revert values. induction outcomes as [| r rest IH]; intros values; cbn.
  - split.
    + intros [= <-]. reflexivity.
    + destruct values; [reflexivity | discriminate].
  - destruct r as [b | e].
    + destruct (all_outcomes rest) as [bs | e] eqn:E.
      * split.
        -- intros [= <-]. cbn. f_equal. now apply IH.
        -- destruct values as [| v vs]; [discriminate|]. cbn. intros [= -> Hrest].
           apply IH in Hrest. now inversion Hrest.
      * split; [discriminate|].
        destruct values as [| v vs]; [discriminate|]. cbn. intros [= -> Hrest].
        apply IH in Hrest. discriminate.
    + split; [discriminate|]. destruct values; discriminate.
Qed.

Lemma all_outcomes_throw_iff {A : Type} (outcomes : list (Exc A)) :
  (exists e, all_outcomes outcomes = Throw e) <-> exists e, In (Throw e) outcomes.
Proof.
  induction outcomes as [| r rest IH]; cbn.
  - split; intros [e H]; [discriminate | destruct H].
  - destruct r as [b | e].
    + destruct (all_outcomes rest) as [bs | e] eqn:E.
      * split; [intros [e H]; discriminate|].
        intros [e [H | H]]; [discriminate|].
        destruct (proj2 IH (ex_intro _ e H)) as [e' H']. discriminate.
      * split; [|intros _; now exists e].
        intros _. destruct (proj1 IH (ex_intro _ e eq_refl)) as [e' H'].
        exists e'. now right.
    + split; [intros _; exists e; now left | intros _; now exists e].
Qed.

Lemma promise_all_analyze_run (key : string) (clauses : list string) (w : World) :
  configured_key w = Some key ->
  promise_all (analyzeClause P) clauses w
  = (all_outcomes (map (analysis_outcome P key) clauses),
     worlds_after_analyses P key clauses w).
Proof.
  revert w. induction clauses as [| clause clauses IH]; intros w Hkey; [reflexivity|].
  cbn [promise_all map all_outcomes worlds_after_analyses fold_left].
  rewrite (analyzeClause_with_key P clause w key Hkey).
  rewrite (IH (world_after_analysis P key clause w)
             (eq_trans (configured_key_after_analysis P key clause w) Hkey)).
  unfold worlds_after_analyses.
  destruct (analysis_outcome P key clause);
    destruct (all_outcomes (map (analysis_outcome P key) clauses)); reflexivity.
Qed.

Lemma worlds_after_analyses_history (key : string) (clauses : list string) (w : World) :
  chat_history (worlds_after_analyses P key clauses w)
  = chat_history w ++ saved_rows P key (auth_user w) clauses
  /\ auth_user (worlds_after_analyses P key clauses w) = auth_user w
  /\ vectorStoreCache (worlds_after_analyses P key clauses w) = vectorStoreCache w.
Proof.
  revert w. induction clauses as [| clause clauses IH]; intros w.
  - cbn. now rewrite app_nil_r.
  - cbn [worlds_after_analyses fold_left saved_rows flat_map].
    destruct (IH (world_after_analysis P key clause w)) as (Hh & Hu & Hc).
    unfold worlds_after_analyses in *. rewrite Hh, Hu, Hc.
    cbn [world_after_analysis chat_history auth_user vectorStoreCache].
    rewrite <- app_assoc. repeat split.
Qed.

Lemma analyzeBatchClauses_run (key : string) (clauses : list string) (w : World) :
  configured_key w = Some key ->
  exists w',
    analyzeBatchClauses P clauses w
    = (all_outcomes (map (analysis_outcome P key) clauses), w')
    /\ chat_history w' = chat_history w ++ saved_rows P key (auth_user w) clauses
    /\ vectorStoreCache w' = vectorStoreCache w.
Proof.
  intros Hkey.
  unfold analyzeBatchClauses. unfold try_catch at 1. unfold bind at 1.
  rewrite getGeminiApiKey_run.
  unfold configured_key in Hkey. rewrite Hkey.
  unfold toast, emit, modify. unfold bind at 1. unfold bind at 1.
  match goal with
  | |- context [promise_all (analyzeClause P) clauses ?w0] =>
      rewrite (promise_all_analyze_run key clauses w0 Hkey);
      destruct (worlds_after_analyses_history key clauses w0) as (Hh & _ & Hc)
  end.
  cbn [chat_history auth_user vectorStoreCache set_events] in Hh, Hc.
  destruct (all_outcomes (map (analysis_outcome P key) clauses)) as [results | e];
    run; (eexists; split; [reflexivity|]); cbn [chat_history vectorStoreCache set_events];
    split; assumption.
Qed.

End BatchOutcome.

(** X19.  A batch is all or nothing in what it returns, not in what it
    saves.  With an API key configured, [analyzeBatchClauses] returns
    the analyses of the clauses, in their order, exactly when every
    clause is analysed with success, and throws when one fails;
    but each clause analysed with success is saved for a signed-in user
    either way. *)
Theorem batch_returns_all_or_nothing :
  forall (P : Platform) (clauses : list string) (w : World) (key : string),
    configured_key w = Some key ->
    exists outcome w',
      LangchainApi.analyzeBatchClauses P clauses w = (outcome, w')
      /\ (forall results,
             outcome = Ok results
             <-> map (analysis_outcome P key) clauses = map Ok results)
      /\ ((exists e, outcome = Throw e)
          <-> exists clause e,
                In clause clauses /\ analysis_outcome P key clause = Throw e)
      /\ chat_history w' = chat_history w ++ saved_rows P key (auth_user w) clauses
      /\ vectorStoreCache w' = vectorStoreCache w.
Proof.
  intros P clauses w key Hkey.
  destruct (analyzeBatchClauses_run P key clauses w Hkey) as (w' & Hrun & Hh & Hc).
  eexists; exists w'. split; [exact Hrun|].
  split; [intros results; apply all_outcomes_ok_iff|].
  split; [|split; assumption].
  rewrite all_outcomes_throw_iff. split.
  - intros [e Hin]. apply in_map_iff in Hin as (clause & Hc' & Hin). eauto.
  - intros (clause & e & Hin & Hc'). exists e. rewrite <- Hc'. now apply in_map.
Qed.

Lemma batch_returns_all_or_nothing_witness :
  configured_key Sample2.world_signed_in = Some "key-123"
  /\ exists outcome w',
      LangchainApi.analyzeBatchClauses Sample.platform ["clause 1"; "clause 2"]
        Sample2.world_signed_in = (outcome, w')
      /\ List.length (chat_history w') = 2.
Proof.
  split; [reflexivity|].
  destruct (batch_returns_all_or_nothing Sample.platform ["clause 1"; "clause 2"]
              Sample2.world_signed_in "key-123" eq_refl)
    as (outcome & w' & Hrun & _ & _ & Hh & _).
  exists outcome, w'. split; [exact Hrun|].
  rewrite Hh. vm_compute. reflexivity.
Defined.

(** ** What the validators return *)


(** X21.  One unreadable item in the model's list of risky terms fails
    the whole analysis: with an API key configured and the three answers
    received, [analyzeClause] throws the [TypeError], reports the
    failure, and saves nothing, the explanation and the articles
    notwithstanding. *)
Theorem unreadable_risky_item_fails_the_analysis :
  forall (P : Platform) (clause : string) (w : World) (key : string)
         (simplified_ risky articles : string) (items : list JSON),
    configured_key w = Some key ->
    llm_complete P key (LangchainApi.simplificationTemplate clause) = Ok simplified_ ->
    llm_complete P key (LangchainApi.riskyTermsTemplate clause) = Ok risky ->
    llm_complete P key (LangchainApi.governmentArticlesTemplate clause) = Ok articles ->
    JSON_parse P risky = Ok (JArr items) ->
    forallb risky_item items = false ->
    exists w',
      LangchainApi.analyzeClause P clause w = (Throw TypeError, w')
      /\ chat_history w' = chat_history w
      /\ events_added w w'
           ([EvReadApiKey; EvNewLLM key;
             EvToast toast_info "Analyzing your legal clause with advanced AI..."]
            ++ analysis_calls key clause
            ++ [EvToast toast_error "Failed to analyze legal clause"]).
Proof.
  intros P clause w key simplified_ risky articles items Hkey Hs Hr Ha Hparse Hbad.
  rewrite (analyzeClause_with_key P clause w key Hkey).
  assert (Hout : analysis_outcome P key clause = Throw TypeError).
  { unfold analysis_outcome. rewrite Hs, Hr, Ha. cbn [exc_bind].
    unfold LangchainApi.parse_and_validate.
    rewrite !parseJSONResponse_layered. cbn [exc_bind].
    replace (layered_result P risky (JArr [])) with (JArr items)
      by (unfold layered_result, parse_opt; now rewrite Hparse).
    now rewrite (validateRiskyTerms_fails P items Hbad). }
  eexists. split; [now rewrite Hout|].
  unfold world_after_analysis. rewrite Hout.
  cbn [chat_history events]. split; [now rewrite app_nil_r|].
  unfold events_added. reflexivity.
Qed.

Lemma unreadable_risky_item_witness :
  (configured_key Sample2.world_signed_in = Some "key-123"
   /\ llm_complete Sample2.platform_null_item "key-123"
        (LangchainApi.riskyTermsTemplate Sample.clause) = Ok "[null]"
   /\ JSON_parse Sample2.platform_null_item "[null]" = Ok (JArr [JNull])
   /\ forallb risky_item [JNull] = false)
  /\ exists w',
      LangchainApi.analyzeClause Sample2.platform_null_item Sample.clause
        Sample2.world_signed_in = (Throw TypeError, w')
      /\ chat_history w' = chat_history Sample2.world_signed_in.
Proof.
  split; [repeat split; vm_compute; reflexivity|].
  destruct (unreadable_risky_item_fails_the_analysis Sample2.platform_null_item Sample.clause
              Sample2.world_signed_in "key-123" " The clause means what it says. "
              "[null]" "[]" [JNull] eq_refl
              ltac:(vm_compute; reflexivity) ltac:(vm_compute; reflexivity)
              ltac:(vm_compute; reflexivity) eq_refl eq_refl)
    as (w' & Hrun & Hh & _).
  exists w'. split; assumption.
Defined.

(** ** The two forms *)

(** X22.  The handler of the question form never throws and guards the
    call: a blank question or clause, or a missing key flag, ends with
    one notice and no call at all; otherwise the wrapper's follow-up is
    called once with the question as typed, and an entry is appended
    exactly when it succeeds, carrying the question, the answer, and the
    context metrics exactly when the answer came from the semantic
    path. *)
Theorem question_form_outcomes :
  forall (P : Platform) (followupQuestion legalClause : string) (hasApiKey : bool)
         (analysisData : option AnalysisResponse) (w : World),
  exists outcome w',
    FollowupSection.handleSubmitQuestion P followupQuestion legalClause hasApiKey
      analysisData w = (Ok outcome, w')
    /\ (JsString.isEmpty (JsString.trim followupQuestion) = true
        \/ JsString.isEmpty (JsString.trim legalClause) = true ->
        outcome = FollowupSection.Dismissed
        /\ events_added w w' [EvToast toast_warning "Please enter a question"])
    /\ (JsString.isEmpty (JsString.trim followupQuestion) = false ->
        JsString.isEmpty (JsString.trim legalClause) = false ->
        hasApiKey = false ->
        outcome = FollowupSection.SettingsOpened
        /\ events_added w w'
             [EvToast toast_error "Please enter your Gemini API key in settings first"])
    /\ (JsString.isEmpty (JsString.trim followupQuestion) = false ->
        JsString.isEmpty (JsString.trim legalClause) = false ->
        hasApiKey = true ->
        exists result,
          ApiWrapper.submitFollowupQuestion P followupQuestion legalClause analysisData w
          = (result, w')
          /\ outcome
             = match result with
               | Ok (ApiWrapper.Enhanced r) =>
                   FollowupSection.Answered
                     (FollowupSection.mkFollowupAnswer followupQuestion
                        (SemanticSearch.answer r) (Some (SemanticSearch.contextMetrics r)))
               | Ok (ApiWrapper.Plain a) =>
                   FollowupSection.Answered
                     (FollowupSection.mkFollowupAnswer followupQuestion a None)
               | Throw _ => FollowupSection.Failed
               end).
Proof.
  intros P followupQuestion legalClause hasApiKey analysisData w.
  unfold FollowupSection.handleSubmitQuestion.
  destruct (JsString.isEmpty (JsString.trim followupQuestion)) eqn:Hq;
    [|destruct (JsString.isEmpty (JsString.trim legalClause)) eqn:Hc;
      [|destruct hasApiKey]]; cbn [orb negb].
  - eexists; eexists. split; [reflexivity|].
    split; [intros _; split; [reflexivity | unfold events_added; reflexivity]|].
    split; [discriminate | discriminate].
  - eexists; eexists. split; [reflexivity|].
    split; [intros _; split; [reflexivity | unfold events_added; reflexivity]|].
    split; [discriminate | discriminate].
  - run.
    destruct (ApiWrapper.submitFollowupQuestion P followupQuestion legalClause analysisData w)
      as [[[r | a] | e] w'] eqn:Hrun;
      (eexists; eexists; split; [reflexivity|];
       split; [intros [H | H]; discriminate|];
       split; [discriminate|];
       intros _ _ _; eexists; split; reflexivity).
  - eexists; eexists. split; [reflexivity|].
    split; [intros [H | H]; discriminate|].
    split; [intros _ _ _; split; [reflexivity | unfold events_added; reflexivity]|].
    discriminate.
Qed.

Section BatchForm.
Variable P : Platform.

Lemma clauseList_of_entries (text : string) :
  Forall (fun clause => 10 < String.length clause
                        /\ exists part, In part (split_clauses P text)
                                        /\ clause = JsString.trim part)
    (BatchDemo.clauseList_of P text).
Proof.
  unfold BatchDemo.clauseList_of. apply Forall_forall. intros clause Hin.
  apply in_map_iff in Hin as (part & <- & Hin).
  apply filter_In in Hin as [Hin Hlen]. apply Nat.ltb_lt in Hlen.
  split; [exact Hlen | now exists part].
Qed.

End BatchForm.

(** X23.  The handler of the batch form never throws and is decided by
    its guards and by the one call it makes.  Rendered without batch
    processing, or on a blank text, or with no clause or more than 10
    clauses found, it ends with one error or warning notice, no call and
    no results.  Otherwise it hands [processBatchClauses] the clauses
    found, between 1 and 10, each a trimmed part of the text longer than
    10 characters: when that call throws, no results are set and the
    failure notice is shown; when it returns, its results are set, the
    component's [onAnalysisComplete] is called with them, and the
    success notice follows, or the failure notice when that callback
    throws. *)
Theorem batch_form_outcomes :
  forall (P : Platform) (onAnalysisComplete : option (list AnalysisResponse -> M unit))
         (canUseBatch_ : bool) (text : string) (w : World),
    let clauseList := BatchDemo.clauseList_of P text in
    let started :=
      set_events
        (events w
           ++ [EvToast toast_info
                 ("Starting batch analysis of " ++ JsString.of_nat (List.length clauseList)
                  ++ " clauses...")]) w in
    let failed := EvToast toast_error "Failed to process batch analysis" in
    (canUseBatch_ = false
     \/ JsString.isEmpty (JsString.trim text) = true
     \/ List.length clauseList = 0
     \/ 10 < List.length clauseList ->
     exists level message,
       BatchDemo.handleBatchAnalysis P onAnalysisComplete canUseBatch_ text w
       = (Ok None, set_events (events w ++ [EvToast level message]) w)
       /\ (level = toast_error \/ level = toast_warning))
    /\ (canUseBatch_ = true ->
        JsString.isEmpty (JsString.trim text) = false ->
        1 <= List.length clauseList <= 10 ->
        Forall (fun clause => 10 < String.length clause
                              /\ exists part, In part (split_clauses P text)
                                              /\ clause = JsString.trim part)
          clauseList
        /\ exists r w1,
            ApiWrapper.processBatchClauses P clauseList started = (r, w1)
            /\ match r with
               | Throw _ =>
                   BatchDemo.handleBatchAnalysis P onAnalysisComplete canUseBatch_ text w
                   = (Ok None, set_events (events w1 ++ [failed]) w1)
               | Ok results =>
                   exists c w2,
                     BatchDemo.call_optional onAnalysisComplete results w1 = (c, w2)
                     /\ BatchDemo.handleBatchAnalysis P onAnalysisComplete canUseBatch_ text w
                        = (Ok (Some results),
                           set_events
                             (events w2
                                ++ [match c with
                                    | Ok _ =>
                                        EvToast toast_success
                                          ("Successfully analyzed "
                                           ++ JsString.of_nat (List.length results)
                                           ++ " clauses!")
                                    | Throw _ => failed
                                    end]) w2)
               end).
Proof.
  intros P onAnalysisComplete canUseBatch_ text w clauseList started failed.
  unfold BatchDemo.handleBatchAnalysis. fold clauseList.
  destruct (JsString.isEmpty (JsString.trim text)) eqn:Hempty.
  { split; [|discriminate].
    intros _. exists toast_error. eexists. split; [reflexivity | now left]. }
  destruct canUseBatch_; cbn [negb].
  2:{ split; [|discriminate].
      intros _. exists toast_error. eexists. split; [reflexivity | now left]. }
  destruct (Nat.eqb_spec (List.length clauseList) 0) as [Hzero | Hpos].
  { split; [|intros _ _ Hlen; lia].
    intros _. exists toast_error. eexists. split; [reflexivity | now left]. }
  destruct (Nat.ltb_spec 10 (List.length clauseList)) as [Hmany | Hfew].
  { split; [|intros _ _ Hlen; lia].
    intros _. exists toast_warning. eexists. split; [reflexivity | now right]. }
  split; [intros [H | [H | [H | H]]]; try discriminate; lia|].
  intros _ _ _. split; [apply clauseList_of_entries|].
  unfold toast, emit, modify. run. fold started.
  destruct (ApiWrapper.processBatchClauses P clauseList started) as [[results | e] w1].
  - eexists; eexists. split; [reflexivity|].
    unfold BatchDemo.call_optional.
    destruct onAnalysisComplete as [callback|].
    + destruct (callback results w1) as [[[] | e] w2];
        (eexists; eexists; split; reflexivity).
    + eexists; eexists. split; reflexivity.
  - eexists; eexists. split; reflexivity.
Qed.

Lemma batch_form_witness :
  (JsString.isEmpty (JsString.trim Sample2.two_clauses_text) = false
   /\ 1 <= List.length (BatchDemo.clauseList_of Sample.platform Sample2.two_clauses_text)
      <= 10)
  /\ exists results w',
      BatchDemo.handleBatchAnalysis Sample.platform (Some LangChainDemoPage.onAnalysisComplete)
        true Sample2.two_clauses_text Sample.world = (Ok (Some results), w')
      /\ List.length results = 2.
Proof.
  assert (H1 : JsString.isEmpty (JsString.trim Sample2.two_clauses_text) = false)
    by reflexivity.
  assert (H2 : 1 <= List.length (BatchDemo.clauseList_of Sample.platform
                                   Sample2.two_clauses_text) <= 10)
    by (vm_compute; lia).
  split; [split; assumption|].
  destruct (proj2 (batch_form_outcomes Sample.platform
                     (Some LangChainDemoPage.onAnalysisComplete) true
                     Sample2.two_clauses_text Sample.world) eq_refl H1 H2)
    as (_ & r & w1 & Hcall & Hrun).
  vm_compute in Hcall. injection Hcall as <- <-.
  destruct Hrun as (c & w2 & _ & Hrun).
  eexists; eexists. split; [exact Hrun | reflexivity].
Defined.

(** ** What an analysis returns *)

Section Trim.
Import JsString.





End Trim.

Section AnalysisResult.
Variable P : Platform.
Import LangchainApi.




End AnalysisResult.


